(** * gallery_dl.extractor.imagechest: a shallow embedding

    The module [src/gallery_dl/extractor/imagechest.py] holds three classes:
    [ImagechestGalleryExtractor] (page-scrape and API resolution of one
    gallery), [ImagechestUserExtractor] (the paginated listing of a user's
    galleries) and [ImagechestAPI] (the authenticated client with its
    retry loop).  This file embeds them as Rocq functions and proves the
    properties the specification states about them.

    Conventions.
    - A Python [str] is a [string] holding its UTF-8 bytes.
    - A Python object that the module handles (decoded JSON, the metadata
      dictionaries it builds) is a [value]; a [dict] is an association
      list in insertion order, as Python keeps it.
    - A Python exception is an [exn]; code that may raise returns a
      [result].
    - The transport ([Extractor.request]), the waiting and the logging are
      effects on a [world]: a script of replies still to come and the
      trace of what the code did so far.
    - What the module takes from files that are not part of it
      ([text.parse_datetime], [text.unquote], the entity tables behind
      [text.unescape]) is a parameter of the methods that use it. *)

From Stdlib Require Import String Ascii List ZArith NArith Lia Bool Arith.
Import ListNotations.
Open Scope list_scope.
Open Scope string_scope.

Set Warnings "-register-all".

(* ================================================================== *)
(** ** Python values and exceptions *)

Inductive value : Type :=
| VNone
| VBool (b : bool)
| VInt (z : Z)
| VFloat (literal : string)        (* a float, kept as its JSON literal *)
| VStr (s : string)
| VList (l : list value)
| VDict (d : list (string * value))
| VDatetime (stamp : Z)            (* a naive [datetime], as seconds *)
| VClass (name : string).          (* a class object, e.g. an extractor *)

Definition dict := list (string * value).

Inductive exn : Type :=
| NotFoundError (what : string)
| AuthenticationError (msg : string)
| StopExtraction (msg : string)
| HttpError (msg : string)
| KeyError (key : string)
| TypeError
| AttributeError (name : string)
| JSONDecodeError.

(** [except (TypeError, KeyError)] *)
Definition is_TypeError_or_KeyError (e : exn) : bool :=
  match e with
  | TypeError | KeyError _ => true
  | _ => false
  end.

(** [except Exception]: every exception of the model derives from it. *)
Definition is_Exception (e : exn) : bool := true.

Inductive result (A : Type) : Type :=
| Ok (a : A)
| Raise (e : exn).
Arguments Ok {A} a.
Arguments Raise {A} e.

Module Res.
Definition bind {A B} (r : result A) (k : A -> result B) : result B :=
  match r with
  | Ok a => k a
  | Raise e => Raise e
  end.

(** [try: r  except <sel>: h] *)
Definition catch {A} (r : result A) (sel : exn -> bool) (h : result A)
  : result A :=
  match r with
  | Ok a => Ok a
  | Raise e => if sel e then h else Raise e
  end.

Fixpoint mapM {A B} (f : A -> result B) (l : list A) : result (list B) :=
  match l with
  | [] => Ok []
  | x :: xs =>
      bind (f x) (fun y => bind (mapM f xs) (fun ys => Ok (y :: ys)))
  end.
End Res.

Notation "x <~ r ;; k" := (Res.bind r (fun x => k))
  (at level 61, r at next level, right associativity).

(* ================================================================== *)
(** ** Dictionaries *)

Fixpoint dict_get (k : string) (d : dict) : option value :=
  match d with
  | [] => None
  | (k', v) :: d' => if String.eqb k k' then Some v else dict_get k d'
  end.

(** [d[k] = v]: an existing key keeps its place, a new one goes last. *)
Fixpoint dict_set (k : string) (v : value) (d : dict) : dict :=
  match d with
  | [] => [(k, v)]
  | (k', v') :: d' =>
      if String.eqb k k' then (k, v) :: d' else (k', v') :: dict_set k v d'
  end.

(** The dictionary without the key [k] ([d.pop(k, None)], [del d[k]]). *)
Fixpoint dict_del (k : string) (d : dict) : dict :=
  match d with
  | [] => []
  | (k', v') :: d' =>
      if String.eqb k k' then dict_del k d' else (k', v') :: dict_del k d'
  end.

(** [v[k]] with a string key. *)
Definition getitem (v : value) (k : string) : result value :=
  match v with
  | VDict d =>
      match dict_get k d with
      | Some x => Ok x
      | None => Raise (KeyError k)
      end
  | _ => Raise TypeError
  end.

(** [v[k] = x] with a string key. *)
Definition setitem (v : value) (k : string) (x : value) : result value :=
  match v with
  | VDict d => Ok (VDict (dict_set k x d))
  | _ => Raise TypeError
  end.

(* ================================================================== *)
(** ** Strings: search, slices, code points *)

Fixpoint prefixb (p s : string) : bool :=
  match p, s with
  | EmptyString, _ => true
  | String a p', String b s' => Ascii.eqb a b && prefixb p' s'
  | String _ _, EmptyString => false
  end.

(** [s.find(sub)]: the offset of the first occurrence. *)
Fixpoint find (sub s : string) : option nat :=
  if prefixb sub s then Some 0
  else match s with
       | EmptyString => None
       | String _ s' => option_map S (find sub s')
       end.

(** [sub in s] *)
Definition contains (sub s : string) : bool :=
  match find sub s with
  | Some _ => true
  | None => false
  end.

(** [s[n:]] and [s[:n]] *)
Fixpoint drop (n : nat) (s : string) : string :=
  match n, s with
  | O, _ => s
  | S n', String _ s' => drop n' s'
  | S _, EmptyString => EmptyString
  end.

Fixpoint take (n : nat) (s : string) : string :=
  match n, s with
  | O, _ => EmptyString
  | S n', String a s' => String a (take n' s')
  | S _, EmptyString => EmptyString
  end.

(** [sep.join(parts)] on strings. *)
Fixpoint join (sep : string) (parts : list string) : string :=
  match parts with
  | [] => ""
  | [p] => p
  | p :: ps => p ++ sep ++ join sep ps
  end.

(** The double quote, as a character and as a string. *)
Definition dquote : ascii := "034"%char.
Definition dq : string := String dquote "".

(** A byte [10xxxxxx] continues a UTF-8 sequence. *)
Definition is_continuation (a : ascii) : bool :=
  let n := nat_of_ascii a in ((128 <=? n) && (n <? 192))%nat.

(** The code points of a string, each as a one-character string (what
    iterating over a Python [str] yields). *)
Fixpoint chars (s : string) : list string :=
  match s with
  | EmptyString => []
  | String a s' =>
      let rest := chars s' in
      match s', rest with
      | String b _, c :: cs =>
          if is_continuation b then String a c :: cs
          else String a "" :: rest
      | _, _ => String a "" :: rest
      end
  end.

(** [iter(v)]: lists give their elements, strings their characters,
    dictionaries their keys; nothing else modelled here is iterable. *)
Definition iterate (v : value) : result (list value) :=
  match v with
  | VList l => Ok l
  | VStr s => Ok (map VStr (chars s))
  | VDict d => Ok (map (fun kv => VStr (fst kv)) d)
  | _ => Raise TypeError
  end.

Definition as_str (v : value) : result string :=
  match v with
  | VStr s => Ok s
  | _ => Raise TypeError
  end.

(** [sep.join(v)]: [v] must be iterable and yield only strings. *)
Definition str_join (sep : string) (v : value) : result value :=
  items <~ iterate v ;;
  parts <~ Res.mapM as_str items ;;
  Ok (VStr (join sep parts)).

(* ================================================================== *)
(** ** [json.loads]

    The decoder of Python's standard library ([json.decoder],
    [json.scanner]) with its default settings ([strict=True], no hooks),
    on the UTF-8 bytes of the text.  Integers become [VInt], floats keep
    their literal, objects become dictionaries built pair by pair (a
    repeated key keeps its first place and its last value).  Every
    failure is [JSONDecodeError].  The limits of the interpreter (depth
    of recursion, digits of an integer literal) are not modelled. *)

Module Json.

Definition is_ws (a : ascii) : bool :=
  match nat_of_ascii a with
  | 32 | 9 | 10 | 13 => true
  | _ => false
  end.

Fixpoint skip_ws (s : string) : string :=
  match s with
  | String a s' => if is_ws a then skip_ws s' else s
  | EmptyString => s
  end.

Definition is_digit (a : ascii) : bool :=
  let n := nat_of_ascii a in ((48 <=? n) && (n <=? 57))%nat.

Definition hex_digit (a : ascii) : option N :=
  let n := N_of_ascii a in
  if (48 <=? n)%N && (n <=? 57)%N then Some (n - 48)%N
  else if (65 <=? n)%N && (n <=? 70)%N then Some (n - 55)%N
  else if (97 <=? n)%N && (n <=? 102)%N then Some (n - 87)%N
  else None.

(** Exactly four hexadecimal digits. *)
Definition hex4 (s : string) : option (N * string) :=
  match s with
  | String a (String b (String c (String d r))) =>
      match hex_digit a, hex_digit b, hex_digit c, hex_digit d with
      | Some x, Some y, Some z, Some w =>
          Some (((x * 16 + y) * 16 + z) * 16 + w, r)%N
      | _, _, _, _ => None
      end
  | _ => None
  end.

Definition byte (n : N) : ascii := ascii_of_N n.

(** UTF-8 bytes of a code point (a lone surrogate is encoded like any
    other three-byte code point). *)
Definition utf8_encode (cp : N) : string :=
  (if cp <? 128 then String (byte cp) ""
   else if cp <? 2048 then
     String (byte (192 + cp / 64)) (String (byte (128 + cp mod 64)) "")
   else if cp <? 65536 then
     String (byte (224 + cp / 4096))
       (String (byte (128 + (cp / 64) mod 64))
          (String (byte (128 + cp mod 64)) ""))
   else
     String (byte (240 + cp / 262144))
       (String (byte (128 + (cp / 4096) mod 64))
          (String (byte (128 + (cp / 64) mod 64))
             (String (byte (128 + cp mod 64)) ""))))%N.

Definition is_high_surrogate (c : N) : bool :=
  ((55296 <=? c) && (c <=? 56319))%N.
Definition is_low_surrogate (c : N) : bool :=
  ((56320 <=? c) && (c <=? 57343))%N.
Definition join_surrogates (hi lo : N) : N :=
  (65536 + (hi - 55296) * 1024 + (lo - 56320))%N.

Definition simple_escape (a : ascii) : option ascii :=
  match nat_of_ascii a with
  | 34 => Some (ascii_of_nat 34)     (* quote *)
  | 92 => Some (ascii_of_nat 92)     (* backslash *)
  | 47 => Some (ascii_of_nat 47)     (* slash *)
  | 98 => Some (ascii_of_nat 8)      (* b: backspace *)
  | 102 => Some (ascii_of_nat 12)    (* f: form feed *)
  | 110 => Some (ascii_of_nat 10)    (* n: line feed *)
  | 114 => Some (ascii_of_nat 13)    (* r: carriage return *)
  | 116 => Some (ascii_of_nat 9)     (* t: tab *)
  | _ => None
  end.

(** [scanstring], entered after the opening quote: the decoded string
    and the text after the closing quote.  One unit of fuel per
    character or escape. *)
Fixpoint scanstring (fuel : nat) (s : string) : option (string * string) :=
  match fuel with
  | O => None
  | S fuel' =>
      let continue (chunk rest : string) :=
        match scanstring fuel' rest with
        | Some (str, r) => Some (chunk ++ str, r)
        | None => None
        end in
      match s with
      | EmptyString => None
      | String c s1 =>
          match nat_of_ascii c with
          | 34 => Some ("", s1)
          | 92 =>
              match s1 with
              | EmptyString => None
              | String e s2 =>
                  if Ascii.eqb e "u" then
                    match hex4 s2 with
                    | None => None
                    | Some (c1, s3) =>
                        if is_high_surrogate c1 then
                          match s3 with
                          | String "\" (String "u" s4) =>
                              match hex4 s4 with
                              | None => None
                              | Some (c2, s5) =>
                                  if is_low_surrogate c2
                                  then continue
                                         (utf8_encode
                                            (join_surrogates c1 c2)) s5
                                  else continue (utf8_encode c1) s3
                              end
                          | _ => continue (utf8_encode c1) s3
                          end
                        else continue (utf8_encode c1) s3
                    end
                  else
                    match simple_escape e with
                    | Some x => continue (String x "") s2
                    | None => None
                    end
              end
          | n => if (n <? 32)%nat then None else continue (String c "") s1
          end
      end
  end.

Definition parse_string (s : string) : option (string * string) :=
  scanstring (S (String.length s)) s.

(** The longest run of decimal digits at the head of [s]. *)
Fixpoint digits (s : string) : string * string :=
  match s with
  | String a s' =>
      if is_digit a then let (d, r) := digits s' in (String a d, r)
      else ("", s)
  | EmptyString => ("", s)
  end.

Definition digit_value (a : ascii) : Z := Z.of_nat (nat_of_ascii a) - 48.

Fixpoint decimal (acc : Z) (s : string) : Z :=
  match s with
  | String a s' => decimal (acc * 10 + digit_value a) s'
  | EmptyString => acc
  end.

(** The integer part: an optional minus sign, then a single 0 or a
    run of digits that starts with 1..9.  Gives sign, digits, rest. *)
Definition match_integer (s : string) : option (bool * string * string) :=
  let (neg, s1) :=
    match s with
    | String "-" r => (true, r)
    | _ => (false, s)
    end in
  match s1 with
  | String "0" r => Some (neg, "0", r)
  | String a _ =>
      if is_digit a then let (d, r) := digits s1 in Some (neg, d, r)
      else None
  | EmptyString => None
  end.

(** The optional fraction: a dot and at least one digit. *)
Definition match_frac (s : string) : string * string :=
  match s with
  | String "." r =>
      match digits r with
      | (EmptyString, _) => ("", s)
      | (d, r') => ("." ++ d, r')
      end
  | _ => ("", s)
  end.

(** The optional exponent: e or E, an optional sign, at least one
    digit. *)
Definition match_exp (s : string) : string * string :=
  match s with
  | String e r =>
      if Ascii.eqb e "e" || Ascii.eqb e "E" then
        let (sign, r1) :=
          match r with
          | String "+" r' => ("+", r')
          | String "-" r' => ("-", r')
          | _ => ("", r)
          end in
        match digits r1 with
        | (EmptyString, _) => ("", s)
        | (d, r') => (String e (sign ++ d), r')
        end
      else ("", s)
  | EmptyString => ("", s)
  end.

Definition match_number (s : string) : option (value * string) :=
  match match_integer s with
  | None => None
  | Some (neg, int, r) =>
      let (frac, r1) := match_frac r in
      let (exp, r2) := match_exp r1 in
      let sign := if neg then "-" else "" in
      match frac, exp with
      | EmptyString, EmptyString =>
          let z := decimal 0 int in
          Some (VInt (if neg then - z else z)%Z, r2)
      | _, _ => Some (VFloat (sign ++ int ++ frac ++ exp), r2)
      end
  end.

(** The elements of an array once it is known not to be empty.  One
    unit of fuel per element. *)
Fixpoint array_loop (scan : string -> option (value * string))
    (fuel : nat) (s : string) (acc : list value)
  : option (value * string) :=
  match fuel with
  | O => None
  | S fuel' =>
      match scan s with
      | None => None
      | Some (v, r) =>
          match skip_ws r with
          | String "]" r' => Some (VList (rev (v :: acc)), r')
          | String "," r' => array_loop scan fuel' (skip_ws r') (v :: acc)
          | _ => None
          end
      end
  end.

Definition parse_array (scan : string -> option (value * string))
    (s : string) : option (value * string) :=
  match skip_ws s with
  | String "]" r => Some (VList [], r)
  | s' => array_loop scan (S (String.length s')) s' []
  end.

(** The pairs of an object; [s] starts after the opening quote of a
    key.  One unit of fuel per pair. *)
Fixpoint object_loop (scan : string -> option (value * string))
    (fuel : nat) (s : string) (acc : dict) : option (value * string) :=
  match fuel with
  | O => None
  | S fuel' =>
      match parse_string s with
      | None => None
      | Some (key, r) =>
          match skip_ws r with
          | String ":" r1 =>
              match scan (skip_ws r1) with
              | None => None
              | Some (v, r2) =>
                  let acc' := dict_set key v acc in
                  match skip_ws r2 with
                  | String "}" r3 => Some (VDict acc', r3)
                  | String "," r3 =>
                      match skip_ws r3 with
                      | String "034"%char r4 => object_loop scan fuel' r4 acc'
                      | _ => None
                      end
                  | _ => None
                  end
              end
          | _ => None
          end
      end
  end.

Definition parse_object (scan : string -> option (value * string))
    (s : string) : option (value * string) :=
  match skip_ws s with
  | String "}" r => Some (VDict [], r)
  | String "034"%char r => object_loop scan (S (String.length r)) r []
  | _ => None
  end.

Definition literal (lit : string) (v : value) (s : string)
  : option (value * string) :=
  if prefixb lit s then Some (v, drop (String.length lit) s) else None.

(** [scan_once]: one JSON value at the head of [s].  One unit of fuel
    per level of nesting: the length of the text is never used up. *)
Fixpoint scan_once (fuel : nat) (s : string) : option (value * string) :=
  match fuel with
  | O => None
  | S fuel' =>
      match s with
      | EmptyString => None
      | String "034"%char r =>
          match parse_string r with
          | Some (str, r') => Some (VStr str, r')
          | None => None
          end
      | String "{" r => parse_object (scan_once fuel') r
      | String "[" r => parse_array (scan_once fuel') r
      | String "n" _ => literal "null" VNone s
      | String "t" _ => literal "true" (VBool true) s
      | String "f" _ => literal "false" (VBool false) s
      | String "N" _ => literal "NaN" (VFloat "NaN") s
      | String "I" _ => literal "Infinity" (VFloat "Infinity") s
      | _ =>
          match match_number s with
          | Some r => Some r
          | None => literal "-Infinity" (VFloat "-Infinity") s
          end
      end
  end.

(** [JSONDecoder.decode]: one value, white space around it, nothing
    else. *)
Definition loads (s : string) : result value :=
  match scan_once (S (String.length s)) (skip_ws s) with
  | Some (v, r) =>
      match skip_ws r with
      | EmptyString => Ok v
      | _ => Raise JSONDecodeError
      end
  | None => Raise JSONDecodeError
  end.

End Json.

(* ================================================================== *)
(** ** [text.unescape] and [text.extr] *)

Module Html.

(** The characters a named reference may hold: anything but tab, line
    feed, form feed, space, [<], [&], [#] and [;]. *)
Definition is_name_char (a : ascii) : bool :=
  match nat_of_ascii a with
  | 9 | 10 | 12 | 32 | 60 | 38 | 35 | 59 => false
  | _ => true
  end.

Definition is_hex (a : ascii) : bool :=
  match Json.hex_digit a with
  | Some _ => true
  | None => false
  end.

Fixpoint span (p : ascii -> bool) (s : string) : string * string :=
  match s with
  | String a s' =>
      if p a then let (h, r) := span p s' in (String a h, r) else ("", s)
  | EmptyString => ("", s)
  end.

(** At most [budget] characters (code points) of a name. *)
Fixpoint span_name (budget : nat) (s : string) : string * string :=
  match s with
  | EmptyString => ("", s)
  | String a s' =>
      if is_continuation a then
        let (h, r) := span_name budget s' in (String a h, r)
      else if is_name_char a then
        match budget with
        | O => ("", s)
        | S b => let (h, r) := span_name b s' in (String a h, r)
        end
      else ("", s)
  end.

Definition opt_semicolon (s : string) : string * string :=
  match s with
  | String ";" r => (";", r)
  | _ => ("", s)
  end.

(** One character reference, entered after its [&]: the three
    alternatives of [html._charref], in order.  Gives the text of the
    group and the rest. *)
Definition match_charref (s : string) : option (string * string) :=
  let close (body rest : string) :=
    let (semi, rest') := opt_semicolon rest in Some (body ++ semi, rest') in
  match s with
  | String "#" r =>
      match span Json.is_digit r with
      | (String d ds, r1) => close (String "#" (String d ds)) r1
      | (EmptyString, _) =>
          match r with
          | String x r2 =>
              if Ascii.eqb x "x" || Ascii.eqb x "X" then
                match span is_hex r2 with
                | (String h hs, r3) =>
                    close (String "#" (String x (String h hs))) r3
                | (EmptyString, _) => None
                end
              else None
          | EmptyString => None
          end
      end
  | _ =>
      match span_name 32 s with
      | (String c cs, r1) => close (String c cs) r1
      | (EmptyString, _) => None
      end
  end.

Section Unescape.
(** [html._replace_charref] on the text of a matched reference: the
    tables of the standard library behind it (named entities, invalid
    code points) are not part of this repository, so the replacement
    is a parameter. *)
Variable replace_charref : string -> string.

(** [_charref.sub(_replace_charref, s)] *)
Fixpoint sub_charrefs (fuel : nat) (s : string) : string :=
  match fuel with
  | O => s
  | S fuel' =>
      match s with
      | EmptyString => ""
      | String c r =>
          if Ascii.eqb c "&" then
            match match_charref r with
            | Some (group, rest) =>
                replace_charref group ++ sub_charrefs fuel' rest
            | None => String c (sub_charrefs fuel' r)
            end
          else String c (sub_charrefs fuel' r)
      end
  end.

(** Modelled from the spec: [text.unescape] lives in gallery_dl/text.py,
    which is not under src/; there it is [html.unescape].  The spec
    (4.2) has entity-unescaping applied before the decode.  A text
    without [&] is returned as it is. *)
Definition unescape (s : string) : string :=
  if contains "&" s then sub_charrefs (String.length s) s else s.
End Unescape.

(** The replacement for the references that escaping an HTML attribute
    produces; every other reference is left as written.  Used to
    evaluate the model on concrete pages. *)
Definition basic_charref (group : string) : string :=
  if String.eqb group "quot;" || String.eqb group "#34;"
     || String.eqb group "#x22;" then dq
  else if String.eqb group "amp;" || String.eqb group "#38;" then "&"
  else if String.eqb group "lt;" || String.eqb group "#60;" then "<"
  else if String.eqb group "gt;" || String.eqb group "#62;" then ">"
  else if String.eqb group "#39;" || String.eqb group "#x27;"
          || String.eqb group "apos;" then "'"
  else "&" ++ group.

End Html.

(** Modelled from the spec: [text.extr] lives in gallery_dl/text.py, which
    is not under src/.  The spec (4.2) locates the attribute value after a
    marker and gives the default (an empty mapping) when the marker is
    absent: the text between the first [begin] and the next [end_] after
    it, or [default] when either is missing. *)
Definition extr (txt begin end_ default : string) : string :=
  match find begin txt with
  | None => default
  | Some i =>
      let rest := drop (i + String.length begin) txt in
      match find end_ rest with
      | None => default
      | Some j => take j rest
      end
  end.

(* ================================================================== *)
(** ** The world: transport, waiting, logging, decoding, yielding *)

Record response := mkResponse {
  status_code : Z;
  text : string
}.

(** A call of [Extractor.request]: the URL and the keyword arguments that
    the caller passes. *)
Record request := mkRequest {
  rq_url : string;
  rq_kwargs : dict
}.

(** [Message.Queue, url, kwdict] *)
Inductive message : Type :=
| Queue (url : value) (kwdict : value).

Inductive event : Type :=
| EvRequest (rq : request)        (* [Extractor.request] was called *)
| EvWait (seconds : Z)            (* [Extractor.wait(seconds=...)] *)
| EvLogDebug (msg : string)       (* [log.debug(...)] *)
| EvJson (body : string)          (* a text was handed to the decoder *)
| EvYield (msg : message).        (* a generator yielded *)

(** [inbox]: what the coming calls of [Extractor.request] return or
    raise, in order.  [trace]: the events so far, oldest first. *)
Record world := mkWorld {
  inbox : list (result response);
  trace : list event
}.

(** A computation: [None] when the script of replies or the fuel of a
    loop ran out, else a result and the world after it. *)
Definition M (A : Type) : Type := world -> option (result A * world).

Definition ret {A} (a : A) : M A := fun w => Some (Ok a, w).
Definition raise {A} (e : exn) : M A := fun w => Some (Raise e, w).
Definition lift {A} (r : result A) : M A := fun w => Some (r, w).
Definition stuck {A} : M A := fun _ => None.

Definition bind {A B} (m : M A) (k : A -> M B) : M B :=
  fun w =>
    match m w with
    | Some (Ok a, w') => k a w'
    | Some (Raise e, w') => Some (Raise e, w')
    | None => None
    end.

(** [try: m  except <sel>: h] *)
Definition try_except {A} (m : M A) (sel : exn -> bool) (h : M A) : M A :=
  fun w =>
    match m w with
    | Some (Raise e, w') => if sel e then h w' else Some (Raise e, w')
    | other => other
    end.

Notation "x <- m ;; k" := (bind m (fun x => k))
  (at level 61, m at next level, right associativity).
Notation "m ;;; k" := (bind m (fun _ => k))
  (at level 61, right associativity).

Definition emit (e : event) : M unit :=
  fun w => Some (Ok tt, mkWorld (inbox w) (trace w ++ [e])%list).

(** [for x in xs: body x] *)
Fixpoint for_each {A} (xs : list A) (body : A -> M unit) : M unit :=
  match xs with
  | [] => ret tt
  | x :: xs' => body x ;;; for_each xs' body
  end.

(** Modelled from the spec: [Extractor.request], [Extractor.wait] and the
    logger live in gallery_dl/extractor/common.py, which is not under
    src/; the spec (1) names the HTTP transport as an external
    collaborator.  A request takes the next reply of the script, a wait
    and a log entry leave their event in the trace. *)
Definition extractor_request (url : string) (kwargs : dict) : M response :=
  fun w =>
    match inbox w with
    | [] => None
    | reply :: rest =>
        Some (reply, mkWorld rest (trace w ++ [EvRequest (mkRequest url kwargs)])%list)
    end.

Definition extractor_wait (seconds : Z) : M unit := emit (EvWait seconds).
Definition log_debug (msg : string) : M unit := emit (EvLogDebug msg).

(** [json.loads(s)] *)
Definition json_loads (s : string) : M value :=
  emit (EvJson s) ;;; lift (Json.loads s).

(** [response.json()] *)
Definition response_json (r : response) : M value := json_loads (text r).

(* ================================================================== *)
(** ** class ImagechestAPI *)

Record ImagechestAPI := mkAPI {
  headers : dict
}.

Module API.
Definition root : string := "https://api.imgchest.com".

(** [__init__(self, extractor, access_token)] *)
Definition __init__ (access_token : string) : ImagechestAPI :=
  mkAPI [("Authorization", VStr ("Bearer " ++ access_token))].

(** The keyword arguments of the request in [_call]. *)
Definition call_kwargs (self : ImagechestAPI) : dict :=
  [("headers", VDict (headers self));
   ("fatal", VNone);
   ("allow_redirects", VBool false)].

(** The [while True] loop of [_call]; one unit of fuel per round. *)
Fixpoint _call_loop (fuel : nat) (self : ImagechestAPI) (url : string)
  : M value :=
  match fuel with
  | O => stuck
  | S fuel' =>
      response <- extractor_request url (call_kwargs self) ;;
      if (status_code response <? 300)%Z then
        body <- response_json response ;;
        lift (getitem body "data")
      else if (status_code response <? 400)%Z then
        raise (AuthenticationError "Invalid API access token")
      else if (status_code response =? 429)%Z then
        extractor_wait 600 ;;;
        _call_loop fuel' self url
      else
        log_debug (text response) ;;;
        raise (StopExtraction "API request failed")
  end.

Definition _call (fuel : nat) (self : ImagechestAPI) (endpoint : string)
  : M value :=
  let url := root ++ endpoint in
  _call_loop fuel self url.

Definition file (fuel : nat) (self : ImagechestAPI) (file_id : string) :=
  _call fuel self ("/v1/file/" ++ file_id).

Definition post (fuel : nat) (self : ImagechestAPI) (post_id : string) :=
  _call fuel self ("/v1/post/" ++ post_id).

Definition user (fuel : nat) (self : ImagechestAPI) (username : string) :=
  _call fuel self ("/v1/user/" ++ username).
End API.

(* ================================================================== *)
(** ** class ImagechestGalleryExtractor *)

(** Which function an instance runs for [metadata] and for [images]: the
    method of the class, or the API variant that [_init] puts in its
    place. *)
Inductive method_impl : Type := OfClass | OfAPI.

Record ImagechestGalleryExtractor := mkGallery {
  gallery_id : string;
  gallery_url : option string;
  api : option ImagechestAPI;         (* [None]: no such attribute *)
  metadata_impl : method_impl;
  images_impl : method_impl;
  _image_list : option value          (* [None]: no such attribute *)
}.

(** [d.pop(k, None)] as a statement: the dictionary afterwards. *)
Definition pop_default (v : value) (k : string) : result value :=
  match v with
  | VDict d => Ok (VDict (dict_del k d))
  | VList _ => Raise TypeError
  | _ => Raise (AttributeError "pop")
  end.

(** [d.pop(k)]: the value removed and the dictionary afterwards. *)
Definition pop (v : value) (k : string) : result (value * value) :=
  match v with
  | VDict d =>
      match dict_get k d with
      | Some x => Ok (x, VDict (dict_del k d))
      | None => Raise (KeyError k)
      end
  | VList _ => Raise TypeError
  | _ => Raise (AttributeError "pop")
  end.

(** [for x in v: x = f x] where the body changes [x] in place: the
    elements of a list are the list's own objects; what a string or a
    dictionary yields are strings, and changing them leaves [v] as it
    is. *)
Definition update_each (f : value -> result value) (v : value)
  : result value :=
  match v with
  | VList l => l' <~ Res.mapM f l ;; Ok (VList l')
  | _ => xs <~ iterate v ;; _ <~ Res.mapM f xs ;; Ok v
  end.

Module Gallery.
Definition root : string := "https://imgchest.com".

(** The eleven characters that the URL pattern captures. *)
Definition is_alnum (a : ascii) : bool :=
  let n := nat_of_ascii a in
  (((48 <=? n) && (n <=? 57)) || ((65 <=? n) && (n <=? 90))
   || ((97 <=? n) && (n <=? 122)))%nat.

Fixpoint all_chars (p : ascii -> bool) (s : string) : bool :=
  match s with
  | EmptyString => true
  | String a s' => p a && all_chars p s'
  end.

Definition is_gallery_id (s : string) : bool :=
  (String.length s =? 11)%nat && all_chars is_alnum s.

(** [__init__(self, match)] with [match.group(1) = gid]. *)
Definition __init__ (gid : string) : ImagechestGalleryExtractor :=
  let url := root ++ "/p/" ++ gid in
  mkGallery gid (Some url) None OfClass OfClass None.

(** [_init(self)], with the value of the option [access-token]. *)
Definition _init (access_token : option string)
    (self : ImagechestGalleryExtractor) : ImagechestGalleryExtractor :=
  match access_token with
  | Some (String c tok) =>
      mkGallery (gallery_id self) None
                (Some (API.__init__ (String c tok))) OfAPI OfAPI
                (_image_list self)
  | _ => self
  end.

Definition attributes : list string :=
  ["id"; "slug"; "status"; "title"; "nsfw"; "score"; "comments";
   "upvotes"; "downvotes"; "favorites"; "views"; "created"].

(** [page_data["props"]["post"][k]] *)
Definition post_field (page_data : value) (k : string) : result value :=
  props <~ getitem page_data "props" ;;
  post <~ getitem props "post" ;;
  getitem post k.

Definition datetime_format : string := "%Y-%m-%dT%H:%M:%S.%fZ".

(** The text that opens the attribute: data-page= and a double quote. *)
Definition data_page_marker : string := "data-page=" ++ dq.

Section Methods.
(** [html._replace_charref], see [Html.unescape]. *)
Variable replace_charref : string -> string.

(** Modelled from the spec: [text.parse_datetime] lives in
    gallery_dl/text.py, which is not under src/.  The spec (4.1) has it
    convert a field from a format into a structured timestamp; what it
    gives for each input is left open here. *)
Variable parse_datetime : value -> string -> value.

Definition _retrieve_page_data (page : string) : M value :=
  json_loads
    (Html.unescape replace_charref
       (extr page data_page_marker dq "{}")).

(** One round of the loop over [attributes]. *)
Definition copy_attribute (page_data : value) (metadata : dict)
    (attribute : string) : result dict :=
  Res.catch
    (v <~ post_field page_data attribute ;;
     Ok (dict_set attribute v metadata))
    is_Exception
    (Ok metadata).

Fixpoint copy_attributes (page_data : value) (metadata : dict)
    (attrs : list string) : result dict :=
  match attrs with
  | [] => Ok metadata
  | attribute :: rest =>
      metadata' <~ copy_attribute page_data metadata attribute ;;
      copy_attributes page_data metadata' rest
  end.

Definition copy_tags (page_data : value) (metadata : dict)
  : result dict :=
  Res.catch
    (tags <~ post_field page_data "tags" ;;
     joined <~ str_join "," tags ;;
     Ok (dict_set "tags" joined metadata))
    is_Exception
    (Ok metadata).

Definition metadata (self : ImagechestGalleryExtractor) (page : string)
  : M value :=
  if contains "Not Found" page then raise (NotFoundError "gallery")
  else
    page_data <- _retrieve_page_data page ;;
    let metadata := [("gallery_id", VStr (gallery_id self))] in
    metadata <- lift (copy_attributes page_data metadata attributes) ;;
    metadata <- lift (copy_tags page_data metadata) ;;
    ret (VDict metadata).

Definition images (self : ImagechestGalleryExtractor) (page : string)
  : M (list (value * value)) :=
  page_data <- _retrieve_page_data page ;;
  lift (Res.catch
          (files <~ post_field page_data "files" ;;
           files <~ iterate files ;;
           Res.mapM (fun file =>
                       link <~ getitem file "link" ;; Ok (link, VNone))
                    files)
          is_Exception
          (Ok [])).

(** The body of the loop over the images of the post: the image is
    changed in place. *)
Definition stamp_image (img : value) : result value :=
  created <~ getitem img "created" ;;
  setitem img "date" (parse_datetime created datetime_format).

(** Returns the post and the instance after the call.  The post and
    the list of its images are objects that the code changes in place:
    each change is written back where the object is held, the stamped
    images under the key of the post that holds their list. *)
Definition _metadata_api (fuel : nat)
    (self : ImagechestGalleryExtractor) (page : string)
  : M (value * ImagechestGalleryExtractor) :=
  match api self with
  | None => raise (AttributeError "api")
  | Some client =>
      post <- API.post fuel client (gallery_id self) ;;
      created <- lift (getitem post "created") ;;
      post <- lift (setitem post "date"
                      (parse_datetime created datetime_format)) ;;
      imgs <- lift (getitem post "images") ;;
      imgs <- lift (update_each stamp_image imgs) ;;
      post <- lift (setitem post "images" imgs) ;;
      post <- lift (setitem post "gallery_id" (VStr (gallery_id self))) ;;
      post <- lift (pop_default post "image_count") ;;
      popped <- lift (pop post "images") ;;
      let self' :=
        mkGallery (gallery_id self) (gallery_url self) (api self)
                  (metadata_impl self) (images_impl self)
                  (Some (fst popped)) in
      ret (snd popped, self')
  end.

Definition _images_api (self : ImagechestGalleryExtractor)
    (page : string) : M (list (value * value)) :=
  match _image_list self with
  | None => raise (AttributeError "_image_list")
  | Some image_list =>
      imgs <- lift (iterate image_list) ;;
      lift (Res.mapM (fun img =>
                        link <~ getitem img "link" ;; Ok (link, img))
                     imgs)
  end.

(** [self.metadata(page)] and [self.images(page)]: the attribute of
    the instance when [_init] has set one, else the method of the
    class. *)
Definition call_metadata (fuel : nat)
    (self : ImagechestGalleryExtractor) (page : string)
  : M (value * ImagechestGalleryExtractor) :=
  match metadata_impl self with
  | OfClass => m <- metadata self page ;; ret (m, self)
  | OfAPI => _metadata_api fuel self page
  end.

Definition call_images (self : ImagechestGalleryExtractor)
    (page : string) : M (list (value * value)) :=
  match images_impl self with
  | OfClass => images self page
  | OfAPI => _images_api self page
  end.
End Methods.
End Gallery.

(* ================================================================== *)
(** ** class ImagechestUserExtractor *)

Record ImagechestUserExtractor := mkUser {
  user : string
}.

Module User.
Definition root : string := "https://imgchest.com".

(** [params["page"] += 1] *)
Definition incr_page (params : dict) : result dict :=
  match dict_get "page" params with
  | Some (VInt p) => Ok (dict_set "page" (VInt (p + 1)) params)
  | Some _ => Raise TypeError
  | None => Raise (KeyError "page")
  end.

(** The body of [for gallery in data]. *)
Definition queue_gallery (gallery : value) : M unit :=
  gallery <- lift (setitem gallery "_extractor"
                     (VClass "ImagechestGalleryExtractor")) ;;
  link <- lift (getitem gallery "link") ;;
  emit (EvYield (Queue link gallery)).

(** The [while True] loop of [items]; one unit of fuel per round.
    The [try] gives [None] when its handler returns from [items]. *)
Fixpoint items_loop (fuel : nat) (url : string) (params : dict) : M unit :=
  match fuel with
  | O => stuck
  | S fuel' =>
      fetched <-
        try_except
          (response <- extractor_request url [("params", VDict params)] ;;
           body <- response_json response ;;
           data <- lift (getitem body "data") ;;
           ret (Some data))
          is_TypeError_or_KeyError
          (ret None) ;;
      match fetched with
      | None => ret tt
      | Some data =>
          galleries <- lift (iterate data) ;;
          for_each galleries queue_gallery ;;;
          params' <- lift (incr_page params) ;;
          items_loop fuel' url params'
      end
  end.

Section Items.
(** Modelled from the spec: [text.unquote] lives in gallery_dl/text.py,
    which is not under src/.  The spec (4.4) has the user name
    URL-decoded once; what it gives for each name is left open here. *)
Variable unquote : string -> string.

Definition initial_params (self : ImagechestUserExtractor) : dict :=
  [("page", VInt 1);
   ("sort", VStr "new");
   ("tag", VStr "");
   ("q", VStr "");
   ("username", VStr (unquote (user self)));
   ("nsfw", VStr "true")].

Definition items (fuel : nat) (self : ImagechestUserExtractor) : M unit :=
  let url := root ++ "/api/posts" in
  items_loop fuel url (initial_params self).
End Items.
End User.

(* ================================================================== *)
(** ** The URL patterns of the two extractors

    [pattern] is a regular expression that the framework applies with
    [re.match]: at the start of the URL, anything may follow the match.
    The expressions are written out as terms and run by a backtracking
    matcher; group 1 is what the constructor reads with
    [match.group(1)]. *)

Module Pattern.

Inductive regex : Type :=
| Lit (s : string)                      (* the characters of [s] *)
| Opt (r : regex)                       (* [(?:r)?], greedy *)
| Seq (r1 r2 : regex)                   (* [r1 r2] *)
| Times (n : nat) (p : ascii -> bool)   (* [[class]{n}] *)
| Many1 (p : ascii -> bool)             (* [[class]+], greedy *)
| Group (r : regex).                    (* [(r)], group 1 *)

Section Matcher.
Context {A : Type}.

(** [[class]{n}] at the head of [s]: the rest after it. *)
Fixpoint times (n : nat) (p : ascii -> bool) (s : string) : option string :=
  match n, s with
  | O, _ => Some s
  | S n', String a s' => if p a then times n' p s' else None
  | S _, EmptyString => None
  end.

(** [[class]+] at the head of [s]: the longest run first, then the
    shorter ones. *)
Fixpoint many1 (p : ascii -> bool) (s : string) (k : string -> option A)
  : option A :=
  match s with
  | String a s' =>
      if p a then
        match many1 p s' k with
        | Some x => Some x
        | None => k s'
        end
      else None
  | EmptyString => None
  end.

(** [r] at the head of [s], then the continuation [k] on the text of
    group 1 and on the rest; a failure of [k] makes the matcher try the
    next alternative. *)
Fixpoint run (r : regex) (group1 : option string) (s : string)
    (k : option string -> string -> option A) : option A :=
  match r with
  | Lit l =>
      if prefixb l s then k group1 (drop (String.length l) s) else None
  | Opt r' =>
      match run r' group1 s k with
      | Some x => Some x
      | None => k group1 s
      end
  | Seq r1 r2 => run r1 group1 s (fun g s' => run r2 g s' k)
  | Times n p =>
      match times n p s with
      | Some s' => k group1 s'
      | None => None
      end
  | Many1 p => many1 p s (k group1)
  | Group r' =>
      run r' group1 s
        (fun _ s' => k (Some (take (String.length s - String.length s') s)) s')
  end.
End Matcher.

(** [re.compile(r).match(url)], read with [group(1)]: [None] when the
    pattern does not match, else the text of the group. *)
Definition match_group1 (r : regex) (url : string) : option (option string) :=
  run r None url (fun g _ => Some g).

(** [BASE_PATTERN]: an optional http:// or https://, an optional www.,
    then the host. *)
Definition BASE_PATTERN : regex :=
  Seq (Opt (Seq (Lit "http") (Seq (Opt (Lit "s")) (Lit "://"))))
      (Seq (Opt (Lit "www.")) (Lit "imgchest.com")).

(** Any character but a slash, a question mark and a hash. *)
Definition not_separator (a : ascii) : bool :=
  match nat_of_ascii a with
  | 47 | 63 | 35 => false
  | _ => true
  end.

(** [ImagechestGalleryExtractor.pattern]: the base, /p/ and a group of
    eleven letters and digits. *)
Definition gallery : regex :=
  Seq BASE_PATTERN (Seq (Lit "/p/") (Group (Times 11 Gallery.is_alnum))).

(** [ImagechestUserExtractor.pattern]: the base, /u/ and a group of one
    or more characters that are no separators. *)
Definition user : regex :=
  Seq BASE_PATTERN (Seq (Lit "/u/") (Group (Many1 not_separator))).

End Pattern.

(* ================================================================== *)
(** * The vocabulary of the properties *)

Import Gallery.

(** [sub] occurs in [s]. *)
Definition occurs_in (sub s : string) : Prop :=
  exists pre post, s = pre ++ sub ++ post.

(** [s = pre ++ sub ++ ...] is the first occurrence of [sub] in [s]. *)
Definition first_occurrence (sub s pre : string) : Prop :=
  (exists post, s = pre ++ sub ++ post) /\
  forall pre' post', s = pre' ++ sub ++ post' ->
                     String.length pre <= String.length pre'.

(** A reply that asks to slow down. *)
Definition too_many_requests (r : response) : Prop := status_code r = 429%Z.

(** The request that [_call] issues, as an event. *)
Definition api_request (self : ImagechestAPI) (url : string) : event :=
  EvRequest (mkRequest url (API.call_kwargs self)).

(** What the loop does on a run of 429 replies: for each of them the
    request, then one wait of 600 seconds. *)
Definition backoff (self : ImagechestAPI) (url : string)
    (waits : list response) : list event :=
  flat_map (fun _ => [api_request self url; EvWait 600]) waits.

(** The attribute value that [_retrieve_page_data] hands to the decoder. *)
Definition embedded_text (replace_charref : string -> string)
    (page : string) : string :=
  Html.unescape replace_charref (extr page data_page_marker dq "{}").

(** The world after the decoder has been given [s]. *)
Definition decoded (s : string) (w : world) : world :=
  mkWorld (inbox w) (trace w ++ [EvJson s])%list.

(** The instance after [self._image_list = stash]. *)
Definition with_image_list (self : ImagechestGalleryExtractor)
    (stash : value) : ImagechestGalleryExtractor :=
  mkGallery (gallery_id self) (gallery_url self) (api self)
            (metadata_impl self) (images_impl self) (Some stash).

(** The post that [_metadata_api] returns, from the dictionary [d] that
    the API gave, its creation time and its stamped images. *)
Definition finished_post (parse_datetime : value -> string -> value)
    (gid : string) (d : dict) (created imgs' : value) : dict :=
  dict_del "images"
    (dict_del "image_count"
       (dict_set "gallery_id" (VStr gid)
          (dict_set "images" imgs'
             (dict_set "date" (parse_datetime created datetime_format) d)))).

(** An image as the API gives it: a mapping with a creation time. *)
Definition has_created (img : value) : Prop :=
  exists d c, img = VDict d /\ dict_get "created" d = Some c.

(** The requests of a trace, in order. *)
Fixpoint requests_of (tr : list event) : list request :=
  match tr with
  | [] => []
  | EvRequest rq :: tr' => rq :: requests_of tr'
  | _ :: tr' => requests_of tr'
  end.

(** A gallery of a listing: a mapping with a link. *)
Definition has_link (gallery : value) : Prop :=
  exists d l, gallery = VDict d /\ dict_get "link" d = Some l.

(** A successful reply: a JSON mapping whose data is a list of
    galleries. *)
Definition listing (r : response) : Prop :=
  exists body galleries,
    Json.loads (text r) = Ok body /\
    getitem body "data" = Ok (VList galleries) /\
    Forall has_link galleries.

(** A reply that is JSON but gives no data: the decoded body is a mapping
    without that field, or no mapping at all. *)
Definition lacks_data (r : response) : Prop :=
  exists body e,
    Json.loads (text r) = Ok body /\ getitem body "data" = Raise e.

Definition listing_url : string := User.root ++ "/api/posts".

(** The parameters of the request for page [p]: the initial ones, with
    that page. *)
Definition params_at (unquote : string -> string)
    (self : ImagechestUserExtractor) (p : Z) : dict :=
  dict_set "page" (VInt p) (User.initial_params unquote self).

(** The request for page [p]. *)
Definition listing_request (unquote : string -> string)
    (self : ImagechestUserExtractor) (p : Z) : request :=
  mkRequest listing_url [("params", VDict (params_at unquote self p))].

(** The events of the round that ends the iteration: the request for
    page [p] and the decoding of the reply. *)
Definition last_round (unquote : string -> string)
    (self : ImagechestUserExtractor) (p : Z) (last : response)
  : list event :=
  [EvRequest (listing_request unquote self p); EvJson (text last)].

(** A text written with apostrophes in the place of double quotes. *)
Fixpoint json_text (s : string) : string :=
  match s with
  | EmptyString => ""
  | String a s' =>
      String (if Ascii.eqb a "'" then dquote else a) (json_text s')
  end.

(** [text.unquote] on a name without percent escapes. *)
Definition plain_unquote (s : string) : string := s.

(** [text.parse_datetime] on a text it cannot parse: the text itself. *)
Definition keep_text (v : value) (format : string) : value := v.

(** ** Readings of a trace *)

(** The waits of a trace, in seconds and in order. *)
Fixpoint waits_of (tr : list event) : list Z :=
  match tr with
  | [] => []
  | EvWait seconds :: tr' => seconds :: waits_of tr'
  | _ :: tr' => waits_of tr'
  end.

(** The texts that a trace hands to the decoder, in order. *)
Fixpoint decodes_of (tr : list event) : list string :=
  match tr with
  | [] => []
  | EvJson body :: tr' => body :: decodes_of tr'
  | _ :: tr' => decodes_of tr'
  end.

(** The messages that a trace yields, in order. *)
Fixpoint yields_of (tr : list event) : list message :=
  match tr with
  | [] => []
  | EvYield msg :: tr' => msg :: yields_of tr'
  | _ :: tr' => yields_of tr'
  end.

(** The request of the API client for [url], with its keyword
    arguments spelled out. *)
Definition bearer_request (token url : string) : request :=
  mkRequest url
    [("headers", VDict [("Authorization", VStr ("Bearer " ++ token))]);
     ("fatal", VNone);
     ("allow_redirects", VBool false)].

(** ** Readings of a dictionary *)

(** The keys of a dictionary, in order. *)
Definition keys (d : dict) : list string := map fst d.

(** ** Readings of the API post *)

(** An image after the loop of [_metadata_api]: its creation time,
    converted, under date. *)
Definition dated (parse_datetime : value -> string -> value) (img : value)
  : value :=
  match img with
  | VDict d =>
      match dict_get "created" d with
      | Some created =>
          VDict (dict_set "date" (parse_datetime created datetime_format) d)
      | None => img
      end
  | _ => img
  end.

(** ** Readings of a computation *)

(** A computation that leaves the world as it found it. *)
Definition keeps_world {A} (m : M A) : Prop :=
  forall (w w' : world) (r : result A), m w = Some (r, w') -> w' = w.

(** ** Readings of a listing *)

(** The galleries of a successful reply. *)
Definition listing_of (r : response) (galleries : list value) : Prop :=
  exists body,
    Json.loads (text r) = Ok body /\
    getitem body "data" = Ok (VList galleries) /\
    Forall has_link galleries.

(** The message that [items] yields for a gallery: its link, and the
    gallery with the extractor that is to resolve it. *)
Definition queued (gallery : value) : message :=
  match gallery with
  | VDict d =>
      Queue (match dict_get "link" d with
             | Some link => link
             | None => VNone
             end)
            (VDict (dict_set "_extractor"
                      (VClass "ImagechestGalleryExtractor") d))
  | _ => Queue VNone gallery
  end.

Definition yielded (galleries : list value) : list event :=
  map (fun gallery => EvYield (queued gallery)) galleries.

(** The events of the rounds of [items] on successful replies, the
    first of them asked for as page [p]. *)
Fixpoint page_rounds (unquote : string -> string)
    (self : ImagechestUserExtractor) (p : Z)
    (replies : list response) (galleries : list (list value))
  : list event :=
  match replies, galleries with
  | r :: replies', gs :: galleries' =>
      ([EvRequest (listing_request unquote self p); EvJson (text r)]
         ++ yielded gs
         ++ page_rounds unquote self (p + 1) replies' galleries')%list
  | _, _ => []
  end.

(** ** Readings of a pattern *)

(** Every character of [s] satisfies [p]. *)
Definition all_of (p : ascii -> bool) (s : string) : Prop :=
  Gallery.all_chars p s = true.

(** [reach r g s g' s']: the expression [r] can match at the head of [s]
    and leave [s'], taking group 1 from [g] to [g']. *)
Inductive reach : Pattern.regex -> option string -> string ->
                  option string -> string -> Prop :=
| reach_lit (l : string) g s :
    prefixb l s = true ->
    reach (Pattern.Lit l) g s g (drop (String.length l) s)
| reach_opt_skip r g s :
    reach (Pattern.Opt r) g s g s
| reach_opt_take r g s g' s' :
    reach r g s g' s' -> reach (Pattern.Opt r) g s g' s'
| reach_seq r1 r2 g s g1 s1 g2 s2 :
    reach r1 g s g1 s1 -> reach r2 g1 s1 g2 s2 ->
    reach (Pattern.Seq r1 r2) g s g2 s2
| reach_times n p g t s' :
    String.length t = n -> all_of p t ->
    reach (Pattern.Times n p) g (t ++ s') g s'
| reach_many1 p g t s' :
    t <> "" -> all_of p t ->
    reach (Pattern.Many1 p) g (t ++ s') g s'
| reach_group r g s g' s' :
    reach r g s g' s' ->
    reach (Pattern.Group r) g s
          (Some (take (String.length s - String.length s') s)) s'.

(** ** Writing sample pages *)

(** A text with every double quote written as the entity quot. *)
Fixpoint html_quote (s : string) : string :=
  match s with
  | EmptyString => ""
  | String a s' =>
      if Ascii.eqb a dquote then "&quot;" ++ html_quote s'
      else String a (html_quote s')
  end.

(** A page whose data-page attribute holds the JSON text [json], written
    with apostrophes in the place of double quotes. *)
Definition page_with (json : string) : string :=
  "<div id=app data-page=" ++ dq ++ html_quote (json_text json) ++ dq
    ++ "></div>".

(* ================================================================== *)
(** * Sample data

    A token, a gallery, pages and replies on which the properties are
    evaluated. *)

Module Sample.

Definition token : string := "0123456789abcdef".
Definition client : ImagechestAPI := API.__init__ token.
Definition gid : string := "abcdefghijk".
Definition endpoint : string := "/v1/post/" ++ gid.

Definition slow_down : response := mkResponse 429 "Too Many Requests".

Definition post_reply : response :=
  mkResponse 200
    (json_text
       "{'data': {'id': 'abcdefghijk', 'title': 'Holiday',
                  'created': '2023-05-01T10:00:00.000000Z',
                  'image_count': 2,
                  'images': [
                    {'id': 'a1', 'link': 'https://cdn.imgchest.com/files/a1.png',
                     'created': '2023-05-01T10:00:01.000000Z'},
                    {'id': 'b2', 'link': 'https://cdn.imgchest.com/files/b2.jpg',
                     'created': '2023-05-01T10:00:02.000000Z'}]}}").

Definition redirect : response := mkResponse 302 "".
Definition missing : response := mkResponse 404 "{'error': 'no such post'}".

Definition start (replies : list response) : world :=
  mkWorld (map Ok replies) [].

(** The instances of the two modes. *)
Definition scraper : ImagechestGalleryExtractor :=
  _init None (__init__ gid).
Definition api_resolver : ImagechestGalleryExtractor :=
  _init (Some token) (__init__ gid).

Definition plain_page : string :=
  "<html><body><h1>Image Chest</h1></body></html>".

Definition broken_page : string :=
  "<div id=app data-page=" ++ dq ++ "{oops" ++ dq ++ "></div>".

Definition empty_page : string :=
  "<div id=app data-page=" ++ dq ++ "{}" ++ dq ++ "></div>".

Definition not_found_page : string :=
  "<title>Not Found</title><div data-page=" ++ dq ++ "{}" ++ dq ++ "></div>".

Definition two_attributes_page : string :=
  "<a data-page=" ++ dq
    ++ "{&quot;props&quot;:{&quot;post&quot;:{&quot;id&quot;:7}}}" ++ dq
    ++ "></a><b data-page=" ++ dq ++ "{}" ++ dq ++ "></b>".

Definition tagged_page : string :=
  "<div id=app data-page=" ++ dq
    ++ "{&quot;props&quot;:{&quot;post&quot;:{&quot;id&quot;:&quot;abcdefghijk&quot;,"
    ++ "&quot;title&quot;:&quot;Holiday&quot;,&quot;nsfw&quot;:false,"
    ++ "&quot;tags&quot;:[&quot;a&quot;,&quot;b&quot;,&quot;c&quot;],"
    ++ "&quot;files&quot;:[{&quot;link&quot;:&quot;https://cdn.imgchest.com/files/a1.png&quot;}]}}}"
    ++ dq ++ "></div>".

Definition untagged_page : string :=
  "<div id=app data-page=" ++ dq
    ++ "{&quot;props&quot;:{&quot;post&quot;:{&quot;id&quot;:&quot;abcdefghijk&quot;,"
    ++ "&quot;title&quot;:&quot;Holiday&quot;}}}"
    ++ dq ++ "></div>".

Definition someone : ImagechestUserExtractor := mkUser "someone".

Definition first_listing : response :=
  mkResponse 200
    (json_text
       "{'data': [{'id': 'abcdefghijk', 'link': 'https://imgchest.com/p/abcdefghijk'},
                  {'id': 'ABCDEFGHIJK', 'link': 'https://imgchest.com/p/ABCDEFGHIJK'}]}").

Definition empty_listing : response := mkResponse 200 (json_text "{'data': []}").
Definition end_of_listing : response := mkResponse 200 (json_text "{'message': 'done'}").
Definition html_reply : response := mkResponse 200 "<!DOCTYPE html><html></html>".

(** What the decoder and the API-mode [metadata] give on [post_reply]. *)
Definition post_body : value :=
  Eval vm_compute in
    match Json.loads (text post_reply) with
    | Ok body => body
    | Raise _ => VNone
    end.

Definition post_data : value :=
  Eval vm_compute in
    match getitem post_body "data" with
    | Ok data => data
    | Raise _ => VNone
    end.

Definition api_world : world := start [post_reply].

Definition api_post : value :=
  Eval vm_compute in
    match _metadata_api keep_text 1 api_resolver "" api_world with
    | Some (Ok (post, _), _) => post
    | _ => VNone
    end.

Definition api_after : ImagechestGalleryExtractor :=
  Eval vm_compute in
    match _metadata_api keep_text 1 api_resolver "" api_world with
    | Some (Ok (_, self'), _) => self'
    | _ => api_resolver
    end.

Definition api_world' : world :=
  Eval vm_compute in
    match _metadata_api keep_text 1 api_resolver "" api_world with
    | Some (_, w') => w'
    | None => api_world
    end.

Definition stamped (id link created : string) : value :=
  VDict [("id", VStr id); ("link", VStr link); ("created", VStr created);
         ("date", VStr created)].

Definition api_pairs : list (value * value) :=
  [(VStr "https://cdn.imgchest.com/files/a1.png",
    stamped "a1" "https://cdn.imgchest.com/files/a1.png"
            "2023-05-01T10:00:01.000000Z");
   (VStr "https://cdn.imgchest.com/files/b2.jpg",
    stamped "b2" "https://cdn.imgchest.com/files/b2.jpg"
            "2023-05-01T10:00:02.000000Z")].

(** More replies of the API. *)
Definition list_reply : response := mkResponse 200 "[1, 2]".
Definition no_data_reply : response :=
  mkResponse 200 (json_text "{'status': 'ok'}").
Definition no_created_reply : response :=
  mkResponse 200 (json_text "{'data': {'id': 'abcdefghijk', 'images': []}}").
Definition no_images_reply : response :=
  mkResponse 200
    (json_text "{'data': {'id': 'abcdefghijk',
                          'created': '2023-05-01T10:00:00.000000Z'}}").
Definition bare_image_reply : response :=
  mkResponse 200
    (json_text
       "{'data': {'created': '2023-05-01T10:00:00.000000Z',
                  'images': [
                    {'id': 'a1', 'created': '2023-05-01T10:00:01.000000Z'},
                    {'id': 'b2'},
                    {'id': 'c3', 'created': '2023-05-01T10:00:03.000000Z'}]}}").

(** The world after [_call] has met two 429 replies and the post. *)
Definition call_world' : world :=
  Eval vm_compute in
    match API._call 3 client endpoint
            (start [slow_down; slow_down; post_reply]) with
    | Some (_, w') => w'
    | None => start []
    end.

(** More pages. *)
Definition full_json : string :=
  "{'props': {'post': {'id': 'abcdefghijk', 'title': 'Holiday',
     'nsfw': false, 'views': 12, 'gallery_id': 'zzzzzzzzzzz',
     'owner': 'someone', 'tags': ['sea', 'sun'],
     'files': [{'link': 'https://cdn.imgchest.com/files/a1.png'},
               {'link': 'https://cdn.imgchest.com/files/b2.jpg'}]}}}".

Definition full_page : string := page_with full_json.

Definition odd_tags_page : string :=
  page_with
    "{'props': {'post': {'id': 'abcdefghijk', 'title': 'Holiday',
       'tags': ['sea', 7]}}}".

Definition linkless_file_page : string :=
  page_with
    "{'props': {'post': {'id': 'abcdefghijk',
       'files': [{'link': 'https://cdn.imgchest.com/files/a1.png'},
                 {'id': 'b2'}]}}}".

Definition unclosed_page : string :=
  "<div id=app data-page=" ++ dq ++ "{&quot;props&quot;:{}}></div>".

(** What the pages above decode to. *)
Definition decodes_to (page : string) : value :=
  match Json.loads (embedded_text Html.basic_charref page) with
  | Ok v => v
  | Raise _ => VNone
  end.

Definition props_of (page : string) : value :=
  match getitem (decodes_to page) "props" with
  | Ok v => v
  | Raise _ => VNone
  end.

Definition post_of (page : string) : dict :=
  match getitem (props_of page) "post" with
  | Ok (VDict d) => d
  | _ => []
  end.

(** More replies of the listing. *)
Definition linkless_listing : response :=
  mkResponse 200
    (json_text
       "{'data': [{'id': 'abcdefghijk', 'link': 'https://imgchest.com/p/abcdefghijk'},
                  {'id': 'ABCDEFGHIJK'},
                  {'id': '0123456789a', 'link': 'https://imgchest.com/p/0123456789a'}]}").

Definition null_listing : response :=
  mkResponse 200 (json_text "{'data': null}").

(** The galleries of a reply, as the decoder gives them. *)
Definition galleries_of (r : response) : list value :=
  match Json.loads (text r) with
  | Ok body =>
      match getitem body "data" with
      | Ok (VList l) => l
      | _ => []
      end
  | Raise _ => []
  end.

Definition body_of (r : response) : value :=
  match Json.loads (text r) with
  | Ok body => body
  | Raise _ => VNone
  end.

(** The post of a reply of the API, its images, and the world after the
    client has fetched it. *)
Definition data_of (r : response) : dict :=
  match getitem (body_of r) "data" with
  | Ok (VDict d) => d
  | _ => []
  end.

Definition images_of (r : response) : list value :=
  match dict_get "images" (data_of r) with
  | Some (VList l) => l
  | _ => []
  end.

Definition after_post (replies : list response) : world :=
  match API.post 1 client gid (start replies) with
  | Some (_, w') => w'
  | None => start replies
  end.

(** What [metadata] gives on [full_page]. *)
Definition full_metadata : value :=
  Eval vm_compute in
    match metadata Html.basic_charref scraper full_page (start []) with
    | Some (Ok m, _) => m
    | _ => VNone
    end.

End Sample.

(* ================================================================== *)
(** * Properties *)

(** ** Searching in strings *)

Lemma prefixb_app (p r : string) : prefixb p (p ++ r) = true.
Proof.
  induction p as [|a p IH]; simpl; [reflexivity|].
  now rewrite Ascii.eqb_refl, IH.
Qed.

Lemma prefixb_true (p s : string) :
  prefixb p s = true -> exists r, s = p ++ r.
Proof.
  revert s; induction p as [|a p IH]; intros s H.
  - now exists s.
  - destruct s as [|b s]; simpl in H; [discriminate|].
    apply andb_true_iff in H as [Hab Hp].
    apply Ascii.eqb_eq in Hab; subst b.
    destruct (IH _ Hp) as [r ->]. now exists r.
Qed.

Lemma find_occurrence (sub s : string) (i : nat) :
  find sub s = Some i ->
  exists pre post, s = pre ++ sub ++ post /\ String.length pre = i.
Proof.
  revert i; induction s as [|a s IH]; intros i; simpl.
  - destruct (prefixb sub "") eqn:P; [|discriminate].
    intros [= <-]. destruct (prefixb_true _ _ P) as [r Hr].
    now exists "", r.
  - destruct (prefixb sub (String a s)) eqn:P.
    + intros [= <-]. destruct (prefixb_true _ _ P) as [r Hr].
      now exists "", r.
    + destruct (find sub s) as [j|]; simpl; [|discriminate].
      intros [= <-]. destruct (IH j eq_refl) as (pre & post & -> & Hl).
      exists (String a pre), post. simpl. now rewrite Hl.
Qed.

Lemma find_earliest (sub pre post : string) :
  exists i, find sub (pre ++ sub ++ post) = Some i /\ i <= String.length pre.
Proof.
  induction pre as [|a pre IH].
  - exists 0. split; [|apply Nat.le_refl].
    change ("" ++ sub ++ post) with (sub ++ post).
    destruct (sub ++ post) eqn:E; simpl; rewrite <- E, prefixb_app;
      reflexivity.
  - change (String a pre ++ sub ++ post)
      with (String a (pre ++ sub ++ post)).
    simpl. destruct (prefixb sub (String a (pre ++ sub ++ post))).
    + exists 0. split; [reflexivity | apply Nat.le_0_l].
    + destruct IH as (i & -> & Hi). exists (S i). simpl.
      split; [reflexivity | now apply le_n_S].
Qed.

Lemma contains_iff (sub s : string) :
  contains sub s = true <-> occurs_in sub s.
Proof.
  unfold contains, occurs_in. split.
  - destruct (find sub s) as [i|] eqn:F; [|discriminate].
    intros _. destruct (find_occurrence _ _ _ F) as (pre & post & E & _).
    now exists pre, post.
  - intros (pre & post & ->).
    destruct (find_earliest sub pre post) as (i & -> & _). reflexivity.
Qed.

Lemma contains_false (sub s : string) :
  ~ occurs_in sub s -> contains sub s = false.
Proof.
  intros H. destruct (contains sub s) eqn:C; [|reflexivity].
  now apply contains_iff in C.
Qed.

Lemma find_absent (sub s : string) :
  ~ occurs_in sub s -> find sub s = None.
Proof.
  intros H. apply contains_false in H. unfold contains in H.
  now destruct (find sub s).
Qed.

Lemma find_first (sub s pre : string) :
  first_occurrence sub s pre -> find sub s = Some (String.length pre).
Proof.
  intros [[post ->] Hmin].
  destruct (find_earliest sub pre post) as (i & F & Hi).
  destruct (find_occurrence _ _ _ F) as (pre' & post' & E & Hl).
  specialize (Hmin _ _ E). rewrite F. f_equal. lia.
Qed.

Lemma drop_app (pre s : string) :
  drop (String.length pre) (pre ++ s) = s.
Proof. induction pre as [|a pre IH]; simpl; [now destruct s | exact IH]. Qed.

Lemma length_app (a b : string) :
  String.length (a ++ b) = String.length a + String.length b.
Proof. induction a as [|c a IH]; simpl; [reflexivity | now rewrite IH]. Qed.

Lemma app_assoc_str (a b c : string) : (a ++ b) ++ c = a ++ b ++ c.
Proof. induction a as [|x a IH]; simpl; [reflexivity | now rewrite IH]. Qed.

Lemma drop_past (pre sub s : string) :
  drop (String.length pre + String.length sub) (pre ++ sub ++ s) = s.
Proof.
  rewrite <- length_app, <- app_assoc_str. apply drop_app.
Qed.

Lemma not_occurs (sub s : string) :
  contains sub s = false -> ~ occurs_in sub s.
Proof.
  intros C H. apply contains_iff in H. rewrite H in C. discriminate C.
Defined.

Lemma find_is_first (sub s pre post : string) :
  s = pre ++ sub ++ post ->
  find sub s = Some (String.length pre) ->
  first_occurrence sub s pre.
Proof.
  intros E F. split; [now exists post|].
  intros pre' post' E'.
  destruct (find_earliest sub pre' post') as (i & Fi & Hi).
  rewrite <- E', F in Fi. injection Fi as <-. exact Hi.
Defined.

(** ** Dictionaries *)

Lemma dict_get_set_same (k : string) (v : value) (d : dict) :
  dict_get k (dict_set k v d) = Some v.
Proof.
  induction d as [|[k' v'] d IH]; simpl.
  - now rewrite String.eqb_refl.
  - destruct (String.eqb k k') eqn:E; simpl; rewrite ?String.eqb_refl, ?E;
      [reflexivity | exact IH].
Qed.

Lemma dict_get_set_other (k k' : string) (v : value) (d : dict) :
  k <> k' -> dict_get k (dict_set k' v d) = dict_get k d.
Proof.
  intros N. induction d as [|[k0 v0] d IH]; simpl.
  - apply String.eqb_neq in N. now rewrite N.
  - destruct (String.eqb k' k0) eqn:E; simpl.
    + apply String.eqb_eq in E; subst k0.
      apply String.eqb_neq in N. now rewrite N.
    + destruct (String.eqb k k0); [reflexivity | exact IH].
Qed.

Lemma dict_get_del_same (k : string) (d : dict) :
  dict_get k (dict_del k d) = None.
Proof.
  induction d as [|[k' v'] d IH]; simpl; [reflexivity|].
  destruct (String.eqb k k') eqn:E; simpl; rewrite ?E; exact IH.
Qed.

Lemma dict_get_del_other (k k' : string) (d : dict) :
  k <> k' -> dict_get k (dict_del k' d) = dict_get k d.
Proof.
  intros N. induction d as [|[k0 v0] d IH]; simpl; [reflexivity|].
  destruct (String.eqb k' k0) eqn:E; simpl.
  - apply String.eqb_eq in E; subst k0.
    apply String.eqb_neq in N. now rewrite N.
  - destruct (String.eqb k k0); [reflexivity | exact IH].
Qed.

(** ** The retry loop of the API client *)

Ltac step_M :=
  unfold bind, extractor_request, extractor_wait, log_debug, response_json,
    json_loads, emit, raise, lift, ret; simpl.

Lemma call_loop_backoff (self : ImagechestAPI) (url : string)
    (waits : list response) :
  forall (fuel : nat) (rest : list (result response)) (tr : list event),
    Forall too_many_requests waits ->
    API._call_loop (List.length waits + fuel) self url
      (mkWorld (map Ok waits ++ rest)%list tr)
    = API._call_loop fuel self url
        (mkWorld rest (tr ++ backoff self url waits)%list).
Proof.
  induction waits as [|r waits IH]; intros fuel rest tr H.
  - simpl. now rewrite app_nil_r.
  - inversion H as [|? ? Hr Hw]; subst. red in Hr.
    change (List.length (r :: waits) + fuel) with (S (List.length waits + fuel)).
    cbn [API._call_loop map app]. step_M. rewrite Hr. simpl.
    rewrite IH by assumption. f_equal. f_equal.
    unfold backoff, api_request. simpl.
    now rewrite <- !app_assoc.
Qed.

(** C1. Every 429 reply costs one request and one wait of 600 seconds,
    after which the same request (same URL, same keyword arguments, so
    same headers) is issued again, however many such replies come; their
    bodies are never handed to the decoder; the first reply with a status
    below 300 is decoded and its data field is returned. *)
Theorem call_waits_and_retries_on_429 :
  forall (self : ImagechestAPI) (endpoint : string)
         (waits : list response) (r : response)
         (rest : list (result response)) (tr : list event)
         (fuel : nat) (body data : value),
    Forall too_many_requests waits ->
    (status_code r < 300)%Z ->
    Json.loads (text r) = Ok body ->
    getitem body "data" = Ok data ->
    List.length waits < fuel ->
    let url := API.root ++ endpoint in
    API._call fuel self endpoint
      (mkWorld (map Ok waits ++ Ok r :: rest)%list tr)
    = Some (Ok data,
            mkWorld rest
              (tr ++ backoff self url waits
                  ++ [api_request self url; EvJson (text r)])%list).
Proof.
  intros self endpoint waits r rest tr fuel body data Hw Hr Hb Hd Hf url.
  unfold API._call. fold url.
  replace fuel with (List.length waits + S (fuel - S (List.length waits)))
    by lia.
  rewrite call_loop_backoff by assumption.
  cbn [API._call_loop]. step_M.
  apply Z.ltb_lt in Hr. rewrite Hr, Hb. simpl. rewrite Hd.
  now rewrite <- !app_assoc.
Qed.

(** C4. A reply with a status from 300 to 399 raises AuthenticationError,
    and any other reply with a status of 400 or more, 429 apart, raises
    StopExtraction after its body has been logged at debug level.  In
    both cases the reply is the last one taken from the transport: the
    request is not issued again. *)
Theorem call_fails_without_retry :
  forall (self : ImagechestAPI) (endpoint : string)
         (waits : list response) (r : response)
         (rest : list (result response)) (tr : list event) (fuel : nat),
    Forall too_many_requests waits ->
    List.length waits < fuel ->
    let url := API.root ++ endpoint in
    let before := (tr ++ backoff self url waits)%list in
    ((300 <= status_code r < 400)%Z ->
     API._call fuel self endpoint
       (mkWorld (map Ok waits ++ Ok r :: rest)%list tr)
     = Some (Raise (AuthenticationError "Invalid API access token"),
             mkWorld rest (before ++ [api_request self url])%list))
    /\
    ((400 <= status_code r)%Z -> status_code r <> 429%Z ->
     API._call fuel self endpoint
       (mkWorld (map Ok waits ++ Ok r :: rest)%list tr)
     = Some (Raise (StopExtraction "API request failed"),
             mkWorld rest
               (before ++ [api_request self url; EvLogDebug (text r)])%list)).
Proof.
  intros self endpoint waits r rest tr fuel Hw Hf url before.
  unfold API._call. fold url.
  replace fuel with (List.length waits + S (fuel - S (List.length waits)))
    by lia.
  rewrite call_loop_backoff by assumption. fold before.
  cbn [API._call_loop]. step_M. split.
  - intros [Hlo Hhi].
    apply Z.ltb_ge in Hlo. apply Z.ltb_lt in Hhi. now rewrite Hlo, Hhi.
  - intros Hlo Hne.
    assert (H3 : (status_code r <? 300)%Z = false) by (apply Z.ltb_ge; lia).
    assert (H4 : (status_code r <? 400)%Z = false) by (apply Z.ltb_ge; lia).
    apply Z.eqb_neq in Hne. rewrite H3, H4, Hne. simpl.
    now rewrite <- !app_assoc.
Qed.

(** ** Page-scrape mode *)

Section PageScrape.
Variable replace_charref : string -> string.

Lemma retrieve_page_data_eq (page : string) (w : world) :
  _retrieve_page_data replace_charref page w
  = Some (Json.loads (embedded_text replace_charref page), decoded (embedded_text replace_charref page) w).
Proof. reflexivity. Qed.

Lemma embedded_text_absent (page : string) :
  ~ occurs_in data_page_marker page -> embedded_text replace_charref page = "{}".
Proof.
  intros H. unfold embedded_text, extr. now rewrite (find_absent _ _ H).
Qed.

Lemma embedded_text_first_empty (page pre post : string) :
  page = pre ++ data_page_marker ++ "{}" ++ dq ++ post ->
  first_occurrence data_page_marker page pre ->
  embedded_text replace_charref page = "{}".
Proof.
  intros E F. unfold embedded_text, extr.
  rewrite (find_first _ _ _ F). rewrite E, drop_past. reflexivity.
Qed.

Lemma copy_attributes_spec (page_data : value) (attrs : list string) :
  forall md : dict,
  exists md',
    copy_attributes page_data md attrs = Ok md' /\
    forall k, ~ In k attrs -> dict_get k md' = dict_get k md.
Proof.
  induction attrs as [|a attrs IH]; intros md; simpl.
  - now exists md.
  - unfold copy_attribute.
    destruct (post_field page_data a) as [v|e]; simpl.
    + destruct (IH (dict_set a v md)) as (md' & -> & Hk).
      exists md'. split; [reflexivity|].
      intros k Hn. rewrite Hk by tauto.
      apply dict_get_set_other. intros ->. tauto.
    + destruct (IH md) as (md' & -> & Hk).
      exists md'. split; [reflexivity|]. intros k Hn. apply Hk. tauto.
Qed.

Lemma copy_attributes_nothing (page_data : value) (attrs : list string) :
  (forall k, exists e, post_field page_data k = Raise e) ->
  forall md, copy_attributes page_data md attrs = Ok md.
Proof.
  intros H. induction attrs as [|a attrs IH]; intros md; simpl.
  - reflexivity.
  - unfold copy_attribute. destruct (H a) as [e ->]. simpl. apply IH.
Qed.

Lemma tags_not_an_attribute : ~ In "tags" attributes.
Proof. unfold attributes. simpl. intuition discriminate. Qed.

(** What [metadata] and [images] give once the page is known to be free
    of the words Not Found and the attribute decodes to [page_data]. *)
Lemma metadata_decoded (self : ImagechestGalleryExtractor)
    (page : string) (w : world) (page_data : value) :
  ~ occurs_in "Not Found" page ->
  Json.loads (embedded_text replace_charref page) = Ok page_data ->
  metadata replace_charref self page w
  = Some (md <~ copy_attributes page_data
                  [("gallery_id", VStr (gallery_id self))] attributes ;;
          md <~ copy_tags page_data md ;;
          Ok (VDict md),
          decoded (embedded_text replace_charref page) w).
Proof.
  intros NF L. unfold metadata. rewrite (contains_false _ _ NF).
  unfold bind. rewrite retrieve_page_data_eq, L. unfold lift, ret.
  destruct (copy_attributes_spec page_data attributes
              [("gallery_id", VStr (gallery_id self))]) as (md & -> & _).
  simpl. unfold copy_tags.
  destruct (tags <~ post_field page_data "tags" ;;
            joined <~ str_join "," tags ;;
            Ok (dict_set "tags" joined md)); reflexivity.
Qed.

Lemma decode_error_propagates (self : ImagechestGalleryExtractor)
    (page : string) (w : world) (e : exn) :
  ~ occurs_in "Not Found" page ->
  Json.loads (embedded_text replace_charref page) = Raise e ->
  metadata replace_charref self page w
  = Some (Raise e, decoded (embedded_text replace_charref page) w)
  /\ images replace_charref self page w
     = Some (Raise e, decoded (embedded_text replace_charref page) w).
Proof.
  intros NF L. unfold metadata, images. rewrite (contains_false _ _ NF).
  unfold bind. now rewrite retrieve_page_data_eq, L.
Qed.

Lemma no_props_no_field (page_data : value) :
  (exists e, getitem page_data "props" = Raise e) ->
  forall k, exists e, post_field page_data k = Raise e.
Proof. intros [e H] k. exists e. unfold post_field. now rewrite H. Qed.

Lemma degrades_without_props (self : ImagechestGalleryExtractor)
    (page : string) (w : world) (page_data : value) :
  ~ occurs_in "Not Found" page ->
  Json.loads (embedded_text replace_charref page) = Ok page_data ->
  (exists e, getitem page_data "props" = Raise e) ->
  metadata replace_charref self page w
  = Some (Ok (VDict [("gallery_id", VStr (gallery_id self))]),
          decoded (embedded_text replace_charref page) w)
  /\ images replace_charref self page w
     = Some (Ok [], decoded (embedded_text replace_charref page) w).
Proof.
  intros NF L P. pose proof (no_props_no_field _ P) as F. split.
  - rewrite (metadata_decoded self page w page_data NF L).
    rewrite (copy_attributes_nothing _ _ F). simpl.
    unfold copy_tags. destruct (F "tags") as [e ->]. reflexivity.
  - unfold images, bind. rewrite retrieve_page_data_eq, L.
    destruct (F "files") as [e ->]. reflexivity.
Qed.

(** C5. A page that holds the words Not Found anywhere makes [metadata]
    raise NotFoundError at once: the world is left as it was, so nothing
    has been handed to the JSON decoder, whatever else the page holds. *)
Theorem metadata_not_found_before_decoding :
  forall (self : ImagechestGalleryExtractor) (page : string) (w : world),
    occurs_in "Not Found" page ->
    metadata replace_charref self page w
    = Some (Raise (NotFoundError "gallery"), w).
Proof.
  intros self page w H. apply contains_iff in H.
  unfold metadata. now rewrite H.
Qed.

(** C3, as amended. On a page without the words Not Found: when the
    data-page marker is absent, [metadata] gives the mapping that holds
    only the gallery id and [images] gives the empty list; when the
    attribute value is not valid JSON, the error of the decoder is raised
    by both. *)
Theorem absent_json_degrades_malformed_json_raises :
  forall (self : ImagechestGalleryExtractor) (page : string) (w : world),
    ~ occurs_in "Not Found" page ->
    (~ occurs_in data_page_marker page ->
     metadata replace_charref self page w
     = Some (Ok (VDict [("gallery_id", VStr (gallery_id self))]),
             decoded "{}" w)
     /\ images replace_charref self page w = Some (Ok [], decoded "{}" w))
    /\
    (forall e : exn,
       Json.loads (embedded_text replace_charref page) = Raise e ->
       metadata replace_charref self page w
       = Some (Raise e, decoded (embedded_text replace_charref page) w)
       /\ images replace_charref self page w
          = Some (Raise e, decoded (embedded_text replace_charref page) w)).
Proof.
  intros self page w NF. split.
  - intros A. pose proof (embedded_text_absent page A) as E.
    rewrite <- E. apply degrades_without_props with (page_data := VDict []).
    + exact NF.
    + now rewrite E.
    + now exists (KeyError "props").
  - intros e L. now apply decode_error_propagates.
Qed.

(** C6, as amended. For a gallery id of eleven letters and digits, the
    page-scrape resolver made for it, on a page without the words Not
    Found whose first data-page marker opens the value {}, gives from
    [metadata] exactly the mapping that holds the gallery id and from
    [images] the empty list. *)
Theorem empty_first_data_page :
  forall (parse_datetime : value -> string -> value)
         (gid page pre post : string) (fuel : nat) (w : world),
    is_gallery_id gid = true ->
    ~ occurs_in "Not Found" page ->
    page = pre ++ data_page_marker ++ "{}" ++ dq ++ post ->
    first_occurrence data_page_marker page pre ->
    let self := _init None (__init__ gid) in
    call_metadata replace_charref parse_datetime fuel self page w
    = Some (Ok (VDict [("gallery_id", VStr gid)], self), decoded "{}" w)
    /\ call_images replace_charref self page w
       = Some (Ok [], decoded "{}" w).
Proof.
  intros parse_datetime gid page pre post fuel w _ NF E F self.
  pose proof (embedded_text_first_empty page pre post E F) as T.
  destruct (degrades_without_props self page w (VDict []) NF) as [Hm Hi].
  - now rewrite T.
  - now exists (KeyError "props").
  - rewrite T in Hm, Hi. split.
    + unfold call_metadata. simpl. unfold bind. now rewrite Hm.
    + exact Hi.
Qed.

(** C8. When the embedded post has the tags a, b, c as a list, [metadata]
    holds the one string a,b,c under the key tags; when the embedded post
    has no tags field, the metadata has no key tags. *)
Theorem tags_joined_or_absent :
  forall (self : ImagechestGalleryExtractor) (page : string) (w : world)
         (page_data props : value) (post : dict),
    ~ occurs_in "Not Found" page ->
    Json.loads (embedded_text replace_charref page) = Ok page_data ->
    getitem page_data "props" = Ok props ->
    getitem props "post" = Ok (VDict post) ->
    (dict_get "tags" post = Some (VList [VStr "a"; VStr "b"; VStr "c"]) ->
     exists md,
       metadata replace_charref self page w
       = Some (Ok (VDict md), decoded (embedded_text replace_charref page) w)
       /\ dict_get "tags" md = Some (VStr "a,b,c"))
    /\
    (dict_get "tags" post = None ->
     exists md,
       metadata replace_charref self page w
       = Some (Ok (VDict md), decoded (embedded_text replace_charref page) w)
       /\ dict_get "tags" md = None).
Proof.
  intros self page w page_data props post NF L P Q.
  rewrite (metadata_decoded self page w page_data NF L).
  destruct (copy_attributes_spec page_data attributes
              [("gallery_id", VStr (gallery_id self))]) as (md & -> & Hk).
  specialize (Hk "tags" tags_not_an_attribute).
  unfold copy_tags, post_field. rewrite P. simpl. rewrite Q. simpl.
  split; intros T; rewrite T; simpl.
  - eexists. split; [reflexivity | apply dict_get_set_same].
  - exists md. split; [reflexivity | now rewrite Hk].
Qed.

End PageScrape.

(** ** API mode *)

Lemma bind_lift {A B} (r : result A) (k : A -> M B) (w : world) :
  bind (lift r) k w
  = match r with
    | Ok a => k a w
    | Raise e => Some (Raise e, w)
    end.
Proof. unfold bind, lift. now destruct r. Qed.

Section ApiMode.
Variable parse_datetime : value -> string -> value.

Lemma metadata_api_returns (fuel : nat) (self : ImagechestGalleryExtractor)
    (page : string) (w w' : world) (client : ImagechestAPI)
    (d : dict) (created imgs imgs' : value) :
  api self = Some client ->
  API.post fuel client (gallery_id self) w = Some (Ok (VDict d), w') ->
  dict_get "created" d = Some created ->
  dict_get "images" d = Some imgs ->
  update_each (stamp_image parse_datetime) imgs = Ok imgs' ->
  _metadata_api parse_datetime fuel self page w
  = Some (Ok (VDict (finished_post parse_datetime (gallery_id self) d created imgs'),
              with_image_list self imgs'), w').
Proof.
  intros Ha Hp Hc Hi Hu. unfold _metadata_api. rewrite Ha.
  unfold bind at 1. rewrite Hp.
  rewrite bind_lift. simpl. rewrite Hc.
  rewrite bind_lift. simpl.
  rewrite bind_lift. simpl.
  rewrite dict_get_set_other, Hi by discriminate.
  rewrite bind_lift, Hu.
  do 3 (rewrite bind_lift; simpl).
  rewrite bind_lift. simpl.
  rewrite dict_get_del_other, dict_get_set_other, dict_get_set_same
    by discriminate.
  unfold ret, with_image_list. simpl. now rewrite Ha.
Qed.

Lemma metadata_api_inv (fuel : nat) (self : ImagechestGalleryExtractor)
    (page : string) (w w' : world) (post : value)
    (self' : ImagechestGalleryExtractor) :
  _metadata_api parse_datetime fuel self page w = Some (Ok (post, self'), w') ->
  exists client d created imgs imgs',
    api self = Some client /\
    API.post fuel client (gallery_id self) w = Some (Ok (VDict d), w') /\
    dict_get "created" d = Some created /\
    dict_get "images" d = Some imgs /\
    update_each (stamp_image parse_datetime) imgs = Ok imgs' /\
    post = VDict (finished_post parse_datetime (gallery_id self) d created imgs') /\
    self' = with_image_list self imgs'.
Proof.
  intros H. unfold _metadata_api in H.
  destruct (api self) as [client|] eqn:Ha; [|discriminate].
  unfold bind at 1 in H.
  destruct (API.post fuel client (gallery_id self) w)
    as [[[data|e] w1]|] eqn:Hp; try discriminate.
  rewrite bind_lift in H.
  destruct data as [| | | | | |d| |]; try discriminate.
  simpl in H. destruct (dict_get "created" d) as [created|] eqn:Hc;
    [|discriminate].
  rewrite bind_lift in H. simpl in H.
  rewrite bind_lift in H. simpl in H.
  rewrite dict_get_set_other in H by discriminate.
  destruct (dict_get "images" d) as [imgs|] eqn:Hi; [|discriminate].
  rewrite bind_lift in H.
  destruct (update_each (stamp_image parse_datetime) imgs)
    as [imgs'|e] eqn:Hu; [|discriminate].
  do 3 (rewrite bind_lift in H; simpl in H).
  rewrite bind_lift in H. simpl in H.
  rewrite dict_get_del_other, dict_get_set_other, dict_get_set_same in H
    by discriminate.
  unfold ret in H. simpl in H. injection H as <- <- <-.
  exists client, d, created, imgs, imgs'.
  unfold with_image_list. rewrite Ha. repeat split; assumption.
Qed.

Lemma stamp_images_ok (imgs : list value) :
  Forall has_created imgs ->
  exists imgs', Res.mapM (stamp_image parse_datetime) imgs = Ok imgs'.
Proof.
  induction 1 as [|img imgs (d & c & -> & Hc) _ [imgs' IH]]; simpl.
  - now exists [].
  - unfold stamp_image at 1. simpl. rewrite Hc. simpl. rewrite IH. simpl.
    eexists. reflexivity.
Qed.

Lemma pair_links (elems links : list value) :
  Forall2 (fun img l => getitem img "link" = Ok l) elems links ->
  Res.mapM (fun img => link <~ getitem img "link" ;; Ok (link, img)) elems
  = Ok (combine links elems).
Proof.
  induction 1 as [|img l elems links Hl _ IH]; simpl.
  - reflexivity.
  - now rewrite Hl, IH.
Qed.

Lemma getitem_raises (v : value) (k : string) (e : exn) :
  getitem v k = Raise e -> is_TypeError_or_KeyError e = true.
Proof.
  destruct v; simpl; try (intros [= <-]; reflexivity).
  destruct (dict_get k d); [discriminate | intros [= <-]; reflexivity].
Qed.

Lemma pairing_no_attribute_error (elems : list value) (name : string) :
  Res.mapM (fun img => link <~ getitem img "link" ;; Ok (link, img)) elems
  <> Raise (AttributeError name).
Proof.
  induction elems as [|img elems IH]; simpl; [discriminate|].
  destruct (getitem img "link") as [l|e] eqn:G; simpl.
  - destruct (Res.mapM _ elems); simpl; [discriminate|].
    intros [= ->]. now apply IH.
  - intros [= ->]. apply getitem_raises in G. discriminate.
Qed.

(** C7. After [metadata] has returned on an instance in API mode, the
    instance holds the list of images that the post carried, each stamped
    with its date, and the post returned no longer holds it; [images] on
    that instance gives the elements of this list in their order, each
    paired with its own link in front of its whole mapping. *)
Theorem api_images_returns_stashed_list :
  forall (fuel : nat) (self self' : ImagechestGalleryExtractor)
         (page : string) (w w' : world) (post : value),
    _metadata_api parse_datetime fuel self page w
    = Some (Ok (post, self'), w') ->
    exists (client : ImagechestAPI) (data imgs stash : value)
           (elems : list value),
      api self = Some client /\
      API.post fuel client (gallery_id self) w = Some (Ok data, w') /\
      getitem data "images" = Ok imgs /\
      update_each (stamp_image parse_datetime) imgs = Ok stash /\
      _image_list self' = Some stash /\
      getitem post "images" = Raise (KeyError "images") /\
      iterate stash = Ok elems /\
      forall links : list value,
        Forall2 (fun img l => getitem img "link" = Ok l) elems links ->
        forall (page' : string) (w2 : world),
          _images_api self' page' w2 = Some (Ok (combine links elems), w2).
Proof.
  intros fuel self self' page w w' post H.
  destruct (metadata_api_inv fuel self page w w' post self' H)
    as (client & d & created & imgs & stash & Ha & Hp & Hc & Hi & Hu & -> & ->).
  assert (exists elems, iterate stash = Ok elems) as [elems He].
  { unfold update_each in Hu. destruct imgs; simpl in Hu;
      try discriminate.
    - destruct (Res.mapM _ _); [|discriminate].
      injection Hu as <-. simpl. eauto.
    - destruct (Res.mapM _ _); [|discriminate].
      injection Hu as <-. simpl. eauto.
    - destruct (Res.mapM _ _); [|discriminate].
      injection Hu as <-. simpl. eauto. }
  exists client, (VDict d), imgs, stash, elems.
  repeat split; try assumption.
  - simpl. now rewrite Hi.
  - simpl. unfold finished_post. now rewrite dict_get_del_same.
  - intros links L page' w2. unfold _images_api. simpl.
    rewrite bind_lift, He. unfold lift. now rewrite (pair_links _ _ L).
Qed.

(** C9. Whatever post the API gives, with or without an image count, the
    mapping that [metadata] returns in API mode holds the gallery id of
    the instance under gallery_id and holds no key image_count; and
    [metadata] does return one whenever the post holds its creation time
    and a list of images that each hold theirs. *)
Theorem api_metadata_gallery_id_no_image_count :
  forall (fuel : nat) (self : ImagechestGalleryExtractor)
         (page : string) (w : world),
    (forall (post : value) (self' : ImagechestGalleryExtractor) (w' : world),
       _metadata_api parse_datetime fuel self page w
       = Some (Ok (post, self'), w') ->
       getitem post "gallery_id" = Ok (VStr (gallery_id self)) /\
       getitem post "image_count" = Raise (KeyError "image_count"))
    /\
    (forall (client : ImagechestAPI) (d : dict) (w' : world)
            (created : value) (imgs : list value),
       api self = Some client ->
       API.post fuel client (gallery_id self) w = Some (Ok (VDict d), w') ->
       dict_get "created" d = Some created ->
       dict_get "images" d = Some (VList imgs) ->
       Forall has_created imgs ->
       exists (post : value) (self' : ImagechestGalleryExtractor),
         _metadata_api parse_datetime fuel self page w
         = Some (Ok (post, self'), w')).
Proof.
  intros fuel self page w. split.
  - intros post self' w' H.
    destruct (metadata_api_inv fuel self page w w' post self' H)
      as (client & d & created & imgs & stash & _ & _ & _ & _ & _ & -> & _).
    unfold finished_post. simpl. split.
    + rewrite !dict_get_del_other, dict_get_set_same by discriminate.
      reflexivity.
    + rewrite dict_get_del_other, dict_get_del_same by discriminate.
      reflexivity.
  - intros client d w' created imgs Ha Hp Hc Hi Hall.
    destruct (stamp_images_ok imgs Hall) as [imgs' Hs].
    do 2 eexists.
    apply (metadata_api_returns fuel self page w w' client d created
             (VList imgs) (VList imgs') Ha Hp Hc Hi).
    simpl. now rewrite Hs.
Qed.

(** C10. On an instance made in API mode, [images] before any [metadata]
    raises AttributeError, for the attribute that holds the stashed list
    does not exist; once [metadata] has returned on the instance, the
    attribute exists. *)
Theorem api_images_before_metadata_fails :
  forall (replace_charref : string -> string) (gid : string)
         (c : ascii) (token : string),
    let self := _init (Some (String c token)) (__init__ gid) in
    (forall (page : string) (w : world),
       call_images replace_charref self page w
       = Some (Raise (AttributeError "_image_list"), w))
    /\
    (forall (fuel : nat) (page : string) (w w' : world) (post : value)
            (self' : ImagechestGalleryExtractor),
       call_metadata replace_charref parse_datetime fuel self page w
       = Some (Ok (post, self'), w') ->
       exists stash : value,
         _image_list self' = Some stash /\
         forall (page' : string) (w2 : world),
           call_images replace_charref self' page' w2
           = _images_api self' page' w2
           /\ _images_api self' page' w2
              <> Some (Raise (AttributeError "_image_list"), w2)).
Proof.
  intros rc gid c token self. split.
  - reflexivity.
  - intros fuel page w w' post self' H.
    change (call_metadata rc parse_datetime fuel self page w)
      with (_metadata_api parse_datetime fuel self page w) in H.
    destruct (metadata_api_inv fuel self page w w' post self' H)
      as (client & d & created & imgs & stash & _ & _ & _ & _ & _ & _ & ->).
    exists stash. split; [reflexivity|]. intros page' w2.
    split; [reflexivity|].
    unfold _images_api. simpl. rewrite bind_lift.
    destruct (iterate stash) as [elems|e] eqn:He.
    + unfold lift. intros [= E]. exact (pairing_no_attribute_error _ _ E).
    + destruct stash; simpl in He; try discriminate;
        injection He as <-; discriminate.
Qed.

End ApiMode.

(** ** The listing of a user's galleries *)

Lemma requests_of_app (a b : list event) :
  requests_of (a ++ b)%list = (requests_of a ++ requests_of b)%list.
Proof.
  induction a as [|e a IH]; simpl; [reflexivity|].
  destruct e; simpl; now rewrite IH.
Qed.

Lemma queue_gallery_yields (d : dict) (l : value) (w : world) :
  dict_get "link" d = Some l ->
  User.queue_gallery (VDict d) w
  = Some (Ok tt,
          mkWorld (inbox w)
            (trace w ++
             [EvYield
                (Queue l
                   (VDict
                      (dict_set "_extractor"
                         (VClass "ImagechestGalleryExtractor") d)))])%list).
Proof.
  intros Hl. unfold User.queue_gallery.
  rewrite bind_lift. simpl. rewrite bind_lift. simpl.
  now rewrite dict_get_set_other, Hl by discriminate.
Qed.

Lemma queue_galleries (galleries : list value) :
  Forall has_link galleries ->
  forall w : world,
  exists ys,
    for_each galleries User.queue_gallery w
    = Some (Ok tt, mkWorld (inbox w) (trace w ++ ys)%list)
    /\ requests_of ys = [].
Proof.
  induction 1 as [|g galleries (d & l & -> & Hl) _ IH]; intros w.
  - exists []. simpl. unfold ret. rewrite app_nil_r. now destruct w.
  - cbn [for_each]. unfold bind.
    rewrite (queue_gallery_yields d l w Hl).
    match goal with
    | |- context [for_each galleries User.queue_gallery ?w1] =>
        destruct (IH w1) as (ys & -> & Hy)
    end.
    simpl. eexists (_ :: ys). rewrite <- app_assoc. simpl.
    split; [reflexivity | exact Hy].
Qed.

(** The decoder has one error of its own. *)
Lemma loads_raises (s : string) (e : exn) :
  Json.loads s = Raise e -> e = JSONDecodeError.
Proof.
  unfold Json.loads.
  destruct (Json.scan_once _ _) as [[v r]|]; [|now intros [= <-]].
  destruct (Json.skip_ws r); [discriminate | now intros [= <-]].
Qed.

Section Paginator.
Variable unquote : string -> string.
Variable self : ImagechestUserExtractor.

(** A round on a reply whose decoded body gives no data: the handler
    returns from [items]. *)
Lemma round_without_data (p : Z) (fuel : nat) (last : response)
    (rest : list (result response)) (tr : list event) :
  lacks_data last ->
  User.items_loop (S fuel) listing_url (params_at unquote self p)
    (mkWorld (Ok last :: rest) tr)
  = Some (Ok tt, mkWorld rest (tr ++ last_round unquote self p last)%list).
Proof.
  intros (body & e & Hb & He).
  cbn [User.items_loop]. unfold bind at 1, try_except.
  step_M. rewrite Hb. simpl. rewrite He.
  rewrite (getitem_raises _ _ _ He).
  unfold last_round, listing_request. rewrite <- app_assoc. reflexivity.
Qed.

(** A round on a reply that is no JSON: the error of the decoder is none
    of the two that the handler takes, so it leaves [items]. *)
Lemma round_without_json (p : Z) (fuel : nat) (last : response)
    (rest : list (result response)) (tr : list event) (e : exn) :
  Json.loads (text last) = Raise e ->
  User.items_loop (S fuel) listing_url (params_at unquote self p)
    (mkWorld (Ok last :: rest) tr)
  = Some (Raise e, mkWorld rest (tr ++ last_round unquote self p last)%list).
Proof.
  intros Hb. pose proof (loads_raises _ _ Hb) as ->.
  cbn [User.items_loop]. unfold bind at 1, try_except.
  step_M. rewrite Hb. simpl.
  unfold last_round, listing_request. rewrite <- app_assoc. reflexivity.
Qed.

(** The rounds on successful replies, then the round that ends the
    iteration with [r]: one request per reply, the pages counted up from
    [p]. *)
Lemma items_loop_pages (goods : list response) :
  forall (p : Z) (fuel : nat) (last : response)
         (rest : list (result response)) (tr : list event)
         (r : result unit),
    Forall listing goods ->
    (forall (p' : Z) (fuel' : nat) (tr1 : list event),
       User.items_loop (S fuel') listing_url (params_at unquote self p')
         (mkWorld (Ok last :: rest) tr1)
       = Some (r, mkWorld rest (tr1 ++ last_round unquote self p' last)%list)) ->
    List.length goods < fuel ->
    exists tr',
      User.items_loop fuel listing_url (params_at unquote self p)
        (mkWorld (map Ok goods ++ Ok last :: rest)%list tr)
      = Some (r, mkWorld rest (tr ++ tr')%list)
      /\ requests_of tr'
         = map (fun k => listing_request unquote self (p + Z.of_nat k))
               (seq 0 (S (List.length goods))).
Proof.
  induction goods as [|g goods IH]; intros p fuel last rest tr r Hg Hl Hf.
  - destruct fuel as [|fuel]; [inversion Hf|].
    cbn [map app]. rewrite Hl. exists (last_round unquote self p last).
    split; [reflexivity|].
    simpl. now rewrite Z.add_0_r.
  - destruct fuel as [|fuel]; [inversion Hf|].
    inversion Hg as [|? ? (body & gs & Hb & Hd & Hgs) Hg']; subst.
    set (expected := map _ (seq 0 _)).
    cbn [User.items_loop map app]. unfold bind at 1, try_except.
    step_M. rewrite Hb. simpl. rewrite Hd. simpl.
    match goal with
    | |- context [for_each gs User.queue_gallery ?w1] =>
        destruct (queue_galleries gs Hgs w1) as (ys & -> & Hy)
    end.
    cbn [inbox trace].
    match goal with
    | |- context [User.items_loop fuel listing_url ?ps] =>
        change ps with (params_at unquote self (p + 1))
    end.
    match goal with
    | |- context [User.items_loop fuel listing_url _ (mkWorld _ ?tr1)] =>
        destruct (IH (p + 1)%Z fuel last rest tr1 r Hg' Hl) as (tr' & -> & Hr)
    end.
    { simpl in Hf. lia. }
    exists ([EvRequest (listing_request unquote self p); EvJson (text g)] ++ ys ++ tr')%list.
    split.
    + unfold listing_request. rewrite <- !app_assoc. reflexivity.
    + rewrite !requests_of_app, Hy, Hr. subst expected.
      set (n := S (List.length goods)).
      change (List.length (g :: goods)) with n.
      change (seq 0 (S n)) with (0 :: seq 1 n).
      rewrite <- seq_shift, map_cons, map_map, Z.add_0_r.
      cbn [requests_of app]. f_equal.
      apply map_ext. intros k. f_equal. lia.
Qed.

(** C2, as amended. The page parameter starts at 1 and goes up by one
    after each successful reply, whatever the number of galleries in it:
    the requests of a run are those for the pages 1, 2, ... in order, one
    per reply taken.  After any number of successful replies, the
    iteration ends without an error at the first reply whose decoded body
    has no data field (or is no mapping), and it ends with the error of
    the decoder at the first reply that cannot be parsed as JSON. *)
Theorem items_pages_and_silent_stop :
  forall (goods : list response) (last : response)
         (rest : list (result response)) (tr : list event) (fuel : nat),
    Forall listing goods ->
    List.length goods < fuel ->
    let run :=
      User.items unquote fuel self
        (mkWorld (map Ok goods ++ Ok last :: rest)%list tr) in
    let ends_with (r : result unit) :=
      exists tr',
        run = Some (r, mkWorld rest (tr ++ tr')%list)
        /\ requests_of tr'
           = map (fun k => listing_request unquote self (Z.of_nat k))
                 (seq 1 (S (List.length goods))) in
    (lacks_data last -> ends_with (Ok tt))
    /\
    (forall e, Json.loads (text last) = Raise e -> ends_with (Raise e)).
Proof.
  intros goods last rest tr fuel Hg Hf run ends_with.
  assert (pages : forall r,
            (forall p' fuel' tr1,
               User.items_loop (S fuel') listing_url
                 (params_at unquote self p') (mkWorld (Ok last :: rest) tr1)
               = Some (r, mkWorld rest (tr1 ++ last_round unquote self p' last)%list)) ->
            ends_with r).
  { intros r Hl.
    destruct (items_loop_pages goods 1 fuel last rest tr r Hg Hl Hf)
      as (tr' & E & Hr).
    exists tr'. split; [exact E|].
    rewrite Hr, <- seq_shift, map_map. apply map_ext. intros k.
    f_equal. lia. }
  split.
  - intros Hl. apply pages. intros p' fuel' tr1.
    now apply round_without_data.
  - intros e He. apply pages. intros p' fuel' tr1.
    now apply round_without_json.
Qed.

End Paginator.

(** ** More on the retry loop of the API client *)

Lemma waits_of_app (a b : list event) :
  waits_of (a ++ b)%list = (waits_of a ++ waits_of b)%list.
Proof.
  induction a as [|e a IH]; simpl; [reflexivity|].
  destruct e; simpl; now rewrite IH.
Qed.

Lemma decodes_of_app (a b : list event) :
  decodes_of (a ++ b)%list = (decodes_of a ++ decodes_of b)%list.
Proof.
  induction a as [|e a IH]; simpl; [reflexivity|].
  destruct e; simpl; now rewrite IH.
Qed.

Lemma yields_of_app (a b : list event) :
  yields_of (a ++ b)%list = (yields_of a ++ yields_of b)%list.
Proof.
  induction a as [|e a IH]; simpl; [reflexivity|].
  destruct e; simpl; now rewrite IH.
Qed.

Ltac step_M_in H :=
  unfold bind, extractor_request, extractor_wait, log_debug, response_json,
    json_loads, emit, raise, lift, ret in H; simpl in H.

(** Every run of the loop that ends: the replies it took, and what it
    left in the trace. *)
Lemma call_loop_run (self : ImagechestAPI) (url : string) (fuel : nat) :
  forall (w w' : world) (r : result value),
    API._call_loop fuel self url w = Some (r, w') ->
    exists (taken : list (result response)) (tr' : list event),
      inbox w = (taken ++ inbox w')%list /\
      trace w' = (trace w ++ tr')%list /\
      1 <= List.length taken /\
      requests_of tr'
      = repeat (mkRequest url (API.call_kwargs self)) (List.length taken) /\
      waits_of tr' = repeat 600%Z (List.length taken - 1) /\
      List.length (decodes_of tr') <= 1.
Proof.
  induction fuel as [|fuel IH]; intros w w' r H; [discriminate H|].
  cbn [API._call_loop] in H. unfold bind at 1, extractor_request in H.
  destruct w as [box tr]. cbn [inbox trace] in *.
  destruct box as [|reply rest]; [discriminate H|].
  destruct reply as [resp|e].
  - destruct (status_code resp <? 300)%Z.
    + step_M_in H. exists [Ok resp].
      destruct (Json.loads (text resp)) as [body|e]; simpl in H;
        injection H as <- <-; eexists; cbn [inbox trace];
        (split; [reflexivity|]);
        (split; [rewrite <- app_assoc; reflexivity|]);
        simpl; repeat split; lia.
    + destruct (status_code resp <? 400)%Z.
      * step_M_in H. injection H as <- <-. exists [Ok resp]. eexists.
        cbn [inbox trace]. repeat split; simpl; try reflexivity; lia.
      * destruct (status_code resp =? 429)%Z.
        -- unfold bind at 1, extractor_wait, emit in H. cbn [inbox trace] in H.
           destruct (IH _ _ _ H) as (taken & tr' & Hb & Ht & Hn & Hr & Hw & Hd).
           cbn [inbox trace] in Hb, Ht.
           exists (Ok resp :: taken).
           exists ([EvRequest (mkRequest url (API.call_kwargs self));
                    EvWait 600] ++ tr')%list.
           split; [simpl; now rewrite Hb|].
           split; [rewrite Ht, <- !app_assoc; reflexivity|].
           split; [simpl; lia|].
           split; [simpl; now rewrite Hr|].
           split; [|exact Hd].
           simpl. rewrite Hw, Nat.sub_0_r.
           destruct (List.length taken); [lia|]. simpl.
           now rewrite Nat.sub_0_r.
        -- step_M_in H. injection H as <- <-. exists [Ok resp]. eexists.
           cbn [inbox trace].
           split; [reflexivity|].
           split; [rewrite <- app_assoc; reflexivity|].
           simpl. repeat split; lia.
  - injection H as <- <-. exists [Raise e]. eexists. cbn [inbox trace].
    repeat split; simpl; try reflexivity; lia.
Qed.

(** X1. Whatever the transport replies, a call of [_call] that ends has
    taken at least one reply, has issued one request per reply taken,
    each to the same URL with the same keyword arguments, has waited 600
    seconds once per reply but the last, and has handed at most one body
    to the decoder. *)
Theorem call_requests_and_waits :
  forall (self : ImagechestAPI) (endpoint : string) (fuel : nat)
         (w w' : world) (r : result value),
    API._call fuel self endpoint w = Some (r, w') ->
    exists (taken : list (result response)) (tr' : list event),
      inbox w = (taken ++ inbox w')%list /\
      trace w' = (trace w ++ tr')%list /\
      1 <= List.length taken /\
      requests_of tr'
      = repeat (mkRequest (API.root ++ endpoint) (API.call_kwargs self))
               (List.length taken) /\
      waits_of tr' = repeat 600%Z (List.length taken - 1) /\
      List.length (decodes_of tr') <= 1.
Proof.
  intros self endpoint fuel w w' r H.
  exact (call_loop_run self (API.root ++ endpoint) fuel w w' r H).
Qed.

(** X2. A reply with a status below 300 whose body cannot be used ends
    the call with an error, after one decode and without another request:
    the error of the decoder when the body is not JSON, KeyError when the
    decoded mapping has no data field, TypeError when the decoded body is
    no mapping. *)
Theorem call_raises_on_unusable_body :
  forall (self : ImagechestAPI) (endpoint : string)
         (waits : list response) (r : response)
         (rest : list (result response)) (tr : list event) (fuel : nat),
    Forall too_many_requests waits ->
    (status_code r < 300)%Z ->
    List.length waits < fuel ->
    let url := API.root ++ endpoint in
    let run :=
      API._call fuel self endpoint
        (mkWorld (map Ok waits ++ Ok r :: rest)%list tr) in
    let final :=
      mkWorld rest
        (tr ++ backoff self url waits
            ++ [api_request self url; EvJson (text r)])%list in
    (forall e, Json.loads (text r) = Raise e -> run = Some (Raise e, final))
    /\
    (forall d, Json.loads (text r) = Ok (VDict d) ->
               dict_get "data" d = None ->
               run = Some (Raise (KeyError "data"), final))
    /\
    (forall body, Json.loads (text r) = Ok body ->
                  (forall d, body <> VDict d) ->
                  run = Some (Raise TypeError, final)).
Proof.
  intros self endpoint waits r rest tr fuel Hw Hr Hf url run final.
  assert (E : run
              = (bind (response_json r)
                      (fun body => lift (getitem body "data")))
                  (mkWorld rest
                     (tr ++ backoff self url waits ++ [api_request self url])%list)).
  { unfold run, API._call. fold url.
    replace fuel with (List.length waits + S (fuel - S (List.length waits)))
      by lia.
    rewrite call_loop_backoff by assumption.
    cbn [API._call_loop]. unfold bind at 1, extractor_request.
    cbn [inbox trace]. apply Z.ltb_lt in Hr. rewrite Hr.
    unfold api_request. now rewrite <- app_assoc. }
  rewrite E. unfold final. clear E.
  repeat split.
  - intros e L. step_M. rewrite L. now rewrite <- !app_assoc.
  - intros d L D. step_M. rewrite L. simpl. rewrite D.
    now rewrite <- !app_assoc.
  - intros body L N. step_M. rewrite L. simpl.
    rewrite <- !app_assoc.
    destruct body; try reflexivity. now destruct (N d).
Qed.

(** X3. Each endpoint of the client calls its own resource under /v1/ of
    the API host, and every request of the call carries the bearer token
    of the client in its Authorization header, with redirects switched
    off and [fatal=None]. *)
Theorem endpoints_send_bearer_token :
  forall (token id : string) (fuel : nat) (w w' : world) (r : result value),
    let client := API.__init__ token in
    let sent (resource : string) :=
      exists (tr' : list event) (n : nat),
        trace w' = (trace w ++ tr')%list /\ 1 <= n /\
        requests_of tr'
        = repeat (bearer_request token
                    ("https://api.imgchest.com/v1/" ++ resource ++ "/" ++ id))
                 n in
    (API.file fuel client id w = Some (r, w') -> sent "file") /\
    (API.post fuel client id w = Some (r, w') -> sent "post") /\
    (API.user fuel client id w = Some (r, w') -> sent "user").
Proof.
  intros token id fuel w w' r client sent.
  repeat split; intros H;
    destruct (call_loop_run _ _ _ _ _ _ H)
      as (taken & tr' & _ & Ht & Hn & Hr & _);
    exists tr', (List.length taken); repeat split; assumption.
Qed.

(** ** More on page-scrape mode *)

Lemma keys_dict_set (k k' : string) (v : value) (d : dict) :
  In k (keys (dict_set k' v d)) -> k = k' \/ In k (keys d).
Proof.
  unfold keys. induction d as [|[k0 v0] d IH]; simpl.
  - intros [<-|[]]. now left.
  - destruct (String.eqb k' k0) eqn:E; simpl.
    + intros [<-|H]; [now left | right; now right].
    + intros [<-|H]; [right; now left|].
      destruct (IH H) as [->|H']; [now left | right; now right].
Qed.

(** What the loop over the attributes leaves under each key. *)
Lemma copy_attributes_lookup (page_data : value) (attrs : list string) :
  forall md md' : dict,
    copy_attributes page_data md attrs = Ok md' ->
    (forall k, In k attrs ->
               dict_get k md'
               = match post_field page_data k with
                 | Ok v => Some v
                 | Raise _ => dict_get k md
                 end)
    /\ (forall k, ~ In k attrs -> dict_get k md' = dict_get k md)
    /\ (forall k, In k (keys md') -> In k (keys md) \/ In k attrs).
Proof.
  induction attrs as [|a attrs IH]; intros md md' H; simpl in H.
  - injection H as <-. repeat split; auto. intros k [].
  - unfold copy_attribute in H.
    destruct (post_field page_data a) as [v|e] eqn:P; simpl in H.
    + destruct (IH _ _ H) as (Hin & Hout & Hk). repeat split.
      * intros k [<-|Hk'].
        -- rewrite P. destruct (in_dec string_dec a attrs) as [I|N].
           ++ now rewrite (Hin a I), P.
           ++ rewrite (Hout a N). apply dict_get_set_same.
        -- rewrite (Hin k Hk').
           destruct (post_field page_data k) eqn:Pk; [reflexivity|].
           destruct (string_dec k a) as [->|N].
           ++ rewrite P in Pk. discriminate Pk.
           ++ now apply dict_get_set_other.
      * intros k N. rewrite Hout by (simpl in N; tauto).
        apply dict_get_set_other. simpl in N. intros ->. tauto.
      * intros k K. destruct (Hk k K) as [K'|K']; [|right; now right].
        destruct (keys_dict_set _ _ _ _ K') as [->|K''];
          [right; now left | now left].
    + destruct (IH _ _ H) as (Hin & Hout & Hk). repeat split.
      * intros k [<-|Hk'].
        -- rewrite P. destruct (in_dec string_dec a attrs) as [I|N].
           ++ now rewrite (Hin a I), P.
           ++ apply (Hout a N).
        -- apply (Hin k Hk').
      * intros k N. apply Hout. simpl in N. tauto.
      * intros k K. destruct (Hk k K) as [K'|K']; [now left|right; now right].
Qed.

Lemma copy_tags_cases (page_data : value) (md : dict) :
  (exists joined,
     (tags <~ post_field page_data "tags" ;; str_join "," tags) = Ok joined
     /\ copy_tags page_data md = Ok (dict_set "tags" joined md))
  \/
  (exists e,
     (tags <~ post_field page_data "tags" ;; str_join "," tags) = Raise e
     /\ copy_tags page_data md = Ok md).
Proof.
  unfold copy_tags.
  destruct (post_field page_data "tags") as [t|e]; simpl.
  - destruct (str_join "," t) as [j|e]; simpl; [left|right]; eauto.
  - right. eauto.
Qed.

(** The three ways [metadata] can end. *)
Lemma metadata_cases (replace_charref : string -> string)
    (self : ImagechestGalleryExtractor) (page : string) (w : world) :
  (occurs_in "Not Found" page /\
   metadata replace_charref self page w
   = Some (Raise (NotFoundError "gallery"), w))
  \/
  (~ occurs_in "Not Found" page /\
   exists e,
     Json.loads (embedded_text replace_charref page) = Raise e /\
     metadata replace_charref self page w
     = Some (Raise e, decoded (embedded_text replace_charref page) w))
  \/
  (~ occurs_in "Not Found" page /\
   exists page_data md1 md,
     Json.loads (embedded_text replace_charref page) = Ok page_data /\
     copy_attributes page_data [("gallery_id", VStr (gallery_id self))]
       attributes = Ok md1 /\
     copy_tags page_data md1 = Ok md /\
     metadata replace_charref self page w
     = Some (Ok (VDict md), decoded (embedded_text replace_charref page) w)).
Proof.
  destruct (contains "Not Found" page) eqn:C.
  - left. split; [now apply contains_iff|].
    unfold metadata. now rewrite C.
  - assert (NF : ~ occurs_in "Not Found" page).
    { intros O. apply contains_iff in O. rewrite O in C. discriminate C. }
    right.
    destruct (Json.loads (embedded_text replace_charref page))
      as [page_data|e] eqn:L.
    + right. split; [exact NF|].
      rewrite (metadata_decoded replace_charref self page w page_data NF L).
      destruct (copy_attributes_spec replace_charref page_data attributes
                  [("gallery_id", VStr (gallery_id self))]) as (md1 & E1 & _).
      rewrite E1. simpl.
      destruct (copy_tags_cases page_data md1)
        as [(j & _ & E2)|(e & _ & E2)]; rewrite E2; simpl;
        do 3 eexists; repeat split; eauto.
    + left. split; [exact NF|]. exists e. split; [reflexivity|].
      now apply decode_error_propagates.
Qed.

Lemma attribute_is_no_other_key (a : string) :
  In a attributes -> a <> "gallery_id" /\ a <> "tags".
Proof.
  unfold attributes. simpl.
  intros H; split; intros ->;
    repeat (destruct H as [H|H]; [discriminate H|]); exact H.
Qed.

(** [metadata] on a page whose attribute decodes to [page_data] with an
    embedded post: what the loop over the attributes has built when the
    tags are reached. *)
Lemma metadata_on_post (replace_charref : string -> string)
    (self : ImagechestGalleryExtractor) (page : string) (w : world)
    (page_data props : value) (post : dict) :
  ~ occurs_in "Not Found" page ->
  Json.loads (embedded_text replace_charref page) = Ok page_data ->
  getitem page_data "props" = Ok props ->
  getitem props "post" = Ok (VDict post) ->
  exists md1,
    metadata replace_charref self page w
    = Some (md <~ copy_tags page_data md1 ;; Ok (VDict md),
            decoded (embedded_text replace_charref page) w)
    /\ (forall a, In a attributes -> dict_get a md1 = dict_get a post)
    /\ dict_get "tags" md1 = None
    /\ dict_get "gallery_id" md1 = Some (VStr (gallery_id self))
    /\ post_field page_data "tags" = getitem (VDict post) "tags".
Proof.
  intros NF L P Q.
  rewrite (metadata_decoded replace_charref self page w page_data NF L).
  destruct (copy_attributes_spec replace_charref page_data attributes
              [("gallery_id", VStr (gallery_id self))]) as (md1 & E1 & _).
  destruct (copy_attributes_lookup page_data attributes _ _ E1)
    as (Hin & Hout & _).
  exists md1. rewrite E1. simpl. split; [reflexivity|].
  assert (F : forall k, post_field page_data k = getitem (VDict post) k).
  { intros k. unfold post_field. rewrite P. simpl. now rewrite Q. }
  repeat split.
  - intros a Ha. rewrite (Hin a Ha), F. simpl.
    destruct (dict_get a post); [reflexivity|].
    destruct (attribute_is_no_other_key a Ha) as [N _].
    apply String.eqb_neq in N. now rewrite N.
  - now rewrite (Hout "tags" tags_not_an_attribute).
  - rewrite Hout; [reflexivity|]. intros H.
    now destruct (attribute_is_no_other_key _ H).
  - apply F.
Qed.

(** X4. Each of the twelve allow-listed fields is taken from the
    embedded post on its own: the metadata holds it with the value of the
    post when the post has it, and has no such key when the post has not;
    a missing field does not keep the others from being copied. *)
Theorem metadata_copies_each_listed_field :
  forall (replace_charref : string -> string)
         (self : ImagechestGalleryExtractor) (page : string) (w : world)
         (page_data props : value) (post : dict),
    ~ occurs_in "Not Found" page ->
    Json.loads (embedded_text replace_charref page) = Ok page_data ->
    getitem page_data "props" = Ok props ->
    getitem props "post" = Ok (VDict post) ->
    exists md,
      metadata replace_charref self page w
      = Some (Ok (VDict md),
              decoded (embedded_text replace_charref page) w)
      /\ forall a, In a attributes -> dict_get a md = dict_get a post.
Proof.
  intros rc self page w page_data props post NF L P Q.
  destruct (metadata_on_post rc self page w page_data props post NF L P Q)
    as (md1 & -> & Ha & _).
  destruct (copy_tags_cases page_data md1)
    as [(j & _ & ->)|(e & _ & ->)]; simpl.
  - eexists. split; [reflexivity|]. intros a I.
    rewrite dict_get_set_other; [now apply Ha|].
    now destruct (attribute_is_no_other_key a I).
  - exists md1. split; [reflexivity | exact Ha].
Qed.

(** X5. The mapping that [metadata] returns holds the gallery id of the
    instance under gallery_id, whatever the embedded post holds under
    that name, and has no key besides gallery_id, tags and the twelve
    allow-listed fields: no other field of the page gets through. *)
Theorem metadata_keys_are_allow_listed :
  forall (replace_charref : string -> string)
         (self : ImagechestGalleryExtractor) (page : string) (w w' : world)
         (m : value),
    metadata replace_charref self page w = Some (Ok m, w') ->
    exists md,
      m = VDict md
      /\ dict_get "gallery_id" md = Some (VStr (gallery_id self))
      /\ forall k, In k (keys md) ->
                   k = "gallery_id" \/ k = "tags" \/ In k attributes.
Proof.
  intros rc self page w w' m H.
  destruct (metadata_cases rc self page w)
    as [(_ & E)|[(_ & e & _ & E)|(_ & pd & md1 & md & _ & E1 & E2 & E)]];
    rewrite E in H; try discriminate H.
  injection H as <- <-. exists md. split; [reflexivity|].
  destruct (copy_attributes_lookup pd attributes _ _ E1) as (_ & Hout & Hk).
  assert (G : dict_get "gallery_id" md1 = Some (VStr (gallery_id self))).
  { rewrite Hout; [reflexivity|]. intros I.
    now destruct (attribute_is_no_other_key _ I). }
  assert (K1 : forall k, In k (keys md1) ->
                         k = "gallery_id" \/ In k attributes).
  { intros k I. destruct (Hk k I) as [[<-|[]]|I']; [now left | now right]. }
  destruct (copy_tags_cases pd md1) as [(j & _ & T)|(e & _ & T)];
    rewrite T in E2; injection E2 as <-.
  - split; [now rewrite dict_get_set_other by discriminate|].
    intros k I. destruct (keys_dict_set _ _ _ _ I) as [->|I'];
      [right; now left|].
    destruct (K1 k I'); [now left | right; now right].
  - split; [exact G|]. intros k I.
    destruct (K1 k I); [now left | right; now right].
Qed.

(** X6. [metadata] ends in one of three ways and never takes a reply of
    the transport: NotFoundError with nothing decoded, the error of the
    decoder after one decode, or a mapping after one decode.  No lookup
    in the decoded structure makes it fail. *)
Theorem metadata_outcomes :
  forall (replace_charref : string -> string)
         (self : ImagechestGalleryExtractor) (page : string) (w : world),
    exists (r : result value) (w' : world),
      metadata replace_charref self page w = Some (r, w')
      /\ inbox w' = inbox w
      /\ ((r = Raise (NotFoundError "gallery") /\ w' = w)
          \/ (trace w'
              = (trace w ++ [EvJson (embedded_text replace_charref page)])%list
              /\ ((exists e,
                     Json.loads (embedded_text replace_charref page) = Raise e
                     /\ r = Raise e)
                  \/ (exists md, r = Ok (VDict md))))).
Proof.
  intros rc self page w.
  destruct (metadata_cases rc self page w)
    as [(_ & E)|[(_ & e & L & E)|(_ & pd & md1 & md & _ & _ & _ & E)]];
    rewrite E; do 2 eexists; (split; [reflexivity|]);
    (split; [reflexivity|]).
  - left. now split.
  - right. split; [reflexivity|]. left. eauto.
  - right. split; [reflexivity|]. right. eauto.
Qed.

Lemma as_str_all (l : list string) : Res.mapM as_str (map VStr l) = Ok l.
Proof.
  induction l as [|s l IH]; simpl; [reflexivity | now rewrite IH].
Qed.

Lemma mapM_raises {A B} (f : A -> result B) (l : list A) (x : A) (e : exn) :
  In x l -> f x = Raise e -> exists e', Res.mapM f l = Raise e'.
Proof.
  induction l as [|y l IH]; intros I F; [destruct I|].
  simpl. destruct (f y) as [b|e0] eqn:Fy; simpl; [|eauto].
  destruct I as [->|I]; [rewrite F in Fy; discriminate Fy|].
  destruct (IH I F) as [e' ->]. simpl. eauto.
Qed.

(** X7. When the tags of the embedded post are a list of strings, the
    metadata holds them under tags joined by commas, in their order; an
    empty list gives the empty string. *)
Theorem tags_joined_in_order :
  forall (replace_charref : string -> string)
         (self : ImagechestGalleryExtractor) (page : string) (w : world)
         (page_data props : value) (post : dict) (tags : list string),
    ~ occurs_in "Not Found" page ->
    Json.loads (embedded_text replace_charref page) = Ok page_data ->
    getitem page_data "props" = Ok props ->
    getitem props "post" = Ok (VDict post) ->
    dict_get "tags" post = Some (VList (map VStr tags)) ->
    exists md,
      metadata replace_charref self page w
      = Some (Ok (VDict md),
              decoded (embedded_text replace_charref page) w)
      /\ dict_get "tags" md = Some (VStr (join "," tags)).
Proof.
  intros rc self page w page_data props post tags NF L P Q T.
  destruct (metadata_on_post rc self page w page_data props post NF L P Q)
    as (md1 & -> & _ & _ & _ & F).
  unfold copy_tags. rewrite F. simpl. rewrite T. simpl.
  unfold str_join. simpl. rewrite as_str_all. simpl.
  eexists. split; [reflexivity | apply dict_get_set_same].
Qed.

(** X8. When the tags of the embedded post cannot be joined (null, a
    truth value, a number, or a list with an element that is no string),
    the metadata has no key tags, and the allow-listed fields are there
    as without the tags. *)
Theorem tags_dropped_when_not_joinable :
  forall (replace_charref : string -> string)
         (self : ImagechestGalleryExtractor) (page : string) (w : world)
         (page_data props : value) (post : dict) (tags : value),
    ~ occurs_in "Not Found" page ->
    Json.loads (embedded_text replace_charref page) = Ok page_data ->
    getitem page_data "props" = Ok props ->
    getitem props "post" = Ok (VDict post) ->
    dict_get "tags" post = Some tags ->
    (tags = VNone
     \/ (exists b, tags = VBool b)
     \/ (exists z, tags = VInt z)
     \/ (exists f, tags = VFloat f)
     \/ (exists l x, tags = VList l /\ In x l /\ forall s, x <> VStr s)) ->
    exists md,
      metadata replace_charref self page w
      = Some (Ok (VDict md),
              decoded (embedded_text replace_charref page) w)
      /\ dict_get "tags" md = None
      /\ forall a, In a attributes -> dict_get a md = dict_get a post.
Proof.
  intros rc self page w page_data props post tags NF L P Q T U.
  destruct (metadata_on_post rc self page w page_data props post NF L P Q)
    as (md1 & -> & Ha & Ht & _ & F).
  assert (J : exists e, str_join "," tags = Raise e).
  { destruct U as [->|[[b ->]|[[z ->]|[[f ->]|(l & x & -> & I & N)]]]];
      try (eexists; reflexivity).
    unfold str_join. simpl.
    assert (X : as_str x = Raise TypeError)
      by (destruct x; try reflexivity; now destruct (N s)).
    destruct (mapM_raises as_str l x _ I X) as [e ->]. simpl. eauto. }
  destruct J as [e J].
  unfold copy_tags. rewrite F. simpl. rewrite T. simpl. rewrite J. simpl.
  exists md1. repeat split; assumption.
Qed.

Lemma images_decoded (replace_charref : string -> string)
    (self : ImagechestGalleryExtractor) (page : string) (w : world)
    (page_data : value) :
  Json.loads (embedded_text replace_charref page) = Ok page_data ->
  images replace_charref self page w
  = Some (Res.catch
            (files <~ post_field page_data "files" ;;
             files <~ iterate files ;;
             Res.mapM (fun file =>
                         link <~ getitem file "link" ;; Ok (link, VNone))
                      files)
            is_Exception (Ok []),
          decoded (embedded_text replace_charref page) w).
Proof.
  intros L. unfold images, bind.
  now rewrite retrieve_page_data_eq, L.
Qed.

Lemma pair_links_none (files links : list value) :
  Forall2 (fun file l => getitem file "link" = Ok l) files links ->
  Res.mapM (fun file => link <~ getitem file "link" ;; Ok (link, VNone)) files
  = Ok (map (fun l => (l, VNone)) links).
Proof.
  induction 1 as [|f l files links Hl _ IH]; simpl.
  - reflexivity.
  - now rewrite Hl, IH.
Qed.

(** X9. When the embedded post holds a list of files that each have a
    link, [images] gives these links in the order of the files, each
    paired with None. *)
Theorem images_pairs_each_link_with_none :
  forall (replace_charref : string -> string)
         (self : ImagechestGalleryExtractor) (page : string) (w : world)
         (page_data : value) (files links : list value),
    Json.loads (embedded_text replace_charref page) = Ok page_data ->
    post_field page_data "files" = Ok (VList files) ->
    Forall2 (fun file l => getitem file "link" = Ok l) files links ->
    images replace_charref self page w
    = Some (Ok (map (fun l => (l, VNone)) links),
            decoded (embedded_text replace_charref page) w).
Proof.
  intros rc self page w page_data files links L F H.
  rewrite (images_decoded rc self page w page_data L), F. simpl.
  now rewrite (pair_links_none files links H).
Qed.

(** X10. One file without a link empties the whole result: when any
    element of the list of files has no link, [images] gives the empty
    list, whatever links the other files have. *)
Theorem images_empty_when_one_file_has_no_link :
  forall (replace_charref : string -> string)
         (self : ImagechestGalleryExtractor) (page : string) (w : world)
         (page_data : value) (files : list value) (file : value) (e : exn),
    Json.loads (embedded_text replace_charref page) = Ok page_data ->
    post_field page_data "files" = Ok (VList files) ->
    In file files ->
    getitem file "link" = Raise e ->
    images replace_charref self page w
    = Some (Ok [], decoded (embedded_text replace_charref page) w).
Proof.
  intros rc self page w page_data files file e L F I G.
  rewrite (images_decoded rc self page w page_data L), F. simpl.
  destruct (mapM_raises
              (fun file => link <~ getitem file "link" ;; Ok (link, VNone))
              files file e I) as [e' ->]; [now rewrite G | reflexivity].
Qed.

(** X11. [images] does not look for the words Not Found: on every page
    it hands the attribute to the decoder once, takes no reply of the
    transport, and ends with the error of the decoder or with a list,
    never with NotFoundError. *)
Theorem images_outcomes :
  forall (replace_charref : string -> string)
         (self : ImagechestGalleryExtractor) (page : string) (w : world),
    exists r : result (list (value * value)),
      images replace_charref self page w
      = Some (r, decoded (embedded_text replace_charref page) w)
      /\ ((exists e,
             Json.loads (embedded_text replace_charref page) = Raise e
             /\ r = Raise e)
          \/ (exists l, r = Ok l)).
Proof.
  intros rc self page w.
  destruct (Json.loads (embedded_text rc page)) as [page_data|e] eqn:L.
  - rewrite (images_decoded rc self page w page_data L).
    eexists. split; [reflexivity|]. right.
    destruct (files <~ post_field page_data "files" ;;
              files <~ iterate files ;;
              Res.mapM (fun file =>
                          link <~ getitem file "link" ;; Ok (link, VNone))
                       files); simpl; eauto.
  - unfold images, bind. rewrite retrieve_page_data_eq, L.
    eexists. split; [reflexivity|]. left. eauto.
Qed.

Lemma take_app (v s : string) : take (String.length v) (v ++ s) = v.
Proof. induction v as [|a v IH]; simpl; [reflexivity | now rewrite IH]. Qed.

Lemma find_quote (v post : string) :
  ~ occurs_in dq v -> find dq (v ++ dq ++ post) = Some (String.length v).
Proof.
  induction v as [|a v IH]; intros N.
  - reflexivity.
  - change (String a v ++ dq ++ post) with (String a (v ++ dq ++ post)).
    cbn [find]. change (prefixb dq (String a (v ++ dq ++ post)))
      with (Ascii.eqb dquote a && true).
    destruct (Ascii.eqb dquote a) eqn:E.
    + apply Ascii.eqb_eq in E. subst a. destruct N. now exists "", v.
    + cbn [andb]. rewrite IH; [reflexivity|].
      intros (pre & post' & ->). apply N.
      now exists (String a pre), post'.
Qed.

(** X12. The decoder is given the value of the first data-page attribute
    of the page, cut at its closing double quote and unescaped; when the
    value holds no ampersand it is given as it stands. *)
Theorem retrieve_page_data_reads_first_attribute :
  forall (replace_charref : string -> string)
         (page pre v post : string) (w : world),
    page = pre ++ data_page_marker ++ v ++ dq ++ post ->
    first_occurrence data_page_marker page pre ->
    ~ occurs_in dq v ->
    _retrieve_page_data replace_charref page w
    = Some (Json.loads (Html.unescape replace_charref v),
            decoded (Html.unescape replace_charref v) w)
    /\ (~ occurs_in "&" v -> Html.unescape replace_charref v = v).
Proof.
  intros rc page pre v post w E F N.
  assert (T : embedded_text rc page = Html.unescape rc v).
  { unfold embedded_text, extr. rewrite (find_first _ _ _ F).
    rewrite E, drop_past, (find_quote v post N), take_app. reflexivity. }
  split.
  - now rewrite retrieve_page_data_eq, T.
  - intros A. unfold Html.unescape. now rewrite (contains_false _ _ A).
Qed.

(** X13. A data-page attribute that is never closed counts as absent:
    when no double quote follows the first marker, [metadata] gives the
    mapping with the gallery id alone and [images] gives the empty
    list. *)
Theorem unterminated_attribute_counts_as_absent :
  forall (replace_charref : string -> string)
         (self : ImagechestGalleryExtractor)
         (page pre rest : string) (w : world),
    ~ occurs_in "Not Found" page ->
    page = pre ++ data_page_marker ++ rest ->
    first_occurrence data_page_marker page pre ->
    ~ occurs_in dq rest ->
    metadata replace_charref self page w
    = Some (Ok (VDict [("gallery_id", VStr (gallery_id self))]),
            decoded "{}" w)
    /\ images replace_charref self page w = Some (Ok [], decoded "{}" w).
Proof.
  intros rc self page pre rest w NF E F N.
  assert (T : embedded_text rc page = "{}").
  { unfold embedded_text, extr. rewrite (find_first _ _ _ F).
    rewrite E, drop_past, (find_absent _ _ N). reflexivity. }
  rewrite <- T.
  apply degrades_without_props with (page_data := VDict []).
  - exact NF.
  - now rewrite T.
  - now exists (KeyError "props").
Qed.

(** ** More on API mode *)

Lemma stamp_images_dated (parse_datetime : value -> string -> value)
    (imgs : list value) :
  Forall has_created imgs ->
  Res.mapM (stamp_image parse_datetime) imgs
  = Ok (map (dated parse_datetime) imgs).
Proof.
  induction 1 as [|img imgs (d & c & -> & Hc) _ IH]; simpl.
  - reflexivity.
  - unfold stamp_image at 1. simpl. rewrite Hc. simpl. now rewrite IH.
Qed.

Lemma stamp_images_stop (parse_datetime : value -> string -> value)
    (good rest : list value) (bad : value) (e : exn) :
  Forall has_created good ->
  stamp_image parse_datetime bad = Raise e ->
  Res.mapM (stamp_image parse_datetime) (good ++ bad :: rest)%list = Raise e.
Proof.
  intros G B. induction G as [|img good (d & c & -> & Hc) _ IH]; simpl.
  - now rewrite B.
  - unfold stamp_image at 1. simpl. rewrite Hc. simpl. now rewrite IH.
Qed.

Lemma dated_keeps_link (parse_datetime : value -> string -> value)
    (img : value) :
  getitem (dated parse_datetime img) "link" = getitem img "link".
Proof.
  destruct img; try reflexivity. simpl.
  destruct (dict_get "created" d); [|reflexivity]. simpl.
  now rewrite dict_get_set_other by discriminate.
Qed.

(** X14. In API mode a post that lacks what the code reads is an error,
    not a gap: without created the call of [metadata] raises KeyError for
    created, with created but without images it raises KeyError for
    images, and an image without created raises KeyError for created. *)
Theorem api_metadata_raises_on_missing_field :
  forall (parse_datetime : value -> string -> value) (fuel : nat)
         (self : ImagechestGalleryExtractor) (page : string)
         (w w' : world) (client : ImagechestAPI) (d : dict),
    api self = Some client ->
    API.post fuel client (gallery_id self) w = Some (Ok (VDict d), w') ->
    let run := _metadata_api parse_datetime fuel self page w in
    (dict_get "created" d = None ->
     run = Some (Raise (KeyError "created"), w'))
    /\
    (forall created,
       dict_get "created" d = Some created ->
       dict_get "images" d = None ->
       run = Some (Raise (KeyError "images"), w'))
    /\
    (forall created good di rest,
       dict_get "created" d = Some created ->
       dict_get "images" d = Some (VList (good ++ VDict di :: rest)%list) ->
       Forall has_created good ->
       dict_get "created" di = None ->
       run = Some (Raise (KeyError "created"), w')).
Proof.
  intros pd fuel self page w w' client d Ha Hp run.
  assert (E : run
              = (fun post =>
                   created <- lift (getitem post "created") ;;
                   post <- lift (setitem post "date"
                                   (pd created datetime_format)) ;;
                   imgs <- lift (getitem post "images") ;;
                   imgs <- lift (update_each (stamp_image pd) imgs) ;;
                   post <- lift (setitem post "images" imgs) ;;
                   post <- lift (setitem post "gallery_id"
                                   (VStr (gallery_id self))) ;;
                   post <- lift (pop_default post "image_count") ;;
                   popped <- lift (pop post "images") ;;
                   ret (snd popped,
                        mkGallery (gallery_id self) (gallery_url self)
                          (api self) (metadata_impl self) (images_impl self)
                          (Some (fst popped))))
                  (VDict d) w').
  { unfold run, _metadata_api. destruct (api self); [|discriminate Ha].
    injection Ha as ->. unfold bind at 1. now rewrite Hp. }
  rewrite E. clear E. cbv beta.
  repeat split.
  - intros Hc. rewrite bind_lift. simpl. now rewrite Hc.
  - intros created Hc Hi. rewrite bind_lift. simpl. rewrite Hc.
    rewrite bind_lift. simpl. rewrite bind_lift. simpl.
    now rewrite dict_get_set_other, Hi by discriminate.
  - intros created good di rest Hc Hi Hg Hd.
    rewrite bind_lift. simpl. rewrite Hc.
    rewrite bind_lift. simpl. rewrite bind_lift. simpl.
    rewrite dict_get_set_other, Hi by discriminate.
    assert (Hu : update_each (stamp_image pd)
                   (VList (good ++ VDict di :: rest)%list)
                 = Raise (KeyError "created")).
    { simpl.
      rewrite (stamp_images_stop pd good rest (VDict di) (KeyError "created"));
        [reflexivity | exact Hg |].
      unfold stamp_image. simpl. now rewrite Hd. }
    now rewrite bind_lift, Hu.
Qed.

(** X15. The post that [metadata] returns in API mode holds under date
    the converted creation time of the post, and every field of the post
    but date, gallery_id, image_count and images is there as the API gave
    it. *)
Theorem api_metadata_keeps_other_fields :
  forall (parse_datetime : value -> string -> value) (fuel : nat)
         (self self' : ImagechestGalleryExtractor) (page : string)
         (w w' : world) (post : value),
    _metadata_api parse_datetime fuel self page w
    = Some (Ok (post, self'), w') ->
    exists (client : ImagechestAPI) (d : dict) (created : value),
      api self = Some client /\
      API.post fuel client (gallery_id self) w = Some (Ok (VDict d), w') /\
      dict_get "created" d = Some created /\
      getitem post "date" = Ok (parse_datetime created datetime_format) /\
      forall k, k <> "date" -> k <> "gallery_id" ->
                k <> "image_count" -> k <> "images" ->
                getitem post k = getitem (VDict d) k.
Proof.
  intros pd fuel self self' page w w' post H.
  destruct (metadata_api_inv pd fuel self page w w' post self' H)
    as (client & d & created & imgs & stash & Ha & Hp & Hc & _ & _ & -> & _).
  exists client, d, created. repeat split; try assumption.
  - unfold finished_post. simpl.
    rewrite !dict_get_del_other, !dict_get_set_other, dict_get_set_same
      by discriminate.
    reflexivity.
  - intros k N1 N2 N3 N4. unfold finished_post. simpl.
    now rewrite !dict_get_del_other, !dict_get_set_other by assumption.
Qed.

(** X16. From the reply of the API to the result of [images]: when the
    post holds its creation time and a list of images that each hold a
    creation time and a link, [metadata] returns, and [images] on the
    instance then gives the links of the post in their order, each paired
    with its image as the API gave it plus its date. *)
Theorem api_metadata_then_images :
  forall (parse_datetime : value -> string -> value) (fuel : nat)
         (self : ImagechestGalleryExtractor) (page : string)
         (w w' : world) (client : ImagechestAPI) (d : dict)
         (created : value) (imgs links : list value),
    api self = Some client ->
    API.post fuel client (gallery_id self) w = Some (Ok (VDict d), w') ->
    dict_get "created" d = Some created ->
    dict_get "images" d = Some (VList imgs) ->
    Forall has_created imgs ->
    Forall2 (fun img l => getitem img "link" = Ok l) imgs links ->
    exists (post : value) (self' : ImagechestGalleryExtractor),
      _metadata_api parse_datetime fuel self page w
      = Some (Ok (post, self'), w')
      /\ forall (page' : string) (w2 : world),
           _images_api self' page' w2
           = Some (Ok (combine links (map (dated parse_datetime) imgs)), w2).
Proof.
  intros pd fuel self page w w' client d created imgs links
         Ha Hp Hc Hi Hall Hl.
  do 2 eexists. split.
  - apply (metadata_api_returns pd fuel self page w w' client d created
             (VList imgs) (VList (map (dated pd) imgs)) Ha Hp Hc Hi).
    simpl. now rewrite (stamp_images_dated pd imgs Hall).
  - intros page' w2. unfold _images_api, with_image_list. simpl.
    rewrite bind_lift. simpl. unfold lift.
    rewrite (pair_links (map (dated pd) imgs) links); [reflexivity|].
    clear - Hl. induction Hl as [|img l imgs links H _ IH]; simpl.
    + constructor.
    + constructor; [now rewrite dated_keeps_link | exact IH].
Qed.

(** X17. A call of [metadata] leaves the mode of the instance as it was:
    the gallery id, the URL of the gallery, the API client and the
    functions bound to metadata and images are the same afterwards; in
    page-scrape mode the instance is not changed at all and no reply of
    the transport is taken. *)
Theorem call_metadata_keeps_the_mode :
  forall (replace_charref : string -> string)
         (parse_datetime : value -> string -> value) (fuel : nat)
         (self self' : ImagechestGalleryExtractor) (page : string)
         (w w' : world) (m : value),
    call_metadata replace_charref parse_datetime fuel self page w
    = Some (Ok (m, self'), w') ->
    gallery_id self' = gallery_id self
    /\ gallery_url self' = gallery_url self
    /\ api self' = api self
    /\ metadata_impl self' = metadata_impl self
    /\ images_impl self' = images_impl self
    /\ (metadata_impl self = OfClass -> self' = self /\ inbox w' = inbox w).
Proof.
  intros rc pd fuel self self' page w w' m H.
  unfold call_metadata in H.
  destruct (metadata_impl self) eqn:I.
  - unfold bind in H.
    destruct (metadata_cases rc self page w)
      as [(_ & E)|[(_ & e & _ & E)|(_ & p & md1 & md & _ & _ & _ & E)]];
      rewrite E in H; try discriminate H.
    unfold ret in H. injection H as <- <- <-.
    repeat split; assumption || reflexivity.
  - destruct (metadata_api_inv pd fuel self page w w' m self' H)
      as (client & d & created & imgs & stash & _ & _ & _ & _ & _ & _ & ->).
    repeat split; try reflexivity; try assumption; discriminate.
Qed.

Lemma keeps_world_lift {A} (r : result A) : keeps_world (lift r).
Proof. intros w w' x [= _ <-]. reflexivity. Qed.

Lemma keeps_world_ret {A} (a : A) : keeps_world (ret a).
Proof. intros w w' x [= _ <-]. reflexivity. Qed.

Lemma keeps_world_bind {A B} (m : M A) (k : A -> M B) :
  keeps_world m -> (forall a, keeps_world (k a)) -> keeps_world (bind m k).
Proof.
  intros Hm Hk w w' r H. unfold bind in H.
  destruct (m w) as [[[a|e] w1]|] eqn:E; [| |discriminate H].
  - apply Hm in E. subst w1. now apply (Hk a) in H.
  - injection H as _ <-. now apply Hm in E.
Qed.

(** In API mode the only thing [metadata] does to the world is the
    lookup of the post. *)
Lemma metadata_api_world (parse_datetime : value -> string -> value)
    (fuel : nat) (self : ImagechestGalleryExtractor) (page : string)
    (w w' : world) (client : ImagechestAPI)
    (r : result (value * ImagechestGalleryExtractor)) :
  api self = Some client ->
  _metadata_api parse_datetime fuel self page w = Some (r, w') ->
  exists r0, API.post fuel client (gallery_id self) w = Some (r0, w').
Proof.
  intros Ha H. unfold _metadata_api in H. rewrite Ha in H.
  unfold bind at 1 in H.
  destruct (API.post fuel client (gallery_id self) w)
    as [[[data|e] w1]|] eqn:Hp; [| |discriminate H].
  - enough (w' = w1) as -> by eauto.
    revert H. generalize w1 w' r.
    repeat (apply keeps_world_bind;
            [apply keeps_world_lift | intros ?]).
    apply keeps_world_ret.
  - injection H as _ <-. eauto.
Qed.

(** X18. The mode decides where the data comes from.  An instance made
    without a token, or with an empty one, answers [metadata] from the
    page alone: no request is issued and no reply is taken.  An instance
    made with a token answers it from the API: every request goes to the
    post endpoint of the gallery id with the bearer token. *)
Theorem mode_decides_the_source :
  forall (replace_charref : string -> string)
         (parse_datetime : value -> string -> value)
         (gid page : string) (fuel : nat) (w w' : world)
         (r : result (value * ImagechestGalleryExtractor)),
    (forall token : option string,
       token = None \/ token = Some "" ->
       call_metadata replace_charref parse_datetime fuel
         (_init token (__init__ gid)) page w = Some (r, w') ->
       inbox w' = inbox w
       /\ exists tr', trace w' = (trace w ++ tr')%list
                      /\ requests_of tr' = [])
    /\
    (forall (c : ascii) (t : string),
       call_metadata replace_charref parse_datetime fuel
         (_init (Some (String c t)) (__init__ gid)) page w = Some (r, w') ->
       exists (tr' : list event) (n : nat),
         trace w' = (trace w ++ tr')%list /\ 1 <= n /\
         requests_of tr'
         = repeat (bearer_request (String c t)
                     ("https://api.imgchest.com/v1/post/" ++ gid))
                  n).
Proof.
  intros rc pd gid page fuel w w' r. split.
  - intros token T H.
    assert (E : _init token (__init__ gid) = __init__ gid)
      by (destruct T as [->| ->]; reflexivity).
    rewrite E in H. unfold call_metadata in H. simpl in H.
    unfold bind in H.
    destruct (metadata_cases rc (__init__ gid) page w)
      as [(_ & M)|[(_ & e & _ & M)|(_ & p & md1 & md & _ & _ & _ & M)]];
      rewrite M in H; unfold ret in H; injection H as _ <-.
    + split; [reflexivity|]. exists []. now rewrite app_nil_r.
    + split; [reflexivity|]. eexists. split; reflexivity.
    + split; [reflexivity|]. eexists. split; reflexivity.
  - intros c t H.
    change (call_metadata rc pd fuel
              (_init (Some (String c t)) (__init__ gid)) page w)
      with (_metadata_api pd fuel
              (_init (Some (String c t)) (__init__ gid)) page w) in H.
    destruct (metadata_api_world pd fuel
                (_init (Some (String c t)) (__init__ gid)) page w w'
                (API.__init__ (String c t)) r eq_refl H) as [r0 P].
    destruct (call_loop_run _ _ _ _ _ _ P)
      as (taken & tr' & _ & Ht & Hn & Hr & _).
    exists tr', (List.length taken). repeat split; assumption.
Qed.

(** ** More on the listing of a user's galleries *)

Lemma yields_of_yielded (galleries : list value) :
  yields_of (yielded galleries) = map queued galleries.
Proof.
  induction galleries as [|g gs IH]; simpl; [reflexivity | now rewrite IH].
Qed.

Lemma requests_of_yielded (galleries : list value) :
  requests_of (yielded galleries) = [].
Proof. induction galleries as [|g gs IH]; simpl; [reflexivity | exact IH]. Qed.

Lemma queue_galleries_yielded (galleries : list value) :
  Forall has_link galleries ->
  forall w : world,
    for_each galleries User.queue_gallery w
    = Some (Ok tt, mkWorld (inbox w) (trace w ++ yielded galleries)%list).
Proof.
  induction 1 as [|g galleries (d & l & -> & Hl) _ IH]; intros w.
  - simpl. unfold ret. rewrite app_nil_r. now destruct w.
  - cbn [for_each]. unfold bind.
    rewrite (queue_gallery_yields d l w Hl), IH. cbn [inbox trace].
    unfold yielded. simpl. rewrite Hl. now rewrite <- app_assoc.
Qed.

(** The rounds of [items] on successful replies: the loop goes on with
    the next page on what is left of the script. *)
Lemma items_loop_rounds (unquote : string -> string)
    (self : ImagechestUserExtractor)
    (goods : list response) (galleries : list (list value)) :
  Forall2 listing_of goods galleries ->
  forall (p : Z) (fuel : nat) (rest : list (result response))
         (tr : list event),
    User.items_loop (List.length goods + fuel) listing_url
      (params_at unquote self p)
      (mkWorld (map Ok goods ++ rest)%list tr)
    = User.items_loop fuel listing_url
        (params_at unquote self (p + Z.of_nat (List.length goods)))
        (mkWorld rest
           (tr ++ page_rounds unquote self p goods galleries)%list).
Proof.
  induction 1 as [|r gs goods galleries (body & Hb & Hd & Hgs) _ IH];
    intros p fuel rest tr.
  - simpl. now rewrite app_nil_r, Z.add_0_r.
  - change (List.length (r :: goods) + fuel)
      with (S (List.length goods + fuel)).
    cbn [User.items_loop map app]. unfold bind at 1, try_except.
    step_M. rewrite Hb. simpl. rewrite Hd. simpl.
    rewrite (queue_galleries_yielded gs Hgs). cbn [inbox trace].
    match goal with
    | |- context [User.items_loop _ listing_url ?ps] =>
        change ps with (params_at unquote self (p + 1))
    end.
    rewrite IH. f_equal.
    + f_equal. lia.
    + unfold listing_request. rewrite <- !app_assoc. reflexivity.
Qed.

Lemma requests_of_page_rounds (unquote : string -> string)
    (self : ImagechestUserExtractor)
    (goods : list response) (galleries : list (list value)) :
  Forall2 listing_of goods galleries ->
  forall p : Z,
    requests_of (page_rounds unquote self p goods galleries)
    = map (fun k => listing_request unquote self (p + Z.of_nat k))
          (seq 0 (List.length goods)).
Proof.
  induction 1 as [|r gs goods galleries _ _ IH]; intros p.
  - reflexivity.
  - cbn [page_rounds]. rewrite !requests_of_app, requests_of_yielded, IH.
    cbn [List.length seq map requests_of app]. rewrite Z.add_0_r. f_equal.
    rewrite <- seq_shift, map_map. apply map_ext. intros k. f_equal. lia.
Qed.

Lemma yields_of_page_rounds (unquote : string -> string)
    (self : ImagechestUserExtractor)
    (goods : list response) (galleries : list (list value)) :
  Forall2 listing_of goods galleries ->
  forall p : Z,
    yields_of (page_rounds unquote self p goods galleries)
    = map queued (concat galleries).
Proof.
  induction 1 as [|r gs goods galleries _ _ IH]; intros p.
  - reflexivity.
  - cbn [page_rounds]. rewrite !yields_of_app, yields_of_yielded, IH.
    cbn [yields_of app concat]. now rewrite map_app.
Qed.

(** X19. Over a run of [items] that ends silently, the galleries of the
    successful replies are yielded in the order of the replies and, in a
    reply, in the order of its list: each as a queue message with the
    link of the gallery and the gallery itself, to which the extractor
    that resolves it has been added. *)
Theorem items_yields_each_gallery_in_order :
  forall (unquote : string -> string) (self : ImagechestUserExtractor)
         (goods : list response) (galleries : list (list value))
         (last : response) (rest : list (result response))
         (tr : list event) (fuel : nat),
    Forall2 listing_of goods galleries ->
    lacks_data last ->
    List.length goods < fuel ->
    exists tr',
      User.items unquote fuel self
        (mkWorld (map Ok goods ++ Ok last :: rest)%list tr)
      = Some (Ok tt, mkWorld rest (tr ++ tr')%list)
      /\ yields_of tr' = map queued (concat galleries).
Proof.
  intros unquote self goods galleries last rest tr fuel Hg Hl Hf.
  unfold User.items.
  change (User.root ++ "/api/posts") with listing_url.
  change (User.initial_params unquote self) with (params_at unquote self 1).
  replace fuel with (List.length goods + S (fuel - S (List.length goods)))
    by lia.
  rewrite (items_loop_rounds unquote self goods galleries Hg).
  generalize (1 + Z.of_nat (List.length goods))%Z
             (fuel - S (List.length goods)).
  intros p f.
  destruct Hl as (body & e & Hb & He).
  cbn [User.items_loop]. unfold bind at 1, try_except.
  step_M. rewrite Hb. simpl. rewrite He.
  rewrite (getitem_raises _ _ _ He).
  exists (page_rounds unquote self 1 goods galleries
            ++ [EvRequest (mkRequest listing_url [("params", VDict (params_at unquote self p))]); EvJson (text last)])%list.
  rewrite <- !app_assoc. split; [reflexivity|].
  rewrite yields_of_app, (yields_of_page_rounds unquote self goods galleries Hg).
  simpl. now rewrite app_nil_r.
Qed.

Lemma queue_galleries_stop (good rest : list value) (bad : value) (e : exn) :
  Forall has_link good ->
  (forall w, User.queue_gallery bad w = Some (Raise e, w)) ->
  forall w : world,
    for_each (good ++ bad :: rest)%list User.queue_gallery w
    = Some (Raise e, mkWorld (inbox w) (trace w ++ yielded good)%list).
Proof.
  intros G B. induction G as [|g good (d & l & -> & Hl) _ IH]; intros w.
  - cbn [app for_each]. unfold bind. rewrite B. simpl.
    rewrite app_nil_r. now destruct w.
  - cbn [app for_each]. unfold bind.
    rewrite (queue_gallery_yields d l w Hl), IH. cbn [inbox trace].
    unfold yielded. simpl. rewrite Hl. now rewrite <- app_assoc.
Qed.

(** One more round of [items], on a reply whose body decodes and holds
    data. *)
Lemma items_loop_data (fuel : nat) (url : string) (params : dict)
    (r : response) (rest : list (result response)) (tr : list event)
    (body data : value) :
  Json.loads (text r) = Ok body ->
  getitem body "data" = Ok data ->
  User.items_loop (S fuel) url params (mkWorld (Ok r :: rest) tr)
  = (galleries <- lift (iterate data) ;;
     for_each galleries User.queue_gallery ;;;
     params' <- lift (User.incr_page params) ;;
     User.items_loop fuel url params')
      (mkWorld rest
         (tr ++ [EvRequest (mkRequest url [("params", VDict params)]);
                 EvJson (text r)])%list).
Proof.
  intros Hb Hd. cbn [User.items_loop]. unfold bind at 1, try_except.
  unfold bind at 1, extractor_request. cbn [inbox trace].
  unfold bind at 1, response_json, json_loads. unfold bind at 1, emit.
  cbn [inbox trace]. unfold lift at 1. rewrite Hb.
  unfold bind at 1, lift at 1. rewrite Hd. unfold ret at 1.
  now rewrite <- app_assoc.
Qed.

(** X20. A gallery that cannot be queued ends [items] with an error, not
    silently: a gallery without a link raises KeyError for link, a
    gallery that is no mapping raises TypeError.  The galleries before it
    have been yielded, the ones after it are not, and no further request
    is issued. *)
Theorem items_raises_on_gallery_without_link :
  forall (unquote : string -> string) (self : ImagechestUserExtractor)
         (goods : list response) (galleries : list (list value))
         (bad : response) (body : value) (before after : list value)
         (gallery : value)
         (rest : list (result response)) (tr : list event) (fuel : nat),
    Forall2 listing_of goods galleries ->
    Json.loads (text bad) = Ok body ->
    getitem body "data" = Ok (VList (before ++ gallery :: after)%list) ->
    Forall has_link before ->
    List.length goods < fuel ->
    let run :=
      User.items unquote fuel self
        (mkWorld (map Ok goods ++ Ok bad :: rest)%list tr) in
    let ends_with (e : exn) :=
      exists tr',
        run = Some (Raise e, mkWorld rest (tr ++ tr')%list)
        /\ yields_of tr' = map queued (concat galleries ++ before)%list in
    (forall d, gallery = VDict d -> dict_get "link" d = None ->
               ends_with (KeyError "link"))
    /\ ((forall d, gallery <> VDict d) -> ends_with TypeError).
Proof.
  intros unquote self goods galleries bad body before after gallery
         rest tr fuel Hg Hb Hd Hbefore Hf run ends_with.
  assert (E : forall e,
             (forall w, User.queue_gallery gallery w = Some (Raise e, w)) ->
             ends_with e).
  { intros e Q. unfold ends_with, run, User.items.
    change (User.root ++ "/api/posts") with listing_url.
    change (User.initial_params unquote self) with (params_at unquote self 1).
    replace fuel with (List.length goods + S (fuel - S (List.length goods)))
      by lia.
    rewrite (items_loop_rounds unquote self goods galleries Hg).
  generalize (1 + Z.of_nat (List.length goods))%Z
             (fuel - S (List.length goods)).
  intros p f.
    rewrite (items_loop_data _ _ _ _ _ _ body _ Hb Hd).
    rewrite bind_lift. cbn [iterate]. unfold bind at 1.
    rewrite (queue_galleries_stop before after gallery e Hbefore Q).
    cbn [inbox trace].
    exists (page_rounds unquote self 1 goods galleries
              ++ [EvRequest (mkRequest listing_url [("params", VDict (params_at unquote self p))]); EvJson (text bad)] ++ yielded before)%list.
    rewrite <- !app_assoc. split; [reflexivity|].
    rewrite !yields_of_app,
      (yields_of_page_rounds unquote self goods galleries Hg),
      yields_of_yielded.
    simpl. now rewrite map_app. }
  split.
  - intros d -> Hl. apply E. intros w. unfold User.queue_gallery.
    rewrite bind_lift. simpl. rewrite bind_lift. simpl.
    now rewrite dict_get_set_other, Hl by discriminate.
  - intros N. apply E. intros w. unfold User.queue_gallery.
    rewrite bind_lift.
    destruct gallery; try reflexivity. now destruct (N d).
Qed.

(** X21. A reply whose data is there but cannot be iterated (null, a
    truth value, a number) does not end [items] silently: the loop over
    the data raises TypeError outside the guarded fetch. *)
Theorem items_raises_when_data_is_not_iterable :
  forall (unquote : string -> string) (self : ImagechestUserExtractor)
         (goods : list response) (galleries : list (list value))
         (bad : response) (body data : value)
         (rest : list (result response)) (tr : list event) (fuel : nat),
    Forall2 listing_of goods galleries ->
    Json.loads (text bad) = Ok body ->
    getitem body "data" = Ok data ->
    (data = VNone \/ (exists b, data = VBool b)
     \/ (exists z, data = VInt z) \/ (exists f, data = VFloat f)) ->
    List.length goods < fuel ->
    exists tr',
      User.items unquote fuel self
        (mkWorld (map Ok goods ++ Ok bad :: rest)%list tr)
      = Some (Raise TypeError, mkWorld rest (tr ++ tr')%list)
      /\ yields_of tr' = map queued (concat galleries).
Proof.
  intros unquote self goods galleries bad body data rest tr fuel
         Hg Hb Hd Hdata Hf.
  unfold User.items.
  change (User.root ++ "/api/posts") with listing_url.
  change (User.initial_params unquote self) with (params_at unquote self 1).
  replace fuel with (List.length goods + S (fuel - S (List.length goods)))
    by lia.
  rewrite (items_loop_rounds unquote self goods galleries Hg).
  generalize (1 + Z.of_nat (List.length goods))%Z
             (fuel - S (List.length goods)).
  intros p f.
  rewrite (items_loop_data _ _ _ _ _ _ body _ Hb Hd).
  rewrite bind_lift.
  assert (I : iterate data = Raise TypeError)
    by (destruct Hdata as [->|[[b ->]|[[z ->]|[x ->]]]]; reflexivity).
  rewrite I.
  exists (page_rounds unquote self 1 goods galleries
            ++ [EvRequest (mkRequest listing_url [("params", VDict (params_at unquote self p))]); EvJson (text bad)])%list.
  rewrite <- !app_assoc. split; [reflexivity|].
  rewrite yields_of_app, (yields_of_page_rounds unquote self goods galleries Hg).
  simpl. now rewrite app_nil_r.
Qed.

(** X22. An exception of the transport ends [items] as its handler
    says: TypeError and KeyError end it silently, every other exception
    (an HTTP error, for one) is raised to the consumer.  The galleries of
    the replies before it have been yielded. *)
Theorem items_on_transport_exception :
  forall (unquote : string -> string) (self : ImagechestUserExtractor)
         (goods : list response) (galleries : list (list value))
         (e : exn) (rest : list (result response))
         (tr : list event) (fuel : nat),
    Forall2 listing_of goods galleries ->
    List.length goods < fuel ->
    exists tr',
      User.items unquote fuel self
        (mkWorld (map Ok goods ++ Raise e :: rest)%list tr)
      = Some (match e with
              | TypeError | KeyError _ => Ok tt
              | _ => Raise e
              end,
              mkWorld rest (tr ++ tr')%list)
      /\ yields_of tr' = map queued (concat galleries).
Proof.
  intros unquote self goods galleries e rest tr fuel Hg Hf.
  unfold User.items.
  change (User.root ++ "/api/posts") with listing_url.
  change (User.initial_params unquote self) with (params_at unquote self 1).
  replace fuel with (List.length goods + S (fuel - S (List.length goods)))
    by lia.
  rewrite (items_loop_rounds unquote self goods galleries Hg).
  generalize (1 + Z.of_nat (List.length goods))%Z
             (fuel - S (List.length goods)).
  intros p f.
  cbn [User.items_loop]. unfold bind at 1, try_except.
  unfold bind at 1, extractor_request. cbn [inbox trace].
  exists (page_rounds unquote self 1 goods galleries ++ [EvRequest (mkRequest listing_url [("params", VDict (params_at unquote self p))])])%list.
  rewrite <- !app_assoc.
  rewrite yields_of_app, (yields_of_page_rounds unquote self goods galleries Hg).
  split; [|simpl; now rewrite app_nil_r].
  destruct e; reflexivity.
Qed.

(** ** The URL patterns *)

Lemma times_reach (n : nat) (p : ascii -> bool) :
  forall s s', Pattern.times n p s = Some s' ->
               exists t, s = t ++ s' /\ String.length t = n /\ all_of p t.
Proof.
  induction n as [|n IH]; intros s s' H; simpl in H.
  - injection H as <-. now exists "".
  - destruct s as [|a s]; [discriminate H|].
    destruct (p a) eqn:Pa; [|discriminate H].
    destruct (IH _ _ H) as (t & -> & Hl & Ht).
    exists (String a t). repeat split.
    + simpl. now rewrite Hl.
    + unfold all_of in *. simpl. now rewrite Pa, Ht.
Qed.

Lemma many1_reach {A} (p : ascii -> bool) (k : string -> option A) :
  forall s a, Pattern.many1 p s k = Some a ->
              exists t s', s = t ++ s' /\ t <> "" /\ all_of p t
                           /\ k s' = Some a.
Proof.
  induction s as [|c s IH]; intros a H; simpl in H; [discriminate H|].
  destruct (p c) eqn:Pc; [|discriminate H].
  destruct (Pattern.many1 p s k) as [x|] eqn:M.
  - injection H as ->. destruct (IH a eq_refl) as (t & s' & -> & _ & Ht & Hk).
    exists (String c t), s'. repeat split; try assumption; try discriminate.
    unfold all_of in *. simpl. now rewrite Pc, Ht.
  - exists (String c ""), s. repeat split; try assumption; try discriminate.
    unfold all_of. simpl. now rewrite Pc.
Qed.

(** Whatever the matcher answers, it answers through its continuation,
    at a place that the expression can reach. *)
Lemma run_reach {A} (r : Pattern.regex) :
  forall (g : option string) (s : string)
         (k : option string -> string -> option A) (a : A),
    Pattern.run r g s k = Some a ->
    exists g' s', reach r g s g' s' /\ k g' s' = Some a.
Proof.
  induction r as [l|r IH|r1 IH1 r2 IH2|n p|p|r IH]; intros g s k a H;
    simpl in H.
  - destruct (prefixb l s) eqn:P; [|discriminate H].
    do 2 eexists. split; [now constructor | exact H].
  - destruct (Pattern.run r g s k) as [x|] eqn:R.
    + injection H as ->. destruct (IH _ _ _ _ R) as (g' & s' & Hr & Hk).
      exists g', s'. split; [now apply reach_opt_take | exact Hk].
    + exists g, s. split; [apply reach_opt_skip | exact H].
  - destruct (IH1 _ _ _ _ H) as (g1 & s1 & H1 & K1).
    destruct (IH2 _ _ _ _ K1) as (g2 & s2 & H2 & K2).
    exists g2, s2. split; [now apply reach_seq with g1 s1 | exact K2].
  - destruct (Pattern.times n p s) as [s'|] eqn:T; [|discriminate H].
    destruct (times_reach _ _ _ _ T) as (t & -> & Hl & Ht).
    exists g, s'. split; [now constructor | exact H].
  - destruct (many1_reach _ _ _ _ H) as (t & s' & -> & Hn & Ht & Hk).
    exists g, s'. split; [now constructor | exact Hk].
  - destruct (IH _ _ _ _ H) as (g' & s' & Hr & Hk).
    do 2 eexists. split; [apply (reach_group r g s g' s' Hr) | exact Hk].
Qed.

Lemma take_length_app (t s : string) :
  take (String.length (t ++ s) - String.length s) (t ++ s) = t.
Proof.
  rewrite length_app, Nat.add_sub. apply take_app.
Qed.

(** X23. Whenever the pattern of the gallery extractor matches a URL,
    the gallery id that the constructor reads from it is made of exactly
    eleven letters and digits. *)
Theorem gallery_pattern_captures_an_id :
  forall (url : string) (g : option string),
    Pattern.match_group1 Pattern.gallery url = Some g ->
    exists gid, g = Some gid /\ is_gallery_id gid = true.
Proof.
  intros url g H. unfold Pattern.match_group1 in H.
  destruct (run_reach _ _ _ _ _ H) as (g' & s' & R & [= ->]).
  unfold Pattern.gallery in R.
  inversion R as [| | |? ? ? ? ? ? ? ? _ R2| | |]; subst.
  inversion R2 as [| | |? ? ? ? ? ? ? ? _ R3| | |]; subst.
  inversion R3 as [| | | | | |? ? ? ? ? R4]; subst.
  inversion R4 as [| | | |? ? ? t ? Hl Ht| |]; subst.
  exists t. rewrite take_length_app. split; [reflexivity|].
  unfold is_gallery_id. rewrite Hl. exact Ht.
Qed.

(** X24. Whenever the pattern of the user extractor matches a URL, the
    user name that the constructor reads from it is not empty and holds
    no slash, no question mark and no hash. *)
Theorem user_pattern_captures_a_name :
  forall (url : string) (g : option string),
    Pattern.match_group1 Pattern.user url = Some g ->
    exists name, g = Some name /\ name <> ""
                 /\ all_of Pattern.not_separator name.
Proof.
  intros url g H. unfold Pattern.match_group1 in H.
  destruct (run_reach _ _ _ _ _ H) as (g' & s' & R & [= ->]).
  unfold Pattern.user in R.
  inversion R as [| | |? ? ? ? ? ? ? ? _ R2| | |]; subst.
  inversion R2 as [| | |? ? ? ? ? ? ? ? _ R3| | |]; subst.
  inversion R3 as [| | | | | |? ? ? ? ? R4]; subst.
  inversion R4 as [| | | | |? ? t ? Hn Ht|]; subst.
  exists t. rewrite take_length_app. now repeat split.
Qed.

Lemma times_app (p : ascii -> bool) (t s : string) :
  all_of p t -> Pattern.times (String.length t) p (t ++ s) = Some s.
Proof.
  unfold all_of. induction t as [|a t IH]; simpl; [reflexivity|].
  intros H. apply andb_true_iff in H as [Ha Ht]. rewrite Ha. now apply IH.
Qed.

Lemma gallery_id_shape (gid : string) :
  is_gallery_id gid = true ->
  String.length gid = 11 /\ all_of Gallery.is_alnum gid.
Proof.
  unfold is_gallery_id. intros H. apply andb_true_iff in H as [Hl Ha].
  apply Nat.eqb_eq in Hl. now split.
Qed.

(** The part of the gallery pattern after the host, on a gallery id. *)
Lemma gallery_path_matches (gid tail : string) (g : option string) :
  is_gallery_id gid = true ->
  Pattern.run (Pattern.Seq (Pattern.Lit "/p/")
                 (Pattern.Group (Pattern.Times 11 Gallery.is_alnum)))
    g ("/p/" ++ gid ++ tail) (fun g' _ => Some g')
  = Some (Some gid).
Proof.
  intros H. destruct (gallery_id_shape gid H) as [Hl Ha].
  cbn [Pattern.run]. rewrite prefixb_app.
  change (String.length "/p/") with 3.
  change (drop 3 ("/p/" ++ gid ++ tail)) with (gid ++ tail).
  rewrite <- Hl, (times_app _ gid tail Ha).
  now rewrite take_length_app.
Qed.

(** The base pattern on a host with or without scheme and www. *)
Lemma base_matches {A} (scheme www rest : string) (g : option string)
    (k : option string -> string -> option A) (x : A) :
  In scheme [""; "http://"; "https://"] ->
  In www [""; "www."] ->
  k g rest = Some x ->
  Pattern.run Pattern.BASE_PATTERN g
    (scheme ++ www ++ "imgchest.com" ++ rest) k = Some x.
Proof.
  intros Hs Hw Hk. unfold Pattern.BASE_PATTERN.
  destruct Hs as [<-|[<-|[<-|[]]]]; destruct Hw as [<-|[<-|[]]];
    cbn; rewrite Hk; reflexivity.
Qed.

(** X25. The pattern of the gallery extractor accepts the host with or
    without http:// or https:// and with or without www., followed by
    /p/ and a gallery id, whatever comes after the id, and reads the id
    back; so the URL that the constructor builds for a gallery id
    matches the pattern and gives that id again. *)
Theorem gallery_pattern_reads_the_id_back :
  forall (scheme www gid tail : string),
    In scheme [""; "http://"; "https://"] ->
    In www [""; "www."] ->
    is_gallery_id gid = true ->
    Pattern.match_group1 Pattern.gallery
      (scheme ++ www ++ "imgchest.com" ++ "/p/" ++ gid ++ tail)
    = Some (Some gid)
    /\ gallery_url (__init__ gid) = Some ("https://imgchest.com/p/" ++ gid)
    /\ Pattern.match_group1 Pattern.gallery ("https://imgchest.com/p/" ++ gid)
       = Some (Some gid).
Proof.
  intros scheme www gid tail Hs Hw Hg.
  assert (Q : forall scheme' www' tail',
             In scheme' [""; "http://"; "https://"] ->
             In www' [""; "www."] ->
             Pattern.match_group1 Pattern.gallery
               (scheme' ++ www' ++ "imgchest.com" ++ "/p/" ++ gid ++ tail')
             = Some (Some gid)).
  { intros scheme' www' tail' Hs' Hw'.
    unfold Pattern.match_group1, Pattern.gallery.
    cbn [Pattern.run].
    refine (base_matches scheme' www' ("/p/" ++ gid ++ tail') None _ _
              Hs' Hw' _).
    exact (gallery_path_matches gid tail' None Hg). }
  split; [now apply Q|]. split; [reflexivity|].
  specialize (Q "https://" "" "").
  change ("https://" ++ "" ++ "imgchest.com" ++ "/p/" ++ gid ++ "")
    with ("https://imgchest.com/p/" ++ gid ++ "") in Q.
  assert (E : gid ++ "" = gid)
    by (clear; induction gid as [|a g IH]; simpl; [reflexivity | now rewrite IH]).
  rewrite E in Q. apply Q; simpl; tauto.
Qed.

Lemma reach_lit_inv (l : string) (g g' : option string) (s s' : string) :
  reach (Pattern.Lit l) g s g' s' -> g' = g /\ s = l ++ s'.
Proof.
  intros R. inversion R as [? ? ? P| | | | | |]; subst.
  split; [reflexivity|].
  destruct (prefixb_true _ _ P) as [r ->]. now rewrite drop_app.
Qed.

Lemma reach_opt_lit_inv (l : string) (g g' : option string) (s s' : string) :
  reach (Pattern.Opt (Pattern.Lit l)) g s g' s' ->
  g' = g /\ (s = s' \/ s = l ++ s').
Proof.
  intros R. inversion R as [|? ? ?|? ? ? ? ? R'| | | |]; subst.
  - split; [reflexivity | now left].
  - destruct (reach_lit_inv _ _ _ _ _ R') as [-> ->].
    split; [reflexivity | now right].
Qed.

(** What the base pattern can have matched. *)
Lemma base_shape (g g' : option string) (url s : string) :
  reach Pattern.BASE_PATTERN g url g' s ->
  g' = g /\
  exists scheme www,
    In scheme [""; "http://"; "https://"] /\ In www [""; "www."] /\
    url = scheme ++ www ++ "imgchest.com" ++ s.
Proof.
  unfold Pattern.BASE_PATTERN. intros R.
  inversion R as [| | |? ? ? ? g1 s1 ? ? R1 R2| | |]; subst.
  inversion R2 as [| | |? ? ? ? g2 s2 ? ? R3 R4| | |]; subst.
  destruct (reach_lit_inv _ _ _ _ _ R4) as [-> ->].
  destruct (reach_opt_lit_inv _ _ _ _ _ R3) as [-> W].
  assert (exists www, In www [""; "www."]
                      /\ s1 = www ++ "imgchest.com" ++ s) as (www & Hw & ->).
  { destruct W as [->| ->]; [exists "" | exists "www."]; simpl; tauto. }
  inversion R1 as [|? ? ?|? ? ? ? ? R5| | | |]; subst.
  - split; [reflexivity|]. exists "", www. simpl. tauto.
  - inversion R5 as [| | |? ? ? ? g3 s3 ? ? R6 R7| | |]; subst.
    inversion R7 as [| | |? ? ? ? g4 s4 ? ? R8 R9| | |]; subst.
    destruct (reach_lit_inv _ _ _ _ _ R6) as [-> ->].
    destruct (reach_lit_inv _ _ _ _ _ R9) as [-> ->].
    destruct (reach_opt_lit_inv _ _ _ _ _ R8) as [-> [->| ->]];
      (split; [reflexivity|]);
      [exists "http://", www | exists "https://", www]; simpl; tauto.
Qed.

(** X26. No URL is taken by both extractors: a URL that the pattern of
    the gallery extractor matches is not matched by the pattern of the
    user extractor. *)
Theorem patterns_do_not_overlap :
  forall (url : string) (g : option string),
    Pattern.match_group1 Pattern.gallery url = Some g ->
    Pattern.match_group1 Pattern.user url = None.
Proof.
  intros url g1 H1.
  destruct (Pattern.match_group1 Pattern.user url) as [g2|] eqn:H2;
    [exfalso | reflexivity].
  unfold Pattern.match_group1 in *.
  destruct (run_reach _ _ _ _ _ H1) as (g1' & s1 & R1 & _).
  destruct (run_reach _ _ _ _ _ H2) as (g2' & s2 & R2 & _).
  unfold Pattern.gallery in R1. unfold Pattern.user in R2.
  inversion R1 as [| | |? ? ? ? ? ? ? ? B1 P1| | |]; subst.
  inversion P1 as [| | |? ? ? ? ? ? ? ? L1 _| | |]; subst.
  inversion R2 as [| | |? ? ? ? ? ? ? ? B2 P2| | |]; subst.
  inversion P2 as [| | |? ? ? ? ? ? ? ? L2 _| | |]; subst.
  destruct (base_shape _ _ _ _ B1) as (_ & sc1 & w1 & Hs1 & Hw1 & E1).
  destruct (base_shape _ _ _ _ B2) as (_ & sc2 & w2 & Hs2 & Hw2 & E2).
  destruct (reach_lit_inv _ _ _ _ _ L1) as [_ ->].
  destruct (reach_lit_inv _ _ _ _ _ L2) as [_ ->].
  rewrite E1 in E2. clear - Hs1 Hw1 Hs2 Hw2 E2.
  destruct Hs1 as [<-|[<-|[<-|[]]]]; destruct Hw1 as [<-|[<-|[]]];
    destruct Hs2 as [<-|[<-|[<-|[]]]]; destruct Hw2 as [<-|[<-|[]]];
    simpl in E2; discriminate E2.
Qed.

Lemma many1_app {A} (p : ascii -> bool) (t tail : string)
    (k : string -> option A) (x : A) :
  t <> "" -> all_of p t ->
  (tail = "" \/ exists c r, tail = String c r /\ p c = false) ->
  k tail = Some x ->
  Pattern.many1 p (t ++ tail) k = Some x.
Proof.
  unfold all_of. intros Hn Ht Hend Hk.
  induction t as [|a t IH]; [now destruct Hn|].
  simpl in Ht. apply andb_true_iff in Ht as [Ha Ht].
  change (String a t ++ tail) with (String a (t ++ tail)).
  cbn [Pattern.many1]. rewrite Ha.
  destruct t as [|b t].
  - change ("" ++ tail) with tail.
    destruct Hend as [->|(c & r & -> & Pc)]; simpl.
    + exact Hk.
    + now rewrite Pc.
  - rewrite IH; [reflexivity | discriminate | exact Ht].
Qed.

(** X27. The pattern of the user extractor reads a user name back: on
    the host, with or without scheme and www., followed by /u/ and a
    name without separators, it gives the whole name when the URL ends
    there or goes on with a slash, a question mark or a hash. *)
Theorem user_pattern_reads_the_name_back :
  forall (scheme www name tail : string),
    In scheme [""; "http://"; "https://"] ->
    In www [""; "www."] ->
    name <> "" ->
    all_of Pattern.not_separator name ->
    (tail = ""
     \/ exists c r, tail = String c r /\ Pattern.not_separator c = false) ->
    Pattern.match_group1 Pattern.user
      (scheme ++ www ++ "imgchest.com" ++ "/u/" ++ name ++ tail)
    = Some (Some name).
Proof.
  intros scheme www name tail Hs Hw Hn Ha Hend.
  unfold Pattern.match_group1, Pattern.user. cbn [Pattern.run].
  refine (base_matches scheme www ("/u/" ++ name ++ tail) None _ _ Hs Hw _).
  cbv beta. rewrite prefixb_app.
  change (String.length "/u/") with 3.
  change (drop 3 ("/u/" ++ name ++ tail)) with (name ++ tail).
  apply many1_app; try assumption.
  now rewrite take_length_app.
Qed.

(* ================================================================== *)
(** * The properties on the sample data *)

(** *** The API client *)

Lemma call_waits_and_retries_on_429_witness :
  API._call 3 Sample.client Sample.endpoint
    (Sample.start [Sample.slow_down; Sample.slow_down; Sample.post_reply])
  = Some (Ok Sample.post_data,
          mkWorld []
            (backoff Sample.client (API.root ++ Sample.endpoint)
               [Sample.slow_down; Sample.slow_down]
             ++ [api_request Sample.client (API.root ++ Sample.endpoint);
                 EvJson (text Sample.post_reply)])%list).
Proof.
  apply (call_waits_and_retries_on_429 Sample.client Sample.endpoint
           [Sample.slow_down; Sample.slow_down] Sample.post_reply [] [] 3
           Sample.post_body Sample.post_data).
  - repeat constructor.
  - reflexivity.
  - vm_compute. reflexivity.
  - vm_compute. reflexivity.
  - simpl. lia.
Defined.

Lemma call_fails_without_retry_witness :
  API._call 2 Sample.client Sample.endpoint
    (mkWorld [Ok Sample.slow_down; Ok Sample.redirect; Ok Sample.post_reply] [])
  = Some (Raise (AuthenticationError "Invalid API access token"),
          mkWorld [Ok Sample.post_reply]
            [api_request Sample.client (API.root ++ Sample.endpoint);
             EvWait 600;
             api_request Sample.client (API.root ++ Sample.endpoint)])
  /\
  API._call 1 Sample.client Sample.endpoint
    (mkWorld [Ok Sample.missing; Ok Sample.post_reply] [])
  = Some (Raise (StopExtraction "API request failed"),
          mkWorld [Ok Sample.post_reply]
            [api_request Sample.client (API.root ++ Sample.endpoint);
             EvLogDebug (text Sample.missing)]).
Proof.
  split.
  - apply (call_fails_without_retry Sample.client Sample.endpoint
             [Sample.slow_down] Sample.redirect [Ok Sample.post_reply] [] 2).
    + repeat constructor.
    + simpl. lia.
    + simpl. lia.
  - apply (call_fails_without_retry Sample.client Sample.endpoint
             [] Sample.missing [Ok Sample.post_reply] [] 1).
    + constructor.
    + simpl. lia.
    + simpl. lia.
    + simpl. lia.
Defined.

(** *** Page-scrape mode *)

Lemma metadata_not_found_before_decoding_witness :
  metadata Html.basic_charref Sample.scraper Sample.not_found_page
    (Sample.start [])
  = Some (Raise (NotFoundError "gallery"), Sample.start []).
Proof.
  apply metadata_not_found_before_decoding.
  exists "<title>".
  exists ("</title><div data-page=" ++ dq ++ "{}" ++ dq ++ "></div>").
  reflexivity.
Defined.

(** C3, the claim as stated fails: on a page without the words Not Found
    whose data-page value is not valid JSON, [metadata] and [images] both
    raise the error of the decoder. *)
Lemma malformed_json_is_propagated :
  contains "Not Found" Sample.broken_page = false
  /\ extr Sample.broken_page data_page_marker dq "{}" = "{oops"
  /\ Json.loads "{oops" = Raise JSONDecodeError
  /\ metadata Html.basic_charref Sample.scraper Sample.broken_page
       (Sample.start [])
     = Some (Raise JSONDecodeError, mkWorld [] [EvJson "{oops"])
  /\ images Html.basic_charref Sample.scraper Sample.broken_page
       (Sample.start [])
     = Some (Raise JSONDecodeError, mkWorld [] [EvJson "{oops"]).
Proof. repeat split; vm_compute; reflexivity. Qed.

Lemma absent_json_degrades_malformed_json_raises_witness :
  (metadata Html.basic_charref Sample.scraper Sample.plain_page
     (Sample.start [])
   = Some (Ok (VDict [("gallery_id", VStr Sample.gid)]),
           mkWorld [] [EvJson "{}"])
   /\ images Html.basic_charref Sample.scraper Sample.plain_page
        (Sample.start [])
      = Some (Ok [], mkWorld [] [EvJson "{}"]))
  /\
  (metadata Html.basic_charref Sample.scraper Sample.broken_page
     (Sample.start [])
   = Some (Raise JSONDecodeError, mkWorld [] [EvJson "{oops"])
   /\ images Html.basic_charref Sample.scraper Sample.broken_page
        (Sample.start [])
      = Some (Raise JSONDecodeError, mkWorld [] [EvJson "{oops"])).
Proof.
  split.
  - apply (absent_json_degrades_malformed_json_raises Html.basic_charref
             Sample.scraper Sample.plain_page (Sample.start [])).
    + apply not_occurs. vm_compute. reflexivity.
    + apply not_occurs. vm_compute. reflexivity.
  - apply (absent_json_degrades_malformed_json_raises Html.basic_charref
             Sample.scraper Sample.broken_page (Sample.start [])).
    + apply not_occurs. vm_compute. reflexivity.
    + vm_compute. reflexivity.
Defined.

(** C6, the claim as stated fails: a page may hold the attribute with the
    value {} after another data-page attribute; the first one is read. *)
Lemma later_empty_data_page_is_ignored :
  is_gallery_id Sample.gid = true
  /\ contains "Not Found" Sample.two_attributes_page = false
  /\ contains (data_page_marker ++ "{}" ++ dq) Sample.two_attributes_page
     = true
  /\ call_metadata Html.basic_charref keep_text 0 Sample.scraper
       Sample.two_attributes_page (Sample.start [])
     = Some (Ok (VDict [("gallery_id", VStr Sample.gid); ("id", VInt 7)],
                 Sample.scraper),
             mkWorld []
               [EvJson (json_text "{'props':{'post':{'id':7}}}")]).
Proof. repeat split; vm_compute; reflexivity. Qed.

Lemma empty_first_data_page_witness :
  call_metadata Html.basic_charref keep_text 0 Sample.scraper
    Sample.empty_page (Sample.start [])
  = Some (Ok (VDict [("gallery_id", VStr Sample.gid)], Sample.scraper),
          mkWorld [] [EvJson "{}"])
  /\ call_images Html.basic_charref Sample.scraper Sample.empty_page
       (Sample.start [])
     = Some (Ok [], mkWorld [] [EvJson "{}"]).
Proof.
  apply (empty_first_data_page Html.basic_charref keep_text Sample.gid
           Sample.empty_page "<div id=app " "></div>" 0 (Sample.start [])).
  - vm_compute. reflexivity.
  - apply not_occurs. vm_compute. reflexivity.
  - reflexivity.
  - apply (find_is_first data_page_marker Sample.empty_page "<div id=app "
             ("{}" ++ dq ++ "></div>")).
    + reflexivity.
    + vm_compute. reflexivity.
Defined.

Lemma tags_joined_or_absent_witness :
  (exists md,
     metadata Html.basic_charref Sample.scraper Sample.tagged_page
       (Sample.start [])
     = Some (Ok (VDict md),
             decoded (embedded_text Html.basic_charref Sample.tagged_page)
               (Sample.start []))
     /\ dict_get "tags" md = Some (VStr "a,b,c"))
  /\
  (exists md,
     metadata Html.basic_charref Sample.scraper Sample.untagged_page
       (Sample.start [])
     = Some (Ok (VDict md),
             decoded (embedded_text Html.basic_charref Sample.untagged_page)
               (Sample.start []))
     /\ dict_get "tags" md = None).
Proof.
  split.
  - refine (proj1 (tags_joined_or_absent Html.basic_charref Sample.scraper
                     Sample.tagged_page (Sample.start []) _ _ _ _ _ _ _) _).
    + apply not_occurs. vm_compute. reflexivity.
    + vm_compute. reflexivity.
    + vm_compute. reflexivity.
    + vm_compute. reflexivity.
    + vm_compute. reflexivity.
  - refine (proj2 (tags_joined_or_absent Html.basic_charref Sample.scraper
                     Sample.untagged_page (Sample.start []) _ _ _ _ _ _ _) _).
    + apply not_occurs. vm_compute. reflexivity.
    + vm_compute. reflexivity.
    + vm_compute. reflexivity.
    + vm_compute. reflexivity.
    + vm_compute. reflexivity.
Defined.

(** *** API mode *)

Lemma api_images_returns_stashed_list_witness :
  _metadata_api keep_text 1 Sample.api_resolver "" Sample.api_world
  = Some (Ok (Sample.api_post, Sample.api_after), Sample.api_world')
  /\ _images_api Sample.api_after "" Sample.api_world'
     = Some (Ok Sample.api_pairs, Sample.api_world').
Proof.
  assert (H : _metadata_api keep_text 1 Sample.api_resolver ""
                Sample.api_world
              = Some (Ok (Sample.api_post, Sample.api_after),
                      Sample.api_world'))
    by (vm_compute; reflexivity).
  split; [exact H|].
  destruct (api_images_returns_stashed_list keep_text 1 Sample.api_resolver
              Sample.api_after "" Sample.api_world Sample.api_world'
              Sample.api_post H)
    as (client & data & imgs & stash & elems
        & _ & _ & _ & _ & Hst & _ & He & Himg).
  vm_compute in Hst. injection Hst as <-.
  vm_compute in He. injection He as <-.
  apply (Himg [VStr "https://cdn.imgchest.com/files/a1.png";
               VStr "https://cdn.imgchest.com/files/b2.jpg"]).
  repeat constructor.
Defined.

Lemma api_metadata_gallery_id_no_image_count_witness :
  (getitem Sample.post_data "image_count" = Ok (VInt 2)
   /\ getitem Sample.api_post "gallery_id" = Ok (VStr Sample.gid)
   /\ getitem Sample.api_post "image_count" = Raise (KeyError "image_count"))
  /\
  (exists post self',
     _metadata_api keep_text 1 Sample.api_resolver "" Sample.api_world
     = Some (Ok (post, self'), Sample.api_world')).
Proof.
  destruct (api_metadata_gallery_id_no_image_count keep_text 1
              Sample.api_resolver "" Sample.api_world) as [Always Returns].
  split.
  - split; [reflexivity|].
    apply (Always Sample.api_post Sample.api_after Sample.api_world').
    vm_compute. reflexivity.
  - destruct Sample.post_data as [| | | | | |d| |] eqn:D; try discriminate D.
    injection D as D.
    eapply (Returns Sample.client d Sample.api_world').
    + reflexivity.
    + subst d. vm_compute. reflexivity.
    + subst d. vm_compute. reflexivity.
    + subst d. vm_compute. reflexivity.
    + repeat constructor; do 2 eexists; split; reflexivity.
Defined.

Lemma api_images_before_metadata_fails_witness :
  call_images Html.basic_charref Sample.api_resolver "" Sample.api_world
  = Some (Raise (AttributeError "_image_list"), Sample.api_world)
  /\
  (exists stash,
     _image_list Sample.api_after = Some stash /\
     call_images Html.basic_charref Sample.api_after "" Sample.api_world'
     = _images_api Sample.api_after "" Sample.api_world'
     /\ _images_api Sample.api_after "" Sample.api_world'
        <> Some (Raise (AttributeError "_image_list"), Sample.api_world')).
Proof.
  destruct (api_images_before_metadata_fails keep_text Html.basic_charref
              Sample.gid "0" "123456789abcdef") as [Before After].
  split.
  - apply Before.
  - destruct (After 1 "" Sample.api_world Sample.api_world'
                Sample.api_post Sample.api_after) as (stash & Hs & Hi).
    + vm_compute. reflexivity.
    + exists stash. split; [exact Hs|]. apply Hi.
Defined.

(** *** The listing *)

(** C2, the claim as stated fails: a reply that is not JSON ends the
    iteration with the error of the decoder, not silently. *)
Lemma items_raises_on_invalid_json :
  Json.loads (text Sample.html_reply) = Raise JSONDecodeError
  /\ User.items plain_unquote 1 Sample.someone
       (Sample.start [Sample.html_reply])
     = Some (Raise JSONDecodeError,
             mkWorld []
               [EvRequest (listing_request plain_unquote Sample.someone 1);
                EvJson (text Sample.html_reply)]).
Proof. split; vm_compute; reflexivity. Qed.

Lemma items_pages_and_silent_stop_witness :
  (exists tr',
     User.items plain_unquote 3 Sample.someone
       (Sample.start
          [Sample.first_listing; Sample.empty_listing;
           Sample.end_of_listing])
     = Some (Ok tt, mkWorld [] tr')
     /\ requests_of tr'
        = [listing_request plain_unquote Sample.someone 1;
           listing_request plain_unquote Sample.someone 2;
           listing_request plain_unquote Sample.someone 3])
  /\
  (exists tr',
     User.items plain_unquote 3 Sample.someone
       (Sample.start
          [Sample.first_listing; Sample.empty_listing; Sample.html_reply])
     = Some (Raise JSONDecodeError, mkWorld [] tr')
     /\ requests_of tr'
        = [listing_request plain_unquote Sample.someone 1;
           listing_request plain_unquote Sample.someone 2;
           listing_request plain_unquote Sample.someone 3]).
Proof.
  assert (Hg : Forall listing [Sample.first_listing; Sample.empty_listing]).
  { repeat constructor.
    - do 2 eexists. split; [vm_compute; reflexivity|].
      split; [vm_compute; reflexivity|].
      repeat constructor; do 2 eexists; split; reflexivity.
    - do 2 eexists. split; [vm_compute; reflexivity|].
      split; [vm_compute; reflexivity | constructor]. }
  split.
  - refine (proj1 (items_pages_and_silent_stop plain_unquote Sample.someone
                     [Sample.first_listing; Sample.empty_listing]
                     Sample.end_of_listing [] [] 3 Hg _) _).
    + simpl. lia.
    + do 2 eexists. split; vm_compute; reflexivity.
  - refine (proj2 (items_pages_and_silent_stop plain_unquote Sample.someone
                     [Sample.first_listing; Sample.empty_listing]
                     Sample.html_reply [] [] 3 Hg _)
                  JSONDecodeError _).
    + simpl. lia.
    + vm_compute. reflexivity.
Defined.

(** ** More runs of the API client *)

Lemma call_requests_and_waits_witness :
  exists (taken : list (result response)) (tr' : list event),
    inbox (Sample.start
             [Sample.slow_down; Sample.slow_down; Sample.post_reply])
    = (taken ++ inbox Sample.call_world')%list /\
    trace Sample.call_world' = ([] ++ tr')%list /\
    1 <= List.length taken /\
    requests_of tr'
    = repeat (mkRequest (API.root ++ Sample.endpoint)
                (API.call_kwargs Sample.client))
             (List.length taken) /\
    waits_of tr' = repeat 600%Z (List.length taken - 1) /\
    List.length (decodes_of tr') <= 1.
Proof.
  apply (call_requests_and_waits Sample.client Sample.endpoint 3
           (Sample.start
              [Sample.slow_down; Sample.slow_down; Sample.post_reply])
           Sample.call_world' (Ok Sample.post_data)).
  vm_compute. reflexivity.
Defined.

Lemma call_raises_on_unusable_body_witness :
  API._call 1 Sample.client Sample.endpoint
    (Sample.start [Sample.html_reply])
  = Some (Raise JSONDecodeError,
          mkWorld []
            [api_request Sample.client (API.root ++ Sample.endpoint);
             EvJson (text Sample.html_reply)])
  /\ API._call 1 Sample.client Sample.endpoint
       (Sample.start [Sample.no_data_reply])
     = Some (Raise (KeyError "data"),
             mkWorld []
               [api_request Sample.client (API.root ++ Sample.endpoint);
                EvJson (text Sample.no_data_reply)])
  /\ API._call 1 Sample.client Sample.endpoint
       (Sample.start [Sample.list_reply])
     = Some (Raise TypeError,
             mkWorld []
               [api_request Sample.client (API.root ++ Sample.endpoint);
                EvJson (text Sample.list_reply)]).
Proof.
  split; [|split].
  - refine (proj1 (call_raises_on_unusable_body Sample.client Sample.endpoint
                     [] Sample.html_reply [] [] 1 _ _ _) JSONDecodeError _).
    + constructor.
    + reflexivity.
    + simpl. lia.
    + vm_compute. reflexivity.
  - refine (proj1 (proj2 (call_raises_on_unusable_body Sample.client
                            Sample.endpoint [] Sample.no_data_reply [] [] 1
                            _ _ _))
              [("status", VStr "ok")] _ _).
    + constructor.
    + reflexivity.
    + simpl. lia.
    + vm_compute. reflexivity.
    + reflexivity.
  - refine (proj2 (proj2 (call_raises_on_unusable_body Sample.client
                            Sample.endpoint [] Sample.list_reply [] [] 1
                            _ _ _))
              (VList [VInt 1; VInt 2]) _ _).
    + constructor.
    + reflexivity.
    + simpl. lia.
    + vm_compute. reflexivity.
    + intros d. discriminate.
Defined.

Lemma endpoints_send_bearer_token_witness :
  exists (tr' : list event) (n : nat),
    trace Sample.call_world' = ([] ++ tr')%list /\ 1 <= n /\
    requests_of tr'
    = repeat (bearer_request Sample.token
                ("https://api.imgchest.com/v1/" ++ "post" ++ "/" ++ Sample.gid))
             n.
Proof.
  refine (proj1 (proj2 (endpoints_send_bearer_token Sample.token Sample.gid 3
                          (Sample.start
                             [Sample.slow_down; Sample.slow_down;
                              Sample.post_reply])
                          Sample.call_world' (Ok Sample.post_data))) _).
  vm_compute. reflexivity.
Defined.
(** ** More runs of page-scrape mode *)

Lemma metadata_copies_each_listed_field_witness :
  exists md,
    metadata Html.basic_charref Sample.scraper Sample.full_page
      (Sample.start [])
    = Some (Ok (VDict md),
            decoded (embedded_text Html.basic_charref Sample.full_page)
              (Sample.start []))
    /\ forall a, In a attributes ->
                 dict_get a md = dict_get a (Sample.post_of Sample.full_page).
Proof.
  apply (metadata_copies_each_listed_field Html.basic_charref Sample.scraper
           Sample.full_page (Sample.start [])
           (Sample.decodes_to Sample.full_page)
           (Sample.props_of Sample.full_page)
           (Sample.post_of Sample.full_page)).
  - apply not_occurs. vm_compute. reflexivity.
  - vm_compute. reflexivity.
  - vm_compute. reflexivity.
  - vm_compute. reflexivity.
Defined.

Lemma metadata_keys_are_allow_listed_witness :
  exists md,
    Sample.full_metadata = VDict md
    /\ dict_get "gallery_id" md = Some (VStr (gallery_id Sample.scraper))
    /\ forall k, In k (keys md) ->
                 k = "gallery_id" \/ k = "tags" \/ In k attributes.
Proof.
  apply (metadata_keys_are_allow_listed Html.basic_charref Sample.scraper
           Sample.full_page (Sample.start [])
           (decoded (embedded_text Html.basic_charref Sample.full_page)
              (Sample.start []))).
  vm_compute. reflexivity.
Defined.

Lemma tags_joined_in_order_witness :
  exists md,
    metadata Html.basic_charref Sample.scraper Sample.full_page
      (Sample.start [])
    = Some (Ok (VDict md),
            decoded (embedded_text Html.basic_charref Sample.full_page)
              (Sample.start []))
    /\ dict_get "tags" md = Some (VStr (join "," ["sea"; "sun"])).
Proof.
  apply (tags_joined_in_order Html.basic_charref Sample.scraper
           Sample.full_page (Sample.start [])
           (Sample.decodes_to Sample.full_page)
           (Sample.props_of Sample.full_page)
           (Sample.post_of Sample.full_page)).
  - apply not_occurs. vm_compute. reflexivity.
  - vm_compute. reflexivity.
  - vm_compute. reflexivity.
  - vm_compute. reflexivity.
  - vm_compute. reflexivity.
Defined.

Lemma tags_dropped_when_not_joinable_witness :
  exists md,
    metadata Html.basic_charref Sample.scraper Sample.odd_tags_page
      (Sample.start [])
    = Some (Ok (VDict md),
            decoded (embedded_text Html.basic_charref Sample.odd_tags_page)
              (Sample.start []))
    /\ dict_get "tags" md = None
    /\ forall a, In a attributes ->
                 dict_get a md
                 = dict_get a (Sample.post_of Sample.odd_tags_page).
Proof.
  apply (tags_dropped_when_not_joinable Html.basic_charref Sample.scraper
           Sample.odd_tags_page (Sample.start [])
           (Sample.decodes_to Sample.odd_tags_page)
           (Sample.props_of Sample.odd_tags_page)
           (Sample.post_of Sample.odd_tags_page)
           (VList [VStr "sea"; VInt 7])).
  - apply not_occurs. vm_compute. reflexivity.
  - vm_compute. reflexivity.
  - vm_compute. reflexivity.
  - vm_compute. reflexivity.
  - vm_compute. reflexivity.
  - do 4 right. exists [VStr "sea"; VInt 7], (VInt 7).
    split; [reflexivity|]. split; [simpl; tauto | discriminate].
Defined.

Lemma images_pairs_each_link_with_none_witness :
  images Html.basic_charref Sample.scraper Sample.full_page (Sample.start [])
  = Some (Ok [(VStr "https://cdn.imgchest.com/files/a1.png", VNone);
              (VStr "https://cdn.imgchest.com/files/b2.jpg", VNone)],
          decoded (embedded_text Html.basic_charref Sample.full_page)
            (Sample.start [])).
Proof.
  apply (images_pairs_each_link_with_none Html.basic_charref Sample.scraper
           Sample.full_page (Sample.start [])
           (Sample.decodes_to Sample.full_page)
           [VDict [("link", VStr "https://cdn.imgchest.com/files/a1.png")];
            VDict [("link", VStr "https://cdn.imgchest.com/files/b2.jpg")]]
           [VStr "https://cdn.imgchest.com/files/a1.png";
            VStr "https://cdn.imgchest.com/files/b2.jpg"]).
  - vm_compute. reflexivity.
  - vm_compute. reflexivity.
  - repeat constructor.
Defined.

Lemma images_empty_when_one_file_has_no_link_witness :
  images Html.basic_charref Sample.scraper Sample.linkless_file_page
    (Sample.start [])
  = Some (Ok [],
          decoded
            (embedded_text Html.basic_charref Sample.linkless_file_page)
            (Sample.start [])).
Proof.
  apply (images_empty_when_one_file_has_no_link Html.basic_charref
           Sample.scraper Sample.linkless_file_page (Sample.start [])
           (Sample.decodes_to Sample.linkless_file_page)
           [VDict [("link", VStr "https://cdn.imgchest.com/files/a1.png")];
            VDict [("id", VStr "b2")]]
           (VDict [("id", VStr "b2")]) (KeyError "link")).
  - vm_compute. reflexivity.
  - vm_compute. reflexivity.
  - simpl. tauto.
  - reflexivity.
Defined.

Lemma retrieve_page_data_reads_first_attribute_witness :
  _retrieve_page_data Html.basic_charref Sample.full_page (Sample.start [])
  = Some (Json.loads
            (Html.unescape Html.basic_charref
               (html_quote (json_text Sample.full_json))),
          decoded
            (Html.unescape Html.basic_charref
               (html_quote (json_text Sample.full_json)))
            (Sample.start []))
  /\ (~ occurs_in "&" (html_quote (json_text Sample.full_json)) ->
      Html.unescape Html.basic_charref
        (html_quote (json_text Sample.full_json))
      = html_quote (json_text Sample.full_json)).
Proof.
  apply (retrieve_page_data_reads_first_attribute Html.basic_charref
           Sample.full_page "<div id=app "
           (html_quote (json_text Sample.full_json)) "></div>"
           (Sample.start [])).
  - vm_compute. reflexivity.
  - apply (find_is_first data_page_marker Sample.full_page "<div id=app "
             (html_quote (json_text Sample.full_json) ++ dq ++ "></div>")).
    + vm_compute. reflexivity.
    + vm_compute. reflexivity.
  - apply not_occurs. vm_compute. reflexivity.
Defined.

Lemma unterminated_attribute_counts_as_absent_witness :
  metadata Html.basic_charref Sample.scraper Sample.unclosed_page
    (Sample.start [])
  = Some (Ok (VDict [("gallery_id", VStr (gallery_id Sample.scraper))]),
          decoded "{}" (Sample.start []))
  /\ images Html.basic_charref Sample.scraper Sample.unclosed_page
       (Sample.start [])
     = Some (Ok [], decoded "{}" (Sample.start [])).
Proof.
  apply (unterminated_attribute_counts_as_absent Html.basic_charref
           Sample.scraper Sample.unclosed_page "<div id=app "
           "{&quot;props&quot;:{}}></div>" (Sample.start [])).
  - apply not_occurs. vm_compute. reflexivity.
  - reflexivity.
  - apply (find_is_first data_page_marker Sample.unclosed_page "<div id=app "
             "{&quot;props&quot;:{}}></div>").
    + reflexivity.
    + vm_compute. reflexivity.
  - apply not_occurs. vm_compute. reflexivity.
Defined.

(** ** More runs of API mode *)

Lemma api_metadata_raises_on_missing_field_witness :
  _metadata_api keep_text 1 Sample.api_resolver ""
    (Sample.start [Sample.no_created_reply])
  = Some (Raise (KeyError "created"),
          Sample.after_post [Sample.no_created_reply])
  /\ _metadata_api keep_text 1 Sample.api_resolver ""
       (Sample.start [Sample.no_images_reply])
     = Some (Raise (KeyError "images"),
             Sample.after_post [Sample.no_images_reply])
  /\ _metadata_api keep_text 1 Sample.api_resolver ""
       (Sample.start [Sample.bare_image_reply])
     = Some (Raise (KeyError "created"),
             Sample.after_post [Sample.bare_image_reply]).
Proof.
  split; [|split].
  - refine (proj1 (api_metadata_raises_on_missing_field keep_text 1
                     Sample.api_resolver ""
                     (Sample.start [Sample.no_created_reply])
                     (Sample.after_post [Sample.no_created_reply])
                     Sample.client (Sample.data_of Sample.no_created_reply)
                     _ _) _).
    + reflexivity.
    + vm_compute. reflexivity.
    + vm_compute. reflexivity.
  - refine (proj1 (proj2 (api_metadata_raises_on_missing_field keep_text 1
                     Sample.api_resolver ""
                     (Sample.start [Sample.no_images_reply])
                     (Sample.after_post [Sample.no_images_reply])
                     Sample.client (Sample.data_of Sample.no_images_reply)
                     _ _))
                  (VStr "2023-05-01T10:00:00.000000Z") _ _).
    + reflexivity.
    + vm_compute. reflexivity.
    + vm_compute. reflexivity.
    + vm_compute. reflexivity.
  - refine (proj2 (proj2 (api_metadata_raises_on_missing_field keep_text 1
                     Sample.api_resolver ""
                     (Sample.start [Sample.bare_image_reply])
                     (Sample.after_post [Sample.bare_image_reply])
                     Sample.client (Sample.data_of Sample.bare_image_reply)
                     _ _))
                  (VStr "2023-05-01T10:00:00.000000Z")
                  [VDict [("id", VStr "a1");
                          ("created", VStr "2023-05-01T10:00:01.000000Z")]]
                  [("id", VStr "b2")]
                  [VDict [("id", VStr "c3");
                          ("created", VStr "2023-05-01T10:00:03.000000Z")]]
                  _ _ _ _).
    + reflexivity.
    + vm_compute. reflexivity.
    + vm_compute. reflexivity.
    + vm_compute. reflexivity.
    + repeat constructor; do 2 eexists; split; reflexivity.
    + reflexivity.
Defined.

Lemma api_metadata_keeps_other_fields_witness :
  exists (client : ImagechestAPI) (d : dict) (created : value),
    api Sample.api_resolver = Some client /\
    API.post 1 client (gallery_id Sample.api_resolver) Sample.api_world
    = Some (Ok (VDict d), Sample.api_world') /\
    dict_get "created" d = Some created /\
    getitem Sample.api_post "date" = Ok (keep_text created datetime_format) /\
    forall k, k <> "date" -> k <> "gallery_id" ->
              k <> "image_count" -> k <> "images" ->
              getitem Sample.api_post k = getitem (VDict d) k.
Proof.
  apply (api_metadata_keeps_other_fields keep_text 1 Sample.api_resolver
           Sample.api_after "" Sample.api_world Sample.api_world'
           Sample.api_post).
  vm_compute. reflexivity.
Defined.

Lemma api_metadata_then_images_witness :
  exists (post : value) (self' : ImagechestGalleryExtractor),
    _metadata_api keep_text 1 Sample.api_resolver "" Sample.api_world
    = Some (Ok (post, self'), Sample.api_world')
    /\ forall (page' : string) (w2 : world),
         _images_api self' page' w2
         = Some (Ok (combine
                       [VStr "https://cdn.imgchest.com/files/a1.png";
                        VStr "https://cdn.imgchest.com/files/b2.jpg"]
                       (map (dated keep_text)
                          (Sample.images_of Sample.post_reply))),
                 w2).
Proof.
  apply (api_metadata_then_images keep_text 1 Sample.api_resolver ""
           Sample.api_world Sample.api_world' Sample.client
           (Sample.data_of Sample.post_reply)
           (VStr "2023-05-01T10:00:00.000000Z")).
  - reflexivity.
  - vm_compute. reflexivity.
  - vm_compute. reflexivity.
  - vm_compute. reflexivity.
  - repeat constructor; do 2 eexists; split; reflexivity.
  - repeat constructor.
Defined.

Lemma call_metadata_keeps_the_mode_witness :
  gallery_id Sample.api_after = gallery_id Sample.api_resolver
  /\ gallery_url Sample.api_after = gallery_url Sample.api_resolver
  /\ api Sample.api_after = api Sample.api_resolver
  /\ metadata_impl Sample.api_after = metadata_impl Sample.api_resolver
  /\ images_impl Sample.api_after = images_impl Sample.api_resolver
  /\ (metadata_impl Sample.api_resolver = OfClass ->
      Sample.api_after = Sample.api_resolver
      /\ inbox Sample.api_world' = inbox Sample.api_world).
Proof.
  apply (call_metadata_keeps_the_mode Html.basic_charref keep_text 1
           Sample.api_resolver Sample.api_after "" Sample.api_world
           Sample.api_world' Sample.api_post).
  vm_compute. reflexivity.
Defined.

Lemma mode_decides_the_source_witness :
  (inbox (decoded "{}" Sample.api_world) = inbox Sample.api_world
   /\ exists tr',
        trace (decoded "{}" Sample.api_world)
        = (trace Sample.api_world ++ tr')%list
        /\ requests_of tr' = [])
  /\
  (exists (tr' : list event) (n : nat),
     trace Sample.api_world' = (trace Sample.api_world ++ tr')%list
     /\ 1 <= n
     /\ requests_of tr'
        = repeat (bearer_request Sample.token
                    ("https://api.imgchest.com/v1/post/" ++ Sample.gid))
                 n).
Proof.
  split.
  - refine (proj1 (mode_decides_the_source Html.basic_charref keep_text
                     Sample.gid Sample.empty_page 1 Sample.api_world
                     (decoded "{}" Sample.api_world)
                     (Ok (VDict [("gallery_id", VStr Sample.gid)],
                          Sample.scraper)))
                  None (or_introl eq_refl) _).
    vm_compute. reflexivity.
  - refine (proj2 (mode_decides_the_source Html.basic_charref keep_text
                     Sample.gid "" 1 Sample.api_world Sample.api_world'
                     (Ok (Sample.api_post, Sample.api_after)))
                  "0"%char "123456789abcdef" _).
    vm_compute. reflexivity.
Defined.
(** ** More runs of the listing *)

Lemma items_yields_each_gallery_in_order_witness :
  exists tr',
    User.items plain_unquote 3 Sample.someone
      (mkWorld
         (map Ok [Sample.first_listing; Sample.empty_listing]
            ++ Ok Sample.end_of_listing :: [Ok Sample.first_listing])%list
         [])
    = Some (Ok tt, mkWorld [Ok Sample.first_listing] ([] ++ tr')%list)
    /\ yields_of tr'
       = map queued
           (concat [Sample.galleries_of Sample.first_listing;
                    Sample.galleries_of Sample.empty_listing]).
Proof.
  apply (items_yields_each_gallery_in_order plain_unquote Sample.someone
           [Sample.first_listing; Sample.empty_listing]).
  - constructor; [|constructor; [|constructor]].
    + exists (Sample.body_of Sample.first_listing).
      split; [vm_compute; reflexivity|].
      split; [vm_compute; reflexivity|].
      repeat constructor; do 2 eexists; split; reflexivity.
    + exists (Sample.body_of Sample.empty_listing).
      split; [vm_compute; reflexivity|].
      split; [vm_compute; reflexivity|].
      constructor.
  - exists (Sample.body_of Sample.end_of_listing), (KeyError "data").
    split; vm_compute; reflexivity.
  - simpl. lia.
Defined.

Lemma items_raises_on_gallery_without_link_witness :
  exists tr',
    User.items plain_unquote 3 Sample.someone
      (mkWorld
         (map Ok [Sample.first_listing]
            ++ Ok Sample.linkless_listing :: [Ok Sample.first_listing])%list
         [])
    = Some (Raise (KeyError "link"),
            mkWorld [Ok Sample.first_listing] ([] ++ tr')%list)
    /\ yields_of tr'
       = map queued
           (concat [Sample.galleries_of Sample.first_listing]
              ++ [VDict [("id", VStr "abcdefghijk");
                         ("link",
                          VStr "https://imgchest.com/p/abcdefghijk")]])%list.
Proof.
  refine (proj1 (items_raises_on_gallery_without_link plain_unquote
                   Sample.someone [Sample.first_listing]
                   [Sample.galleries_of Sample.first_listing]
                   Sample.linkless_listing
                   (Sample.body_of Sample.linkless_listing)
                   [VDict [("id", VStr "abcdefghijk");
                           ("link",
                            VStr "https://imgchest.com/p/abcdefghijk")]]
                   [VDict [("id", VStr "0123456789a");
                           ("link",
                            VStr "https://imgchest.com/p/0123456789a")]]
                   (VDict [("id", VStr "ABCDEFGHIJK")])
                   [Ok Sample.first_listing] [] 3 _ _ _ _ _)
                [("id", VStr "ABCDEFGHIJK")] eq_refl eq_refl).
  - constructor; [|constructor].
    exists (Sample.body_of Sample.first_listing).
    split; [vm_compute; reflexivity|].
    split; [vm_compute; reflexivity|].
    repeat constructor; do 2 eexists; split; reflexivity.
  - vm_compute. reflexivity.
  - vm_compute. reflexivity.
  - repeat constructor; do 2 eexists; split; reflexivity.
  - simpl. lia.
Defined.

Lemma items_raises_when_data_is_not_iterable_witness :
  exists tr',
    User.items plain_unquote 3 Sample.someone
      (mkWorld
         (map Ok [Sample.first_listing]
            ++ Ok Sample.null_listing :: [Ok Sample.first_listing])%list
         [])
    = Some (Raise TypeError,
            mkWorld [Ok Sample.first_listing] ([] ++ tr')%list)
    /\ yields_of tr'
       = map queued (concat [Sample.galleries_of Sample.first_listing]).
Proof.
  apply (items_raises_when_data_is_not_iterable plain_unquote Sample.someone
           [Sample.first_listing]
           [Sample.galleries_of Sample.first_listing]
           Sample.null_listing (Sample.body_of Sample.null_listing) VNone).
  - constructor; [|constructor].
    exists (Sample.body_of Sample.first_listing).
    split; [vm_compute; reflexivity|].
    split; [vm_compute; reflexivity|].
    repeat constructor; do 2 eexists; split; reflexivity.
  - vm_compute. reflexivity.
  - vm_compute. reflexivity.
  - left. reflexivity.
  - simpl. lia.
Defined.

Lemma items_on_transport_exception_witness :
  (exists tr',
     User.items plain_unquote 3 Sample.someone
       (mkWorld
          (map Ok [Sample.first_listing]
             ++ Raise (HttpError "503 Service Unavailable")
                  :: [Ok Sample.first_listing])%list
          [])
     = Some (Raise (HttpError "503 Service Unavailable"),
             mkWorld [Ok Sample.first_listing] ([] ++ tr')%list)
     /\ yields_of tr'
        = map queued (concat [Sample.galleries_of Sample.first_listing]))
  /\
  (exists tr',
     User.items plain_unquote 3 Sample.someone
       (mkWorld
          (map Ok [Sample.first_listing]
             ++ Raise (KeyError "host") :: [Ok Sample.first_listing])%list
          [])
     = Some (Ok tt, mkWorld [Ok Sample.first_listing] ([] ++ tr')%list)
     /\ yields_of tr'
        = map queued (concat [Sample.galleries_of Sample.first_listing])).
Proof.
  split.
  - apply (items_on_transport_exception plain_unquote Sample.someone
             [Sample.first_listing]
             [Sample.galleries_of Sample.first_listing]
             (HttpError "503 Service Unavailable")).
    + constructor; [|constructor].
      exists (Sample.body_of Sample.first_listing).
      split; [vm_compute; reflexivity|].
      split; [vm_compute; reflexivity|].
      repeat constructor; do 2 eexists; split; reflexivity.
    + simpl. lia.
  - apply (items_on_transport_exception plain_unquote Sample.someone
             [Sample.first_listing]
             [Sample.galleries_of Sample.first_listing]
             (KeyError "host")).
    + constructor; [|constructor].
      exists (Sample.body_of Sample.first_listing).
      split; [vm_compute; reflexivity|].
      split; [vm_compute; reflexivity|].
      repeat constructor; do 2 eexists; split; reflexivity.
    + simpl. lia.
Defined.
(** ** The patterns on URLs *)

Lemma gallery_pattern_captures_an_id_witness :
  exists gid, Some "abcdefghijk" = Some gid /\ is_gallery_id gid = true.
Proof.
  apply (gallery_pattern_captures_an_id "https://imgchest.com/p/abcdefghijk"
           (Some "abcdefghijk")).
  vm_compute. reflexivity.
Defined.

Lemma user_pattern_captures_a_name_witness :
  exists name, Some "USER" = Some name /\ name <> ""
               /\ all_of Pattern.not_separator name.
Proof.
  apply (user_pattern_captures_a_name "https://imgchest.com/u/USER?page=2"
           (Some "USER")).
  vm_compute. reflexivity.
Defined.

Lemma gallery_pattern_reads_the_id_back_witness :
  Pattern.match_group1 Pattern.gallery
    ("http://" ++ "www." ++ "imgchest.com" ++ "/p/" ++ Sample.gid
       ++ "/zip?x=1")
  = Some (Some Sample.gid)
  /\ gallery_url (__init__ Sample.gid)
     = Some ("https://imgchest.com/p/" ++ Sample.gid)
  /\ Pattern.match_group1 Pattern.gallery
       ("https://imgchest.com/p/" ++ Sample.gid)
     = Some (Some Sample.gid).
Proof.
  apply (gallery_pattern_reads_the_id_back "http://" "www." Sample.gid
           "/zip?x=1").
  - simpl. tauto.
  - simpl. tauto.
  - vm_compute. reflexivity.
Defined.

Lemma patterns_do_not_overlap_witness :
  Pattern.match_group1 Pattern.user "www.imgchest.com/p/abcdefghijk" = None.
Proof.
  apply (patterns_do_not_overlap "www.imgchest.com/p/abcdefghijk"
           (Some "abcdefghijk")).
  vm_compute. reflexivity.
Defined.

Lemma user_pattern_reads_the_name_back_witness :
  Pattern.match_group1 Pattern.user
    ("https://" ++ "" ++ "imgchest.com" ++ "/u/" ++ "some%20one"
       ++ "?page=2")
  = Some (Some "some%20one").
Proof.
  apply (user_pattern_reads_the_name_back "https://" "" "some%20one"
           "?page=2").
  - simpl. tauto.
  - simpl. tauto.
  - discriminate.
  - vm_compute. reflexivity.
  - right. exists "?"%char, "page=2". split; reflexivity.
Defined.
